(** * Ai_taskplanner: the plan generators, the request handler and the
      dependency normalisation of [app.py]

    The development embeds the decision logic of [app.py]:
    - [generate_plan_locally], the keyword heuristic (lines 72-97);
    - [generate_plan_with_groq], the remote generator (lines 47-68), whose
      completion service is an input of the model;
    - [generate_plan_endpoint], the handler of POST /api/generate-plan
      (lines 106-152), over an explicit document store;
    - the write and read normalisation of a task's [dependencies]
      (lines 133-135 and 165-171), with [json.dumps] and [json.loads];
    - lines 126-152 once more on objects in a heap (module [Objects]), to
      show that storing the tasks leaves the objects of the response alone;
    - [get_all_goals], the handler of GET /api/get-all-goals (lines
      156-186), whose queries and [strftime] are inputs of the model.

    Scope of the model.  A Python [str] is a [string] whose characters are
    the code points 0-255; [str.lower], [str.strip], [\d] and [\s] are
    exact on that range.  Python values are the values [json.loads] builds,
    without floating-point numbers.  Interpreter resource limits (recursion
    depth, the digit limit of [int]) are not modelled. *)

From Stdlib Require Import String Ascii List ZArith NArith Bool Lia.
From Stdlib Require Import DecimalString DecimalPos DecimalFacts.
From stdpp Require Import base option list.
Import ListNotations.
Local Open Scope list_scope.
Local Open Scope string_scope.

(** ** Text: the [str] operations the program uses *)

Module Text.

Definition code (c : ascii) : N := N_of_ascii c.

(** [c.isspace()], also the class [\s] of [re] on [str] patterns. *)
Definition isspace (c : ascii) : bool :=
  let n := code c in
  ((9 <=? n) && (n <=? 13) || (28 <=? n) && (n <=? 32)
   || (n =? 133) || (n =? 160))%N.

(** The class [\d] of [re] on [str] patterns: decimal digits. *)
Definition isdecimal (c : ascii) : bool :=
  let n := code c in ((48 <=? n) && (n <=? 57))%N.

(** One character of [str.lower()]: A-Z and the upper-case letters of
    Latin-1 (all of 0xC0-0xDE but the multiplication sign 0xD7). *)
Definition lower_char (c : ascii) : ascii :=
  let n := code c in
  if ((65 <=? n) && (n <=? 90)
      || (192 <=? n) && (n <=? 222) && negb (n =? 215))%N
  then ascii_of_N (n + 32) else c.

(** [s.lower()] *)
Fixpoint lower (s : string) : string :=
  match s with
  | EmptyString => EmptyString
  | String c s' => String (lower_char c) (lower s')
  end.

(** [s.lstrip()], [s.rstrip()] and [s.strip()] *)
Fixpoint lstrip (s : string) : string :=
  match s with
  | EmptyString => EmptyString
  | String c s' => if isspace c then lstrip s' else s
  end.

Fixpoint rstrip (s : string) : string :=
  match s with
  | EmptyString => EmptyString
  | String c s' =>
      match rstrip s' with
      | EmptyString => if isspace c then EmptyString else String c EmptyString
      | r => String c r
      end
  end.

Definition strip (s : string) : string := rstrip (lstrip s).

(** [s.startswith(p)] *)
Fixpoint startswith (p s : string) : bool :=
  match p, s with
  | EmptyString, _ => true
  | String a p', String b s' => Ascii.eqb a b && startswith p' s'
  | String _ _, EmptyString => false
  end.

(** [needle in hay] on two [str] *)
Fixpoint contains (needle hay : string) : bool :=
  startswith needle hay
  || match hay with
     | EmptyString => false
     | String _ hay' => contains needle hay'
     end.

(** [sep.join(parts)] *)
Fixpoint join (sep : string) (parts : list string) : string :=
  match parts with
  | [] => EmptyString
  | [p] => p
  | p :: ps => p ++ sep ++ join sep ps
  end.

End Text.

(** ** The pattern [(\d+)\s*hour] of [re.search] *)

Module Re.
Import Text.

(** A greedy [p*] followed by the rest of the pattern [k]: the longest run
    is tried first and given back one character at a time, as the
    backtracking matcher of [re] does.  The result is the text the star
    took. *)
Fixpoint star (p : ascii -> bool) (k : string -> bool) (s : string)
  : option string :=
  match s with
  | String c s' =>
      if p c then
        match star p k s' with
        | Some m => Some (String c m)
        | None => if k s then Some EmptyString else None
        end
      else if k s then Some EmptyString else None
  | EmptyString => if k s then Some EmptyString else None
  end.

(** [\s*hour] at the head of [s] *)
Definition spaces_hour (s : string) : bool :=
  match star isspace (startswith "hour") s with
  | Some _ => true
  | None => false
  end.

(** [re.match(r"(\d+)\s*hour", s)]: group 1 of a match at the head. *)
Definition match_hours (s : string) : option string :=
  match s with
  | String c s' =>
      if isdecimal c
      then option_map (String c) (star isdecimal spaces_hour s')
      else None
  | EmptyString => None
  end.

(** [re.search(r"(\d+)\s*hour", s)]: group 1 of the leftmost match. *)
Fixpoint search_hours (s : string) : option string :=
  match match_hours s with
  | Some g => Some g
  | None =>
      match s with
      | String _ s' => search_hours s'
      | EmptyString => None
      end
  end.

End Re.

(** ** Python values *)

(** The values [json.loads] builds and the handler passes around. *)
#[local] Unset Elimination Schemes.
Inductive pyval : Type :=
| PyNone
| PyBool (b : bool)
| PyInt (z : Z)
| PyStr (s : string)
| PyList (items : list pyval)
| PyDict (entries : list (string * pyval)).
#[local] Set Elimination Schemes.

(** Truth value of [v] in [if v] and [not v]. *)
Definition truthy (v : pyval) : bool :=
  match v with
  | PyNone => false
  | PyBool b => b
  | PyInt z => negb (z =? 0)%Z
  | PyStr s => negb (String.eqb s "")
  | PyList items => match items with [] => false | _ => true end
  | PyDict entries => match entries with [] => false | _ => true end
  end.

(** [d[k]] on the entries of a [dict]; [None] is a [KeyError]. *)
Fixpoint dict_lookup (k : string) (d : list (string * pyval)) : option pyval :=
  match d with
  | [] => None
  | (k', v) :: d' => if String.eqb k k' then Some v else dict_lookup k d'
  end.

(** [k in c] for a [str] [k]: a key of a [dict], an element of a [list], a
    substring of a [str]; [None] is the [TypeError] of the other types. *)
Definition py_in (k : string) (c : pyval) : option bool :=
  match c with
  | PyDict d => Some (match dict_lookup k d with Some _ => true | None => false end)
  | PyList items =>
      Some (existsb (fun v => match v with
                              | PyStr s => String.eqb k s
                              | _ => false
                              end) items)
  | PyStr s => Some (Text.contains k s)
  | PyNone | PyBool _ | PyInt _ => None
  end.

(** [t.get(k)]: [None] is the [AttributeError] of a value that is not a
    [dict]; a missing key gives Python's [None]. *)
Definition py_get (t : pyval) (k : string) : option pyval :=
  match t with
  | PyDict d => Some (match dict_lookup k d with Some v => v | None => PyNone end)
  | _ => None
  end.

(** [for x in v]: the elements the loop visits; [None] is the [TypeError]
    of a value that is not iterable. *)
Definition py_iter (v : pyval) : option (list pyval) :=
  match v with
  | PyList items => Some items
  | PyDict d => Some (map (fun e => PyStr (fst e)) d)
  | PyStr s => Some (map (fun c => PyStr (String c EmptyString)) (list_ascii_of_string s))
  | PyNone | PyBool _ | PyInt _ => None
  end.

Definition is_list (v : pyval) : bool :=
  match v with PyList _ => true | _ => false end.

(** ** The Local Plan Generator (lines 72-97) *)

Definition mk_task (description dependencies deadline : string) : pyval :=
  PyDict [("task_description", PyStr description);
          ("dependencies", PyStr dependencies);
          ("deadline", PyStr deadline)].

Definition clarify_task : pyval :=
  mk_task "Clarify and break down the goal into actionable steps." "None" "Today".
Definition hours_task (n : string) : pyval :=
  mk_task ("Work for " ++ n ++ " hour(s).") "Clarify and break down the goal" "Today".
Definition timebox_task : pyval :=
  mk_task "Work on the project (time-boxed session)." "Clarify and break down the goal" "Today".
Definition meal_task : pyval := mk_task "Take meal breaks." "None" "Today".
Definition sleep_task : pyval := mk_task "Sleep adequately." "Finish work" "Tonight".
Definition review_task : pyval :=
  mk_task "Review and adjust the plan." "Complete initial tasks" "Today".

Definition meal_words : list string := ["eat"; "lunch"; "food"; "dinner"; "breakfast"].

(** The list [tasks] that [generate_plan_locally] builds, append by append. *)
Definition local_tasks (goal_text : string) : list pyval :=
  let text := Text.lower goal_text in
  let tasks := [clarify_task] in
  let tasks :=
    match Re.search_hours text with
    | Some g1 => (tasks ++ [hours_task g1])%list
    | None => (tasks ++ [timebox_task])%list
    end in
  let tasks :=
    if existsb (fun w => Text.contains w text) meal_words
    then (tasks ++ [meal_task])%list else tasks in
  let tasks :=
    if Text.contains "sleep" text then (tasks ++ [sleep_task])%list else tasks in
  let tasks :=
    if (length tasks <? 3)%nat then (tasks ++ [review_task])%list else tasks in
  tasks.

Definition generate_plan_locally (goal_text : string) : pyval :=
  PyDict [("tasks", PyList (local_tasks goal_text))].


(** ** Outcomes *)

(** The exceptions the modelled code raises. *)
Inductive exn : Type :=
| ConnectionError
| TypeError
| KeyError
| AttributeError
| JSONDecodeError
| StoreError.

(** What evaluating a piece of the program gives: a value, an exception,
    or [Beyond] for a value the model does not hold (a [float], a
    character above code point 255). *)
Inductive result (A : Type) : Type :=
| Ok (a : A)
| Raise (e : exn)
| Beyond.
Arguments Ok {A} a.
Arguments Raise {A} e.
Arguments Beyond {A}.

Definition bind {A B : Type} (r : result A) (k : A -> result B) : result B :=
  match r with
  | Ok a => k a
  | Raise e => Raise e
  | Beyond => Beyond
  end.

Notation "'let*' x ':=' r 'in' k" := (bind r (fun x => k))
  (at level 10, x pattern, r at level 100, k at level 200).

(** ** [json.dumps] and [json.loads] *)

Module Json.

Definition dquote : ascii := ascii_of_N 34.
Definition backslash : ascii := ascii_of_N 92.
Definition chr (c : ascii) : string := String c EmptyString.

Definition hex_digit (n : N) : ascii :=
  if (n <? 10)%N then ascii_of_N (48 + n) else ascii_of_N (87 + n).

(** One character of [encode_basestring_ascii]: the two-character
    escapes of [ESCAPE_DCT], the printable ASCII as it is, any other
    character as [\u00xx] with lower-case digits. *)
Definition escape_char (c : ascii) : string :=
  let n := Text.code c in
  if (n =? 34)%N then String backslash (chr dquote)
  else if (n =? 92)%N then String backslash (chr backslash)
  else if (n =? 8)%N then String backslash "b"
  else if (n =? 12)%N then String backslash "f"
  else if (n =? 10)%N then String backslash "n"
  else if (n =? 13)%N then String backslash "r"
  else if (n =? 9)%N then String backslash "t"
  else if ((32 <=? n) && (n <=? 126))%N then chr c
  else String backslash
         (String "u" (String "0" (String "0"
            (String (hex_digit (n / 16)) (chr (hex_digit (n mod 16))))))).

Fixpoint escape (s : string) : string :=
  match s with
  | EmptyString => EmptyString
  | String c s' => escape_char c ++ escape s'
  end.

Definition dumps_str (s : string) : string :=
  String dquote (escape s ++ chr dquote).

Definition dumps_int (z : Z) : string :=
  DecimalString.NilZero.string_of_int (Z.to_int z).

(** [json.dumps(v)] with the default separators and [ensure_ascii]. *)
Fixpoint dumps (v : pyval) : string :=
  match v with
  | PyNone => "null"
  | PyBool true => "true"
  | PyBool false => "false"
  | PyInt z => dumps_int z
  | PyStr s => dumps_str s
  | PyList items => "[" ++ Text.join ", " (map dumps items) ++ "]"
  | PyDict entries =>
      "{" ++ Text.join ", "
               (map (fun e => (dumps_str (fst e) ++ ": " ++ dumps (snd e))%string)
                    entries)
          ++ "}"
  end.

(** The whitespace [json] skips: space, tab, line feed, carriage return. *)
Definition is_ws (c : ascii) : bool :=
  let n := Text.code c in ((n =? 32) || (n =? 9) || (n =? 10) || (n =? 13))%N.

Fixpoint skip_ws (s : string) : string :=
  match s with
  | String c s' => if is_ws c then skip_ws s' else s
  | EmptyString => EmptyString
  end.

Definition hex_value (c : ascii) : option N :=
  let n := Text.code c in
  if ((48 <=? n) && (n <=? 57))%N then Some (n - 48)%N
  else if ((97 <=? n) && (n <=? 102))%N then Some (n - 87)%N
  else if ((65 <=? n) && (n <=? 70))%N then Some (n - 55)%N
  else None.

(** A scan gives a value and the text left after it.  The value is
    [None] when it is one the model does not hold -- a [float], or a
    string with a character above code point 255 -- and the scan goes on
    all the same: whether a text is JSON does not depend on its values. *)
Definition scan (A : Type) : Type := result (option A * string).

Definition bad {A : Type} : result A := Raise JSONDecodeError.

Definition both {A B C : Type} (f : A -> B -> C) (a : option A) (b : option B)
  : option C :=
  match a, b with
  | Some x, Some y => Some (f x y)
  | _, _ => None
  end.

(** [scanstring] in strict mode, after the opening quote. *)
Fixpoint scanstring (s : string) : scan string :=
  match s with
  | EmptyString => bad
  | String c s' =>
      let n := Text.code c in
      if (n =? 34)%N then Ok (Some EmptyString, s')
      else if (n =? 92)%N then
        match s' with
        | EmptyString => bad
        | String e s'' =>
            let simple (x : N) :=
              let* (t, rest) := scanstring s'' in
              Ok (option_map (String (ascii_of_N x)) t, rest) in
            let m := Text.code e in
            if (m =? 34)%N then simple 34%N
            else if (m =? 92)%N then simple 92%N
            else if (m =? 47)%N then simple 47%N
            else if (m =? 98)%N then simple 8%N
            else if (m =? 102)%N then simple 12%N
            else if (m =? 110)%N then simple 10%N
            else if (m =? 114)%N then simple 13%N
            else if (m =? 116)%N then simple 9%N
            else if (m =? 117)%N then
              match s'' with
              | String a (String b (String c0 (String d rest))) =>
                  match hex_value a, hex_value b, hex_value c0, hex_value d with
                  | Some x, Some y, Some z, Some w =>
                      let* (t, r) := scanstring rest in
                      if ((x =? 0) && (y =? 0))%N
                      then Ok (option_map (String (ascii_of_N (16 * z + w))) t, r)
                      else Ok (None, r)
                  | _, _, _, _ => bad
                  end
              | _ => bad
              end
            else bad
        end
      else if (n <? 32)%N then bad
      else
        let* (t, rest) := scanstring s' in
        Ok (option_map (String c) t, rest)
  end.

(** The longest run of ASCII digits at the head of [s], and the rest. *)
Fixpoint span_digits (s : string) : string * string :=
  match s with
  | String c s' =>
      if Text.isdecimal c
      then let (ds, rest) := span_digits s' in (String c ds, rest)
      else (EmptyString, s)
  | EmptyString => (EmptyString, EmptyString)
  end.

Definition digits_value (ds : string) : Z :=
  fold_left (fun acc c => (10 * acc + Z.of_N (Text.code c - 48))%Z)
            (list_ascii_of_string ds) 0%Z.

Definition starts_digit (s : string) : bool :=
  match s with String c _ => Text.isdecimal c | EmptyString => false end.

(** Whether a fraction [.d] or an exponent [e d], [e+d], [e-d] follows
    the integer part: the number is then a [float]. *)
Definition float_follows (s : string) : bool :=
  match s with
  | String c s' =>
      let n := Text.code c in
      if (n =? 46)%N then starts_digit s'
      else if ((n =? 101) || (n =? 69))%N then
        match s' with
        | String g s'' =>
            if ((Text.code g =? 43) || (Text.code g =? 45))%N
            then starts_digit s'' else Text.isdecimal g
        | EmptyString => false
        end
      else false
  | EmptyString => false
  end.

(** The text after a fraction [.ddd] at the head of [s], when there is
    one; the text after an exponent [e ddd], [e+ddd], [e-ddd]. *)
Definition skip_fraction (s : string) : string :=
  match s with
  | String c s' =>
      if ((Text.code c =? 46)%N && starts_digit s')%bool
      then snd (span_digits s') else s
  | EmptyString => s
  end.

Definition skip_exponent (s : string) : string :=
  match s with
  | String c s' =>
      if ((Text.code c =? 101) || (Text.code c =? 69))%N then
        let digits :=
          match s' with
          | String g s'' =>
              if ((Text.code g =? 43) || (Text.code g =? 45))%N then s'' else s'
          | EmptyString => s'
          end in
        if starts_digit digits then snd (span_digits digits) else s
      else s
  | EmptyString => s
  end.

(** [_match_number]: an optional minus sign, then 0 or a digit 1-9 and
    more digits, then a fraction and an exponent when they follow.  With
    either the number is a [float], which the model does not hold. *)
Definition scan_number (s : string) : scan pyval :=
  let (neg, s1) :=
    match s with
    | String c r => if (Text.code c =? 45)%N then (true, r) else (false, s)
    | EmptyString => (false, s)
    end in
  match s1 with
  | String c r =>
      let n := Text.code c in
      let finish (ds rest : string) : scan pyval :=
        if float_follows rest
        then Ok (None, skip_exponent (skip_fraction rest))
        else Ok (Some (PyInt (if neg then - digits_value ds
                              else digits_value ds)%Z), rest) in
      if (n =? 48)%N then finish (String c EmptyString) r
      else if ((49 <=? n) && (n <=? 57))%N
      then let (ds, rest) := span_digits r in finish (String c ds) rest
      else bad
  | EmptyString => bad
  end.

(** [s] without its prefix [p], when it starts with it. *)
Fixpoint after (p s : string) : option string :=
  match p, s with
  | EmptyString, _ => Some s
  | String a p', String b s' => if Ascii.eqb a b then after p' s' else None
  | String _ _, EmptyString => None
  end.

(** [d[k] = v] on the entries of a [dict]: a key keeps its place. *)
Fixpoint dict_set (k : string) (v : pyval) (d : list (string * pyval))
  : list (string * pyval) :=
  match d with
  | [] => [(k, v)]
  | (k', v') :: d' =>
      if String.eqb k k' then (k, v) :: d' else (k', v') :: dict_set k v d'
  end.

Definition dict_of_pairs (ps : list (string * pyval)) : list (string * pyval) :=
  fold_left (fun d kv => dict_set (fst kv) (snd kv) d) ps [].

(** [scan_once]: one JSON value at the head of [s].  [fuel] bounds the
    nesting and the number of elements; [loads] gives more than the text
    can use, and [Beyond] is the answer of a scan that ran out of it.
    The constants [NaN], [Infinity] and [-Infinity] are floats. *)
Fixpoint scan_once (fuel : nat) (s : string) : scan pyval :=
  match fuel with
  | O => Beyond
  | S fuel' =>
      match s with
      | EmptyString => bad
      | String c s' =>
          let n := Text.code c in
          if (n =? 34)%N then
            let* (t, rest) := scanstring s' in Ok (option_map PyStr t, rest)
          else if (n =? 123)%N then
            match after "}" (skip_ws s') with
            | Some rest => Ok (Some (PyDict []), rest)
            | None =>
                let* (ps, rest) := scan_members fuel' (skip_ws s') in
                Ok (option_map (fun ps => PyDict (dict_of_pairs ps)) ps, rest)
            end
          else if (n =? 91)%N then
            match after "]" (skip_ws s') with
            | Some rest => Ok (Some (PyList []), rest)
            | None =>
                let* (vs, rest) := scan_items fuel' (skip_ws s') in
                Ok (option_map PyList vs, rest)
            end
          else
            match after "null" s, after "true" s, after "false" s with
            | Some rest, _, _ => Ok (Some PyNone, rest)
            | _, Some rest, _ => Ok (Some (PyBool true), rest)
            | _, _, Some rest => Ok (Some (PyBool false), rest)
            | None, None, None =>
                match after "NaN" s, after "Infinity" s, after "-Infinity" s with
                | Some rest, _, _ => Ok (None, rest)
                | _, Some rest, _ => Ok (None, rest)
                | _, _, Some rest => Ok (None, rest)
                | None, None, None => scan_number s
                end
            end
      end
  end
with scan_items (fuel : nat) (s : string) : scan (list pyval) :=
  match fuel with
  | O => Beyond
  | S fuel' =>
      let* (v, rest) := scan_once fuel' s in
      match skip_ws rest with
      | String c rest' =>
          if (Text.code c =? 93)%N then Ok (option_map (fun x => [x]) v, rest')
          else if (Text.code c =? 44)%N then
            let* (vs, r) := scan_items fuel' (skip_ws rest') in
            Ok (both cons v vs, r)
          else bad
      | EmptyString => bad
      end
  end
with scan_members (fuel : nat) (s : string) : scan (list (string * pyval)) :=
  match fuel with
  | O => Beyond
  | S fuel' =>
      match s with
      | String q s' =>
          if (Text.code q =? 34)%N then
            let* (key, rest) := scanstring s' in
            match after ":" (skip_ws rest) with
            | Some rest1 =>
                let* (v, rest2) := scan_once fuel' (skip_ws rest1) in
                match skip_ws rest2 with
                | String c rest3 =>
                    if (Text.code c =? 125)%N
                    then Ok (option_map (fun e => [e]) (both pair key v), rest3)
                    else if (Text.code c =? 44)%N then
                      let* (ps, r) := scan_members fuel' (skip_ws rest3) in
                      Ok (both cons (both pair key v) ps, r)
                    else bad
                | EmptyString => bad
                end
            | None => bad
            end
          else bad
      | EmptyString => bad
      end
  end.

(** [json.loads(s)] for a [str] [s]: one value, whitespace around it and
    nothing else.  A text that is not JSON raises, whatever it starts
    with; a JSON text whose value the model does not hold is [Beyond]. *)
Definition loads (s : string) : result pyval :=
  let* (v, rest) := scan_once (2 * String.length s + 2) (skip_ws s) in
  match skip_ws rest with
  | EmptyString =>
      match v with
      | Some v => Ok v
      | None => Beyond
      end
  | String _ _ => bad
  end.

End Json.

(** ** The dependency normalisation *)

(** Lines 133-135, the write path: a [list] is stored as its JSON text,
    any other value as it is. *)
Definition stored_dependencies (deps : pyval) : pyval :=
  if is_list deps then PyStr (Json.dumps deps) else deps.

(** The strings of [items], when every item is a [str]. *)
Fixpoint all_str (items : list pyval) : option (list string) :=
  match items with
  | [] => Some []
  | PyStr s :: rest => option_map (cons s) (all_str rest)
  | _ :: _ => None
  end.

(** Lines 165-171, the read path.  [json.loads] raises on a text that is
    not JSON and on a value that is not a [str]; [", ".join] raises on an
    item that is not a [str], after [deps] was rebound to the parsed list.
    The bare [except] keeps whatever [deps] is bound to at that point. *)
Definition formatted_dependencies (deps : pyval) : result pyval :=
  match deps with
  | PyStr s =>
      match Json.loads s with
      | Ok (PyList items) =>
          match all_str items with
          | Some parts => Ok (PyStr (Text.join ", " parts))
          | None => Ok (PyList items)
          end
      | Ok v => Ok v
      | Raise _ => Ok deps
      | Beyond => Beyond
      end
  | _ => Ok deps
  end.

(** ** The document store *)

Record goal_doc : Type := {
  goal_oid : nat;
  goal_text : string;
  created_at : Z
}.

Record task_doc : Type := {
  task_oid : nat;
  goal_id : nat;
  task_description : pyval;
  dependencies : pyval;
  deadline : pyval
}.

Inductive document : Type :=
| GoalDoc (g : goal_doc)
| TaskDoc (t : task_doc).

(** The store: the documents written, oldest first, and the next
    [ObjectId] the driver hands out. *)
Record mongo : Type := {
  written : list document;
  next_oid : nat
}.

Definition goals_collection (db : mongo) : list goal_doc :=
  omap (fun d => match d with GoalDoc g => Some g | TaskDoc _ => None end)
       (written db).

Definition tasks_collection (db : mongo) : list task_doc :=
  omap (fun d => match d with TaskDoc t => Some t | GoalDoc _ => None end)
       (written db).

(** What a request meets outside the program: the completion client
    ([None] when its initialisation failed, line 43; otherwise the content
    the service answers to a user message, [None] when the call raises),
    the clock, and whether the store acknowledges the insert that carries
    a given [ObjectId]. *)
Record world : Type := {
  client : option (string -> option string);
  utcnow : Z;
  acknowledged : nat -> bool
}.

(** Code that reads and writes a state [S]: the store for the handler,
    the store and the objects in memory for its object-level model. *)
Definition stateful (S A : Type) : Type := S -> S * result A.

Definition ret {S A : Type} (a : A) : stateful S A := fun st => (st, Ok a).

Definition lift {S A : Type} (r : result A) : stateful S A := fun st => (st, r).

Definition sbind {S A B : Type} (m : stateful S A) (k : A -> stateful S B)
  : stateful S B :=
  fun st =>
    match m st with
    | (st', Ok a) => k a st'
    | (st', Raise e) => (st', Raise e)
    | (st', Beyond) => (st', Beyond)
    end.

Notation "'do*' x ':=' m 'in' k" := (sbind m (fun x => k))
  (at level 10, x pattern, m at level 100, k at level 200).

Definition io (A : Type) : Type := stateful mongo A.

(** [collection.insert_one(doc).inserted_id] *)
Definition insert_one (w : world) (doc : nat -> document) : io nat :=
  fun db =>
    let oid := next_oid db in
    if acknowledged w oid
    then ({| written := written db ++ [doc oid]; next_oid := S oid |}, Ok oid)
    else ({| written := written db; next_oid := S oid |}, Raise StoreError).

(** [str(oid)]: 24 hexadecimal digits. *)
Fixpoint hex_digits (width : nat) (n : N) : string :=
  match width with
  | O => EmptyString
  | S width' =>
      (hex_digits width' (n / 16) ++ Json.chr (Json.hex_digit (n mod 16)))%string
  end.

Definition str_oid (oid : nat) : string := hex_digits 24 (N.of_nat oid).

(** ** The Remote Plan Generator (lines 47-68) *)

Definition user_message (goal_text : string) : string :=
  "My goal: " ++ Json.chr Json.dquote ++ goal_text ++ Json.chr Json.dquote.

Definition generate_plan_with_groq (w : world) (goal_text : string)
  : result pyval :=
  match client w with
  | None => Raise ConnectionError
  | Some create =>
      match create (user_message goal_text) with
      | Some content =>
          match Json.loads content with
          | Ok plan => Ok plan
          | Raise _ => Ok PyNone
          | Beyond => Beyond
          end
      | None => Ok PyNone
      end
  end.

(** ** The handler of POST /api/generate-plan (lines 106-152) *)

Definition getitem (c : pyval) (k : string) : result pyval :=
  match c with
  | PyDict d =>
      match dict_lookup k d with
      | Some v => Ok v
      | None => Raise KeyError
      end
  | _ => Raise TypeError
  end.

Definition get (t : pyval) (k : string) : result pyval :=
  match py_get t k with
  | Some v => Ok v
  | None => Raise AttributeError
  end.

Definition iter (v : pyval) : result (list pyval) :=
  match py_iter v with
  | Some items => Ok items
  | None => Raise TypeError
  end.

(** [not c or k not in c] *)
Definition lacks (k : string) (c : pyval) : result bool :=
  if negb (truthy c) then Ok true
  else match py_in k c with
       | Some b => Ok (negb b)
       | None => Raise TypeError
       end.

(** [v.strip()] *)
Definition strip_of (v : pyval) : result string :=
  match v with
  | PyStr s => Ok (Text.strip s)
  | _ => Raise AttributeError
  end.

Definition error_body (message : string) : pyval :=
  PyDict [("error", PyStr message)].

(** The body of the loop of lines 132-142. *)
Definition store_task (w : world) (goal : nat) (task : pyval) : io nat :=
  do* deps := lift (get task "dependencies") in
  let deps := stored_dependencies deps in
  do* description := lift (get task "task_description") in
  do* due := lift (get task "deadline") in
  insert_one w (fun oid =>
    TaskDoc {| task_oid := oid; goal_id := goal;
               task_description := description;
               dependencies := deps; deadline := due |}).

Fixpoint store_tasks (w : world) (goal : nat) (tasks : list pyval) : io unit :=
  match tasks with
  | [] => ret tt
  | task :: rest =>
      do* _ := store_task w goal task in
      store_tasks w goal rest
  end.

Definition plan_response (goal : nat) (text : string) (tasks : pyval)
    (used_fallback : bool) : pyval :=
  PyDict [("goal_id", PyStr (str_oid goal)); ("goal_text", PyStr text);
          ("tasks", tasks); ("used_fallback", PyBool used_fallback)].

(** Lines 126-152: the goal and its tasks are stored, then the response
    is built. *)
Definition respond (w : world) (text : string) (used_fallback : bool)
    (tasks : pyval) : io (pyval * nat) :=
  do* goal := insert_one w (fun oid =>
    GoalDoc {| goal_oid := oid; goal_text := text;
               created_at := utcnow w |}) in
  do* items := lift (iter tasks) in
  do* _ := store_tasks w goal items in
  ret (plan_response goal text tasks used_fallback, 200%nat).

Definition generate_plan_endpoint (w : world) (data : pyval)
  : io (pyval * nat) :=
  do* no_goal := lift (lacks "goal" data) in
  if no_goal : bool then ret (error_body "JSON must contain 'goal'", 400%nat)
  else
    do* goal := lift (getitem data "goal") in
    do* text := lift (strip_of goal) in
    if negb (truthy (PyStr text))
    then ret (error_body "Goal cannot be empty", 400%nat)
    else
      do* plan_data := lift (generate_plan_with_groq w text) in
      do* used_fallback := lift (lacks "tasks" plan_data) in
      let plan_data :=
        if used_fallback : bool then generate_plan_locally text else plan_data in
      do* tasks := lift (getitem plan_data "tasks") in
      respond w text used_fallback tasks.

(** ** Lines 126-152 on objects in memory

    The handler above passes values.  Python passes references: [tasks]
    in the response is the very list object the generator returned, the
    values of [task_doc] are objects of the task, and [insert_one] writes
    [_id] into the document it is given.  This model keeps the objects in
    a heap and runs the same lines on addresses. *)

Module Objects.
Local Open Scope list_scope.

(** An address is an index of the heap. *)
Abbreviation addr := nat.

Inductive obj : Type :=
| ONone
| OBool (b : bool)
| OInt (z : Z)
| OStr (s : string)
| OList (items : list addr)
| ODict (entries : list (string * addr))
| OObjectId (oid : nat)
| ODatetime (t : Z).

Abbreviation heap := (list obj).

Record machine : Type := {
  objects : heap;
  store : mongo
}.

Definition run (A : Type) : Type := stateful machine A.

(** The value an object stands for, as [jsonify], [json.dumps] and the
    driver's encoder read it.  [None]: a reference that leads nowhere, an
    object that is no JSON value, or nesting deeper than [fuel]. *)
Fixpoint denote (fuel : nat) (h : heap) (a : addr) : option pyval :=
  match fuel with
  | O => None
  | S fuel' =>
      match h !! a with
      | Some ONone => Some PyNone
      | Some (OBool b) => Some (PyBool b)
      | Some (OInt z) => Some (PyInt z)
      | Some (OStr s) => Some (PyStr s)
      | Some (OList items) => PyList <$> mapM (denote fuel' h) items
      | Some (ODict entries) =>
          PyDict <$> mapM (fun e => pair (fst e) <$> denote fuel' h (snd e)) entries
      | Some (OObjectId _) | Some (ODatetime _) | None => None
      end
  end.

(** A walk longer than the heap meets an object twice; Python reports a
    circular reference there. *)
Definition read (h : heap) (a : addr) : option pyval :=
  denote (S (length h)) h a.

Fixpoint entry (k : string) (es : list (string * addr)) : option addr :=
  match es with
  | [] => None
  | (k', a) :: es' => if String.eqb k k' then Some a else entry k es'
  end.

Fixpoint set_entry (k : string) (a : addr) (es : list (string * addr))
  : list (string * addr) :=
  match es with
  | [] => [(k, a)]
  | (k', a') :: es' =>
      if String.eqb k k' then (k, a) :: es' else (k', a') :: set_entry k a es'
  end.

(** A new object. *)
Definition new (o : obj) : run addr :=
  fun m => ({| objects := objects m ++ [o]; store := store m |},
            Ok (length (objects m))).

(** [d[k] = a]: the dict object at [d] is changed in place. *)
Definition setitem (d : addr) (k : string) (a : addr) : run unit :=
  fun m =>
    match objects m !! d with
    | Some (ODict es) =>
        ({| objects := <[d := ODict (set_entry k a es)]> (objects m);
            store := store m |}, Ok tt)
    | _ => (m, Raise TypeError)
    end.

(** [t.get(k)] *)
Definition o_get (t : addr) (k : string) : run addr :=
  fun m =>
    match objects m !! t with
    | Some (ODict es) =>
        match entry k es with
        | Some a => (m, Ok a)
        | None => new ONone m
        end
    | _ => (m, Raise AttributeError)
    end.

(** [isinstance(a, list)] *)
Definition o_is_list (a : addr) : run bool :=
  fun m => (m, Ok (match objects m !! a with
                   | Some (OList _) => true
                   | _ => false
                   end)).

(** The value of an object, for an encoder; an object it cannot encode
    is a [TypeError]. *)
Definition o_read (a : addr) : run pyval :=
  fun m => (m, match read (objects m) a with
               | Some v => Ok v
               | None => Raise TypeError
               end).

Definition o_field (doc : addr) (k : string) : run pyval :=
  fun m =>
    match objects m !! doc with
    | Some (ODict es) =>
        match entry k es with
        | Some a => o_read a m
        | None => (m, Raise KeyError)
        end
    | _ => (m, Raise TypeError)
    end.

Definition o_oid (a : addr) : run nat :=
  fun m => (m, match objects m !! a with
               | Some (OObjectId oid) => Ok oid
               | _ => Raise TypeError
               end).

(** The store's part of an [insert_one]. *)
Definition on_store {A : Type} (f : io A) : run A :=
  fun m => let (db, r) := f (store m) in
           ({| objects := objects m; store := db |}, r).

(** [tasks_collection.insert_one(task_doc)]: the driver writes a new
    [ObjectId] into the document under [_id], encodes the document and
    sends it; the result is the id the store acknowledged. *)
Definition o_insert_task (w : world) (task_doc : addr) : run nat :=
  fun m =>
    (do* id := new (OObjectId (next_oid (store m))) in
     do* _ := setitem task_doc "_id" id in
     do* goal := (fun m' => match objects m' !! task_doc with
                            | Some (ODict es) =>
                                match entry "goal_id" es with
                                | Some g => o_oid g m'
                                | None => (m', Raise KeyError)
                                end
                            | _ => (m', Raise TypeError)
                            end) in
     do* description := o_field task_doc "task_description" in
     do* deps := o_field task_doc "dependencies" in
     do* due := o_field task_doc "deadline" in
     on_store (insert_one w (fun oid =>
       TaskDoc {| task_oid := oid; goal_id := goal;
                  task_description := description;
                  dependencies := deps; deadline := due |}))) m.

(** [goals_collection.insert_one(goal_doc).inserted_id] *)
Definition o_insert_goal (w : world) (goal_doc : addr) (text : string) : run addr :=
  fun m =>
    (do* id := new (OObjectId (next_oid (store m))) in
     do* _ := setitem goal_doc "_id" id in
     do* _ := on_store (insert_one w (fun oid =>
       GoalDoc {| goal_oid := oid; goal_text := text;
                  created_at := utcnow w |})) in
     ret id) m.

(** The body of the loop, lines 133-142. *)
Definition o_store_task (w : world) (goal_id task : addr) : run nat :=
  do* deps := o_get task "dependencies" in
  do* listed := o_is_list deps in
  do* deps := (if listed : bool
               then do* v := o_read deps in new (OStr (Json.dumps v))
               else ret deps) in
  do* description := o_get task "task_description" in
  do* due := o_get task "deadline" in
  do* task_doc := new (ODict [("goal_id", goal_id);
                              ("task_description", description);
                              ("dependencies", deps);
                              ("deadline", due)]) in
  o_insert_task w task_doc.

(** [for task in tasks]: the list object is read again at every step, as
    the iterator of a [list] does.  A [str] or a [dict] that is not empty
    hands a [str] to the body, whose [.get] raises. *)
Fixpoint o_store_tasks (fuel : nat) (w : world) (goal_id tasks : addr)
    (i : nat) : run unit :=
  match fuel with
  | O => lift Beyond
  | S fuel' =>
      fun m =>
        match objects m !! tasks with
        | Some (OList items) =>
            match items !! i with
            | Some task =>
                (do* _ := o_store_task w goal_id task in
                 o_store_tasks fuel' w goal_id tasks (S i)) m
            | None => (m, Ok tt)
            end
        | Some (OStr s) =>
            (m, if String.eqb s "" then Ok tt else Raise AttributeError)
        | Some (ODict es) =>
            (m, match es with [] => Ok tt | _ :: _ => Raise AttributeError end)
        | _ => (m, Raise TypeError)
        end
  end.

Definition o_for_tasks (w : world) (goal_id tasks : addr) : run unit :=
  fun m =>
    let steps :=
      match objects m !! tasks with
      | Some (OList items) => length items
      | _ => O
      end in
    o_store_tasks (S steps) w goal_id tasks 0 m.

(** Lines 126-152. *)
Definition o_respond (w : world) (text : string) (used_fallback : bool)
    (tasks : addr) : run (pyval * nat) :=
  do* goal_text := new (OStr text) in
  do* now := new (ODatetime (utcnow w)) in
  do* goal_doc := new (ODict [("goal_text", goal_text); ("created_at", now)]) in
  do* goal_id := o_insert_goal w goal_doc text in
  do* _ := o_for_tasks w goal_id tasks in
  do* goal := o_oid goal_id in
  do* shown := new (OStr (str_oid goal)) in
  do* flag := new (OBool used_fallback) in
  do* response := new (ODict [("goal_id", shown); ("goal_text", goal_text);
                              ("tasks", tasks); ("used_fallback", flag)]) in
  do* body := o_read response in
  ret (body, 200%nat).

(** A value laid out as new objects, as [json.loads] and the dict and
    list displays of [generate_plan_locally] do. *)
Fixpoint build (v : pyval) (h : heap) : heap * addr :=
  match v with
  | PyNone => (h ++ [ONone], length h)
  | PyBool b => (h ++ [OBool b], length h)
  | PyInt z => (h ++ [OInt z], length h)
  | PyStr s => (h ++ [OStr s], length h)
  | PyList items =>
      let '(h', addrs) :=
        fold_left (fun acc x =>
                     let '(h1, as1) := acc in
                     let '(h2, a) := build x h1 in (h2, as1 ++ [a]))
                  items (h, []) in
      (h' ++ [OList addrs], length h')
  | PyDict entries =>
      let '(h', es) :=
        fold_left (fun acc kx =>
                     let '(h1, es1) := acc in
                     let '(h2, a) := build (snd kx) h1 in
                     (h2, es1 ++ [(fst kx, a)]))
                  entries (h, []) in
      (h' ++ [ODict es], length h')
  end.

(** [h'] has every object of [h], unchanged, and maybe more. *)
Definition grows (h h' : heap) : Prop :=
  length h <= length h' /\ forall a o, h !! a = Some o -> h' !! a = Some o.

End Objects.


(** ** The notions the properties are stated with *)

Fixpoint all_chars (p : ascii -> bool) (s : string) : bool :=
  match s with
  | EmptyString => true
  | String c s' => p c && all_chars p s'
  end.

(** [w] occurs in [goal_text], letter case aside. *)
Definition occurs (w goal_text : string) : Prop :=
  exists pre u post, goal_text = pre ++ u ++ post /\ Text.lower u = w.

(** [goal_text] holds the integer [n] followed by optional whitespace and
    the word hour, letter case aside. *)
Definition hours_mention (goal_text n : string) : Prop :=
  exists pre ws h post,
    goal_text = pre ++ n ++ ws ++ h ++ post
    /\ n <> "" /\ all_chars Text.isdecimal n = true
    /\ all_chars Text.isspace ws = true /\ Text.lower h = "hour".

(** [s] starts with a mention of hours whose integer is [n]. *)
Definition mention_at (s n : string) : Prop :=
  exists ws h post,
    s = n ++ ws ++ h ++ post
    /\ n <> "" /\ all_chars Text.isdecimal n = true
    /\ all_chars Text.isspace ws = true /\ Text.lower h = "hour".

(** [n] is the integer of the first mention of hours in [goal_text]: the
    text is [pre] followed by a mention of [n], and no mention of any
    integer starts inside [pre]. *)
Definition first_mention (goal_text n : string) : Prop :=
  exists pre rest,
    goal_text = pre ++ rest /\ mention_at rest n
    /\ forall p1 p2 m,
         pre = p1 ++ p2 -> p2 <> "" -> ~ mention_at (p2 ++ rest) m.

(** [n] stands in [goal_text] as a whole number: no digit right before
    it and none right after it. *)
Definition whole_number (goal_text n : string) : Prop :=
  exists pre rest,
    goal_text = pre ++ n ++ rest
    /\ (forall p c, pre = p ++ String c "" -> Text.isdecimal c = false)
    /\ match rest with
       | String c _ => Text.isdecimal c = false
       | EmptyString => True
       end.

Definition meal_mention (goal_text : string) : Prop :=
  exists w, In w meal_words /\ occurs w goal_text.

(** The tests of lines 91 and 93 on the lower-cased text. *)
Definition meal_test (goal_text : string) : bool :=
  existsb (fun w => Text.contains w (Text.lower goal_text)) meal_words.

Definition sleep_test (goal_text : string) : bool :=
  Text.contains "sleep" (Text.lower goal_text).

(** The second task: lines 78-90. *)
Definition work_task (goal_text : string) : pyval :=
  match Re.search_hours (Text.lower goal_text) with
  | Some n => hours_task n
  | None => timebox_task
  end.

(** The three fields of a task the generators and the handler use. *)
Definition has_task_fields (t : pyval) : Prop :=
  exists description deps due,
    t = PyDict [("task_description", PyStr description);
                ("dependencies", PyStr deps); ("deadline", PyStr due)].

(** The goal of a request: the body is a JSON object whose key goal holds
    a string; the goal is that string without the whitespace around it. *)
Definition request_goal (data : pyval) : option string :=
  match data with
  | PyDict d =>
      match dict_lookup "goal" d with
      | Some (PyStr g) => Some (Text.strip g)
      | _ => None
      end
  | _ => None
  end.

(** [plan] is a structure with a key tasks. *)
Definition has_tasks_key (plan : pyval) : bool :=
  match plan with
  | PyDict d => match dict_lookup "tasks" d with Some _ => true | None => false end
  | _ => false
  end.

Definition is_dict (v : pyval) : bool :=
  match v with PyDict _ => true | _ => false end.

(** A plan the handler can store: its tasks are a list of dicts. *)
Definition storable_plan (plan : pyval) : Prop :=
  exists d items,
    plan = PyDict d /\ dict_lookup "tasks" d = Some (PyList items)
    /\ forallb is_dict items = true.

Definition body_keys (body : pyval) : list string :=
  match body with
  | PyDict d => map fst d
  | _ => []
  end.

(** Every stored task refers to a stored goal. *)
Definition referential (db : mongo) : Prop :=
  forall t, In t (tasks_collection db) ->
    exists g, In g (goals_collection db) /\ goal_oid g = goal_id t.

(** The store acknowledges every insert. *)
Definition store_up (w : world) : Prop := forall oid, acknowledged w oid = true.

(** The goal document of a request. *)
Definition new_goal (w : world) (text : string) (oid : nat) : goal_doc :=
  {| goal_oid := oid; goal_text := text; created_at := utcnow w |}.

(** Lines 117-152, once the goal is known. *)
Definition plan_and_respond (w : world) (text : string) : io (pyval * nat) :=
  do* plan_data := lift (generate_plan_with_groq w text) in
  do* used_fallback := lift (lacks "tasks" plan_data) in
  let plan_data :=
    if used_fallback : bool then generate_plan_locally text else plan_data in
  do* tasks := lift (getitem plan_data "tasks") in
  respond w text used_fallback tasks.

(** ** Sample runs *)

Definition empty_store : mongo := {| written := []; next_oid := 0 |}.

Definition sample_request : pyval :=
  PyDict [("goal", PyStr "Finish report in 2 hours")].

(** The client failed to initialise: line 43 left [client = None]. *)
Definition no_client : world :=
  {| client := None; utcnow := 0; acknowledged := fun _ => true |}.

(** The client is there and every call of the service raises. *)
Definition service_down : world :=
  {| client := Some (fun _ => None); utcnow := 0;
     acknowledged := fun _ => true |}.

(** The service answers a plan whose tasks are plain strings. *)
Definition service_lists_strings : world :=
  {| client := Some (fun _ =>
       Some (Json.dumps (PyDict [("tasks", PyList [PyStr "Call the printer"])])));
     utcnow := 0; acknowledged := fun _ => true |}.

(** A plan whose first task lists its dependencies, and the objects it is
    laid out as. *)
Definition sample_tasks : pyval :=
  PyList [PyDict [("task_description", PyStr "Draft the outline");
                  ("dependencies", PyList [PyStr "A"; PyStr "B"]);
                  ("deadline", PyStr "Today")]].

Definition sample_machine : Objects.machine :=
  {| Objects.objects := fst (Objects.build sample_tasks []);
     Objects.store := empty_store |}.

Definition sample_tasks_addr : nat := snd (Objects.build sample_tasks []).

(** The service answers the plan [sample_tasks]. *)
Definition service_lists_dependencies : world :=
  {| client := Some (fun _ => Some (Json.dumps (PyDict [("tasks", sample_tasks)])));
     utcnow := 0; acknowledged := fun _ => true |}.

(** ** The documents of a plan *)

(** [task.get(k)] on a dict task: the value, or Python's [None]. *)
Definition field (task : pyval) (k : string) : pyval :=
  match py_get task k with
  | Some v => v
  | None => PyNone
  end.

(** The document lines 136-141 build for a dict task, under the id the
    driver gives it. *)
Definition task_document (goal : nat) (task : pyval) (oid : nat) : task_doc :=
  {| task_oid := oid; goal_id := goal;
     task_description := field task "task_description";
     dependencies := stored_dependencies (field task "dependencies");
     deadline := field task "deadline" |}.

(** One document per task, with consecutive ids from [first] on. *)
Fixpoint task_documents (goal first : nat) (tasks : list pyval)
  : list task_doc :=
  match tasks with
  | [] => []
  | task :: rest =>
      task_document goal task first :: task_documents goal (S first) rest
  end.

(** The value under tasks can be looped over and every item has [.get]. *)
Definition storable (tasks : pyval) : bool :=
  match py_iter tasks with
  | Some items => forallb is_dict items
  | None => false
  end.

(** The results of the remote generator the handler can answer: the ones
    that send it to the fallback, and the dicts whose tasks are storable. *)
Definition answerable (plan : pyval) : bool :=
  match plan with
  | PyNone => true
  | PyBool b => negb b
  | PyInt z => (z =? 0)%Z
  | PyStr s => negb (Text.contains "tasks" s)
  | PyList items =>
      negb (existsb (fun v => match v with
                              | PyStr s => String.eqb "tasks" s
                              | _ => false
                              end) items)
  | PyDict d =>
      match dict_lookup "tasks" d with
      | Some tasks => storable tasks
      | None => true
      end
  end.

(** The run of the handler on [sample_request] when the service answers
    [sample_tasks], and the store it leaves. *)
Definition sample_run : mongo * result (pyval * nat) :=
  generate_plan_endpoint service_lists_dependencies sample_request empty_store.

Definition sample_store : mongo := fst sample_run.

Definition sample_body : pyval :=
  plan_response 0 "Finish report in 2 hours" sample_tasks false.

(** Every stored task has dependencies that are no list. *)
Definition no_listed (db : mongo) : Prop :=
  Forall (fun t => is_list (dependencies t) = false) (tasks_collection db).

(** The store acknowledges every insert but the one that carries [oid]. *)
Definition store_fails_at (oid : nat) : world :=
  {| client := Some (fun _ => None); utcnow := 0;
     acknowledged := fun n => negb (n =? oid)%nat |}.

(** ** The handler of GET /api/get-all-goals (lines 156-186) *)

(** What the request meets outside the program: the documents the two
    queries of lines 159 and 161 find, in the order the store gives them
    and [None] when the driver raises, and [strftime] with the format of
    line 179.  The handler writes nothing, so it does not matter at which
    step of a cursor the driver raises. *)
Record reader : Type := {
  find_goals : mongo -> option (list goal_doc);
  find_tasks : mongo -> nat -> option (list task_doc);
  strftime : Z -> string
}.

(** The fields of a goal document a cursor is sorted by here, as
    numbers. *)
Definition sort_key (key : string) : option (goal_doc -> Z) :=
  if String.eqb key "created_at" then Some created_at
  else if String.eqb key "_id" then Some (fun g => Z.of_nat (goal_oid g))
  else None.

(** A stable sort: [x] goes after the documents that come [before] it
    and ahead of the others, so documents none of which comes before the
    other keep their order. *)
Fixpoint insert_sorted {A : Type} (before : A -> A -> bool) (x : A)
    (sorted : list A) : list A :=
  match sorted with
  | [] => [x]
  | h :: rest =>
      if before h x then h :: insert_sorted before x rest else x :: sorted
  end.

Definition sort_by {A : Type} (before : A -> A -> bool) (l : list A) : list A :=
  foldr (insert_sorted before) [] l.

(** [cursor.sort(key, direction)] on the documents a query found:
    direction 1 is ascending and -1 descending; the server refuses any
    other.  How the server orders documents with equal keys is its own
    affair: every order it may give them is the stable sort of some
    order of the documents found, and [find_goals] stands for any. *)
Definition cursor_sort (key : string) (direction : Z) (docs : list goal_doc)
  : result (list goal_doc) :=
  match sort_key key with
  | Some field =>
      if (direction =? 1)%Z
      then Ok (sort_by (fun a b => (field a <? field b)%Z) docs)
      else if (direction =? -1)%Z
      then Ok (sort_by (fun a b => (field b <? field a)%Z) docs)
      else Raise StoreError
  | None => Beyond
  end.

Definition query {A : Type} (answer : option A) : result A :=
  match answer with
  | Some a => Ok a
  | None => Raise StoreError
  end.

(** A loop that appends [f x] for every [x], and stops at the first
    exception. *)
Fixpoint for_each {A B : Type} (f : A -> result B) (l : list A)
  : result (list B) :=
  match l with
  | [] => Ok []
  | x :: l' =>
      let* y := f x in
      let* ys := for_each f l' in
      Ok (y :: ys)
  end.

(** Lines 163-176: one turn of the loop over the tasks of a goal. *)
Definition formatted_task (t : task_doc) : result pyval :=
  let* deps := formatted_dependencies (dependencies t) in
  Ok (PyDict [("task_description", task_description t);
              ("dependencies", deps);
              ("deadline", deadline t)]).

(** Lines 160-181: one turn of the loop over the goals. *)
Definition goal_entry (rd : reader) (db : mongo) (goal : goal_doc)
  : result pyval :=
  let oid := goal_oid goal in
  let* goal_tasks := query (find_tasks rd db oid) in
  let* formatted_tasks := for_each formatted_task goal_tasks in
  Ok (PyDict [("goal_id", PyStr (str_oid oid));
              ("goal_text", PyStr (goal_text goal));
              ("created_at", PyStr (strftime rd (created_at goal)));
              ("tasks", PyList formatted_tasks)]).

(** The body of the [try] block. *)
Definition all_goals (rd : reader) (db : mongo) : result (list pyval) :=
  let* found := query (find_goals rd db) in
  let* goals := cursor_sort "created_at" (-1) found in
  for_each (goal_entry rd db) goals.

Definition get_all_goals (rd : reader) (db : mongo) : result (pyval * nat) :=
  match all_goals rd db with
  | Ok entries => Ok (PyList entries, 200%nat)
  | Raise _ => Ok (error_body "Failed to fetch goals", 500%nat)
  | Beyond => Beyond
  end.

(** *** What the driver answers *)

Definition newest_first (goals : list goal_doc) : Prop :=
  forall i j a b,
    goals !! i = Some a -> goals !! j = Some b -> (i <= j)%nat ->
    (created_at b <= created_at a)%Z.

(** The tasks stored under the goal [oid]. *)
Definition tasks_of (db : mongo) (oid : nat) : list task_doc :=
  List.filter (fun t => Nat.eqb (goal_id t) oid) (tasks_collection db).

(** A query that answers finds the documents asked for, each once: all
    the goals, and the tasks that carry the goal's id.  The order in
    which it finds them is the driver's. *)
Definition driver_answers (rd : reader) (db : mongo) : Prop :=
  (forall found, find_goals rd db = Some found -> found ≡ₚ goals_collection db)
  /\ (forall oid ts, find_tasks rd db oid = Some ts -> ts ≡ₚ tasks_of db oid).

(** No stored task carries an id the driver has yet to hand out. *)
Definition fresh_ids (db : mongo) : Prop :=
  Forall (fun t => (goal_id t < next_oid db)%nat) (tasks_collection db).

(** What the read path makes of a task of a plan once it is stored. *)
Definition listed_task (task : pyval) : result pyval :=
  formatted_task (task_document 0 task 0).

(** *** A reader for the sample runs *)

(** Year, month and day of the [days]-th day after 1970-01-01. *)
Definition civil (days : Z) : Z * Z * Z :=
  (let z := days + 719468 in
   let era := z / 146097 in
   let doe := z - era * 146097 in
   let yoe := (doe - doe / 1460 + doe / 36524 - doe / 146096) / 365 in
   let doy := doe - (365 * yoe + yoe / 4 - yoe / 100) in
   let mp := (5 * doy + 2) / 153 in
   let d := doy - (153 * mp + 2) / 5 + 1 in
   let m := if mp <? 10 then mp + 3 else mp - 9 in
   let y := yoe + era * 400 + (if m <=? 2 then 1 else 0) in
   (y, m, d))%Z.

Definition two_digits (n : Z) : string :=
  (if (n <? 10)%Z then "0" else "") ++ Json.dumps_int n.

(** The format of line 179 for a clock that counts seconds from
    1970-01-01 00:00:00, in the years 1970 to 9999. *)
Definition seconds_strftime (t : Z) : string :=
  let '(y, m, d) := civil (t / 86400) in
  let s := (t mod 86400)%Z in
  Json.dumps_int y ++ "-" ++ two_digits m ++ "-" ++ two_digits d ++ " "
  ++ two_digits (s / 3600) ++ ":" ++ two_digits (s mod 3600 / 60) ++ ":"
  ++ two_digits (s mod 60).

(** Every query answers and finds the documents in the order they were
    written. *)
Definition plain_reader : reader :=
  {| find_goals := fun db => Some (goals_collection db);
     find_tasks := fun db oid => Some (tasks_of db oid);
     strftime := seconds_strftime |}.

(** The store cannot be reached. *)
Definition store_away : reader :=
  {| find_goals := fun _ => None;
     find_tasks := fun _ _ => None;
     strftime := seconds_strftime |}.

(** What GET answers after the run [sample_run], and after the run of
    the fallback on [sample_request]. *)
Definition sample_listing : pyval :=
  PyList [PyDict [("goal_id", PyStr (str_oid 0));
                  ("goal_text", PyStr "Finish report in 2 hours");
                  ("created_at", PyStr "1970-01-01 00:00:00");
                  ("tasks",
                   PyList [PyDict [("task_description",
                                    PyStr "Draft the outline");
                                   ("dependencies", PyStr "A, B");
                                   ("deadline", PyStr "Today")]])]].

Definition fallback_store : mongo :=
  fst (generate_plan_endpoint service_down sample_request empty_store).

Definition fallback_body : pyval :=
  plan_response 0 "Finish report in 2 hours"
    (PyList [clarify_task; hours_task "2"; review_task]) true.

Definition fallback_listing : pyval :=
  PyList [PyDict [("goal_id", PyStr (str_oid 0));
                  ("goal_text", PyStr "Finish report in 2 hours");
                  ("created_at", PyStr "1970-01-01 00:00:00");
                  ("tasks",
                   PyList [clarify_task; hours_task "2"; review_task])]].

(** A plan whose task names a distance under dependencies, the run of
    the handler when the service answers it, and what GET then lists. *)
Definition distance_tasks : pyval :=
  PyList [PyDict [("task_description", PyStr "Run");
                  ("dependencies", PyStr "2.5 km run");
                  ("deadline", PyStr "Today")]].

Definition service_lists_distance : world :=
  {| client := Some (fun _ =>
       Some (Json.dumps (PyDict [("tasks", distance_tasks)])));
     utcnow := 0; acknowledged := fun _ => true |}.

Definition distance_store : mongo :=
  fst (generate_plan_endpoint service_lists_distance sample_request empty_store).

Definition distance_body : pyval :=
  plan_response 0 "Finish report in 2 hours" distance_tasks false.

Definition distance_listing : pyval :=
  PyList [PyDict [("goal_id", PyStr (str_oid 0));
                  ("goal_text", PyStr "Finish report in 2 hours");
                  ("created_at", PyStr "1970-01-01 00:00:00");
                  ("tasks", distance_tasks)]].

(** ** The values [json.dumps] writes

    A [dict] of Python holds each key once.  The entries of a [PyDict]
    are a list, so this is said of a value: at every depth, no key
    comes twice. *)
Fixpoint unique (ks : list string) : bool :=
  match ks with
  | [] => true
  | k :: rest => negb (existsb (String.eqb k) rest) && unique rest
  end.

Fixpoint keys_once (v : pyval) : bool :=
  match v with
  | PyList items => forallb keys_once items
  | PyDict entries =>
      unique (map fst entries) && forallb (fun e => keys_once (snd e)) entries
  | _ => true
  end.

(** The text of one entry of a dict. *)
Definition member (e : string * pyval) : string :=
  Json.dumps_str (fst e) ++ ": " ++ Json.dumps (snd e).

(** What [scan_once] is to give on the text of [v]. *)
Definition reads_back (v : pyval) : Prop :=
  forall fuel rest,
    String.length (Json.dumps v) <= fuel ->
    Json.starts_digit rest = false -> Json.float_follows rest = false ->
    Json.scan_once fuel (Json.dumps v ++ rest) = Ok (Some v, rest).

(** * Properties *)

(** ** Sample evaluations *)

Example lower_sample : Text.lower "Sleep WELL, 3 Hours" = "sleep well, 3 hours".
Proof. reflexivity. Qed.

Example strip_sample : Text.strip "   Finish report  " = "Finish report".
Proof. reflexivity. Qed.

Example search_leftmost : Re.search_hours "x12  hourly, then 3 hours" = Some "12".
Proof. reflexivity. Qed.

Example search_skips_failed_start : Re.search_hours "12 3hour" = Some "3".
Proof. reflexivity. Qed.

Example search_needs_digits : Re.search_hours "one hour" = None.
Proof. reflexivity. Qed.

Example loads_dumps_sample :
  Json.loads (Json.dumps (PyDict [("tasks", sample_tasks); ("n", PyInt (-7));
                                  ("ok", PyBool true); ("none", PyNone)]))
    = Ok (PyDict [("tasks", sample_tasks); ("n", PyInt (-7));
                  ("ok", PyBool true); ("none", PyNone)]).
Proof. vm_compute. reflexivity. Qed.

Example loads_rejects_plain_text : Json.loads "Finish work" = Raise JSONDecodeError.
Proof. vm_compute. reflexivity. Qed.

Example loads_rejects_trailing_comma : Json.loads "[1, 2,]" = Raise JSONDecodeError.
Proof. vm_compute. reflexivity. Qed.

Example loads_float_not_held : Json.loads "[1, 2.5]" = Beyond.
Proof. vm_compute. reflexivity. Qed.

(** A text that only starts like a number, a constant or a string is no
    JSON: [json.loads] raises, and the read path keeps the text. *)
Example loads_rejects_what_follows :
  map Json.loads ["2.5 km run"; "1.5x"; "Infinity pool"; "NaNcy"; "1e"; "01";
                  "[1.5, x]"; String Json.dquote (String Json.backslash "u0100")]
    = [Raise JSONDecodeError; Raise JSONDecodeError; Raise JSONDecodeError;
       Raise JSONDecodeError; Raise JSONDecodeError; Raise JSONDecodeError;
       Raise JSONDecodeError; Raise JSONDecodeError].
Proof. vm_compute. reflexivity. Qed.

Example loads_floats_not_held :
  map Json.loads ["2.5"; "NaN"; "-Infinity"; " -1.5e+3 "] =
    [Beyond; Beyond; Beyond; Beyond].
Proof. vm_compute. reflexivity. Qed.

Example distance_text_kept :
  formatted_dependencies (PyStr "2.5 km run") = Ok (PyStr "2.5 km run").
Proof. vm_compute. reflexivity. Qed.

(** Line 160 asks the newest first; direction 1 would give the oldest
    first, and goals of one date keep the order they were found in. *)
Example sort_directions :
  let goal (oid : nat) (date : Z) :=
    {| goal_oid := oid; goal_text := "g"; created_at := date |} in
  let found := [goal 0 10%Z; goal 1 30%Z; goal 2 10%Z; goal 3 20%Z] in
  cursor_sort "created_at" (-1) found
    = Ok [goal 1 30%Z; goal 3 20%Z; goal 0 10%Z; goal 2 10%Z]
  /\ cursor_sort "created_at" 1 found
      = Ok [goal 0 10%Z; goal 2 10%Z; goal 3 20%Z; goal 1 30%Z]
  /\ cursor_sort "created_at" 0 found = Raise StoreError.
Proof. repeat split. Qed.

Example distance_plan_listed :
  get_all_goals plain_reader distance_store = Ok (distance_listing, 200).
Proof. vm_compute. reflexivity. Qed.

(** The end-to-end run of the specification: the service fails and the
    second task of the answer mentions 2 hour(s). *)
Example report_in_two_hours :
  snd (generate_plan_endpoint service_down sample_request empty_store) =
    Ok (plan_response 0 "Finish report in 2 hours"
          (PyList [clarify_task; hours_task "2"; review_task]) true, 200).
Proof. vm_compute. reflexivity. Qed.

Example strftime_samples :
  map seconds_strftime [951782400; 1700000000; 1709251199; 4102444800]%Z =
    ["2000-02-29 00:00:00"; "2023-11-14 22:13:20"; "2024-02-29 23:59:59";
     "2100-01-01 00:00:00"].
Proof. vm_compute. reflexivity. Qed.

Example empty_goal_400 :
  generate_plan_endpoint service_down (PyDict [("goal", PyStr "  ")]) empty_store
    = (empty_store, Ok (error_body "Goal cannot be empty", 400)).
Proof. vm_compute. reflexivity. Qed.

(** ** Strings *)

Section Strings.

Lemma append_nil_r (s : string) : s ++ "" = s.
Proof. induction s as [|c s IH]; simpl; [reflexivity | now rewrite IH]. Qed.

Lemma append_assoc (a b c : string) : (a ++ b) ++ c = a ++ b ++ c.
Proof. induction a as [|x a IH]; simpl; [reflexivity | now rewrite IH]. Qed.

Lemma startswith_append (p s : string) : Text.startswith p (p ++ s) = true.
Proof.
  induction p as [|c p IH]; simpl; [reflexivity|].
  now rewrite Ascii.eqb_refl, IH.
Qed.

Lemma startswith_split (p s : string) :
  Text.startswith p s = true -> exists post, s = p ++ post.
Proof.
  revert s; induction p as [|c p IH]; intros s H.
  - now exists s.
  - destruct s as [|d s]; simpl in H; [discriminate|].
    apply andb_true_iff in H as [Hc Hp].
    apply Ascii.eqb_eq in Hc; subst d.
    destruct (IH _ Hp) as [post ->]. now exists post.
Qed.

Lemma contains_here (w s : string) :
  Text.startswith w s = true -> Text.contains w s = true.
Proof. intros H. destruct s; simpl; now rewrite H. Qed.

Lemma contains_intro (w pre post : string) :
  Text.contains w (pre ++ w ++ post) = true.
Proof.
  induction pre as [|c pre IH].
  - change ("" ++ w ++ post) with (w ++ post).
    apply contains_here, startswith_append.
  - simpl. rewrite IH. apply orb_true_r.
Qed.

Lemma contains_split (w s : string) :
  Text.contains w s = true -> exists pre post, s = pre ++ w ++ post.
Proof.
  induction s as [|c s IH]; simpl; intros H.
  - rewrite orb_false_r in H.
    destruct (startswith_split _ _ H) as [post E]. now exists "", post.
  - apply orb_true_iff in H as [H|H].
    + destruct (startswith_split _ _ H) as [post E]. now exists "", post.
    + destruct (IH H) as (pre & post & ->). now exists (String c pre), post.
Qed.

Lemma lower_append (a b : string) :
  Text.lower (a ++ b) = Text.lower a ++ Text.lower b.
Proof. induction a as [|c a IH]; simpl; [reflexivity | now rewrite IH]. Qed.

Lemma lower_split (s a b : string) :
  Text.lower s = a ++ b ->
  exists a0 b0, s = a0 ++ b0 /\ Text.lower a0 = a /\ Text.lower b0 = b.
Proof.
  revert s; induction a as [|c a IH]; intros s H.
  - now exists "", s.
  - destruct s as [|d s]; simpl in H; [discriminate|].
    injection H as Hc Hs.
    destruct (IH _ Hs) as (a0 & b0 & -> & Ha & Hb).
    exists (String d a0), b0. simpl. now rewrite Hc, Ha.
Qed.

(** [lower] leaves digits and whitespace alone and makes none. *)
Lemma lower_char_decimal (c : ascii) :
  Text.isdecimal (Text.lower_char c) = true -> Text.lower_char c = c.
Proof.
  destruct c as [[] [] [] [] [] [] [] []]; vm_compute; congruence.
Qed.

Lemma lower_char_space (c : ascii) :
  Text.isspace (Text.lower_char c) = true -> Text.lower_char c = c.
Proof.
  destruct c as [[] [] [] [] [] [] [] []]; vm_compute; congruence.
Qed.

Lemma lower_keeps (p : ascii -> bool) (s : string) :
  (forall c, p (Text.lower_char c) = true -> Text.lower_char c = c) ->
  all_chars p (Text.lower s) = true -> Text.lower s = s.
Proof.
  intros Hp. induction s as [|c s IH]; simpl; [reflexivity|].
  intros H. apply andb_true_iff in H as [Hc Hs].
  now rewrite (Hp _ Hc), (IH Hs).
Qed.

Lemma lower_fixes (p : ascii -> bool) (s : string) :
  (forall c, p c = true -> Text.lower_char c = c) ->
  all_chars p s = true -> Text.lower s = s.
Proof.
  intros Hp. induction s as [|c s IH]; simpl; [reflexivity|].
  intros H. apply andb_true_iff in H as [Hc Hs].
  now rewrite (Hp _ Hc), (IH Hs).
Qed.

Lemma decimal_lower (c : ascii) :
  Text.isdecimal c = true -> Text.lower_char c = c.
Proof.
  destruct c as [[] [] [] [] [] [] [] []]; vm_compute; congruence.
Qed.

Lemma space_lower (c : ascii) :
  Text.isspace c = true -> Text.lower_char c = c.
Proof.
  destruct c as [[] [] [] [] [] [] [] []]; vm_compute; congruence.
Qed.

(** The test [w in text.lower()] is an occurrence, letter case aside. *)
Lemma contains_lower_occurs (w goal_text : string) :
  Text.contains w (Text.lower goal_text) = true <-> occurs w goal_text.
Proof.
  split.
  - intros H. destruct (contains_split _ _ H) as (pre & post & E).
    destruct (lower_split _ _ _ E) as (pre0 & r & -> & _ & Hr).
    destruct (lower_split _ _ _ Hr) as (u & post0 & -> & Hu & _).
    now exists pre0, u, post0.
  - intros (pre & u & post & -> & <-).
    rewrite !lower_append. apply contains_intro.
Qed.

End Strings.

(** ** The pattern of [re.search] *)

Section Pattern.

Variables (p : ascii -> bool) (k : string -> bool).

Lemma star_sound (s m : string) :
  Re.star p k s = Some m ->
  exists rest, s = m ++ rest /\ all_chars p m = true /\ k rest = true.
Proof.
  revert m; induction s as [|c s IH]; simpl; intros m H.
  - destruct (k "") eqn:E; [|discriminate].
    injection H as <-. now exists "".
  - destruct (p c) eqn:Pc.
    + destruct (Re.star p k s) as [m'|] eqn:Es.
      * injection H as <-.
        destruct (IH _ eq_refl) as (rest & -> & Hm & Hk).
        exists rest. simpl. now rewrite Pc, Hm.
      * destruct (k (String c s)) eqn:E; [|discriminate].
        injection H as <-. now exists (String c s).
    + destruct (k (String c s)) eqn:E; [|discriminate].
      injection H as <-. now exists (String c s).
Qed.

Lemma star_here (s : string) :
  k s = true -> exists m, Re.star p k s = Some m.
Proof.
  intros H. destruct s as [|c s]; simpl.
  - rewrite H. now exists "".
  - rewrite H. destruct (p c); [destruct (Re.star p k s)|]; eauto.
Qed.

Lemma star_complete (m rest : string) :
  all_chars p m = true -> k rest = true ->
  exists m', Re.star p k (m ++ rest) = Some m'.
Proof.
  intros Hm Hk. induction m as [|c m IH]; simpl.
  - now apply star_here.
  - simpl in Hm. apply andb_true_iff in Hm as [Hc Hm].
    rewrite Hc. destruct (IH Hm) as [m' ->]. eauto.
Qed.

End Pattern.

(** A greedy star takes the whole run when what follows the run cannot
    extend it. *)
Lemma star_whole_run (p : ascii -> bool) (k : string -> bool) (m rest : string) :
  all_chars p m = true -> k rest = true ->
  match rest with String c _ => p c = false | EmptyString => True end ->
  Re.star p k (m ++ rest)%string = Some m.
Proof.
  intros Hm Hk Hrest. induction m as [|c m IH].
  - destruct rest as [|c rest]; cbn [append Re.star]; rewrite ?Hrest, Hk;
      reflexivity.
  - cbn [all_chars] in Hm. apply andb_true_iff in Hm as [Hc Hm].
    cbn [append Re.star]. now rewrite Hc, (IH Hm).
Qed.

Lemma spaces_hour_intro (ws post : string) :
  all_chars Text.isspace ws = true ->
  Re.spaces_hour (ws ++ "hour" ++ post) = true.
Proof.
  intros H. unfold Re.spaces_hour.
  destruct (star_complete Text.isspace (Text.startswith "hour") ws
              ("hour" ++ post) H (startswith_append _ _)) as [m ->].
  reflexivity.
Qed.

Lemma spaces_hour_split (s : string) :
  Re.spaces_hour s = true ->
  exists ws post, s = ws ++ "hour" ++ post /\ all_chars Text.isspace ws = true.
Proof.
  unfold Re.spaces_hour. intros H.
  destruct (Re.star Text.isspace (Text.startswith "hour") s) as [ws|] eqn:E;
    [|discriminate].
  destruct (star_sound _ _ _ _ E) as (rest & -> & Hws & Hk).
  destruct (startswith_split _ _ Hk) as [post ->].
  now exists ws, post.
Qed.

Lemma match_hours_sound (s n : string) :
  Re.match_hours s = Some n ->
  exists ws post, s = n ++ ws ++ "hour" ++ post /\ n <> ""
    /\ all_chars Text.isdecimal n = true /\ all_chars Text.isspace ws = true.
Proof.
  destruct s as [|c s]; simpl; [discriminate|].
  destruct (Text.isdecimal c) eqn:Dc; [|discriminate].
  destruct (Re.star Text.isdecimal Re.spaces_hour s) as [m|] eqn:E;
    [|discriminate].
  simpl. intros H; injection H as <-.
  destruct (star_sound _ _ _ _ E) as (rest & -> & Hm & Hk).
  destruct (spaces_hour_split _ Hk) as (ws & post & -> & Hws).
  exists ws, post. simpl. rewrite Dc, Hm. repeat split; congruence.
Qed.

Lemma match_hours_complete (n ws post : string) :
  n <> "" -> all_chars Text.isdecimal n = true ->
  all_chars Text.isspace ws = true ->
  exists n', Re.match_hours (n ++ ws ++ "hour" ++ post) = Some n'.
Proof.
  intros Hn Hd Hws. destruct n as [|c n]; [congruence|].
  simpl in Hd. apply andb_true_iff in Hd as [Hc Hd].
  destruct (star_complete Text.isdecimal Re.spaces_hour n
              (ws ++ "hour" ++ post) Hd (spaces_hour_intro _ _ Hws)) as [m E].
  cbn [append Re.match_hours]. rewrite Hc.
  cbn [append] in E. rewrite E. simpl. eauto.
Qed.

Lemma search_hours_sound (s n : string) :
  Re.search_hours s = Some n ->
  exists pre ws post, s = pre ++ n ++ ws ++ "hour" ++ post /\ n <> ""
    /\ all_chars Text.isdecimal n = true /\ all_chars Text.isspace ws = true.
Proof.
  induction s as [|c s IH]; intros H.
  - discriminate.
  - cbn [Re.search_hours] in H.
    destruct (Re.match_hours (String c s)) as [g|] eqn:E.
    + injection H as <-.
      destruct (match_hours_sound _ _ E) as (ws & post & Hs & ?).
      exists "", ws, post. now rewrite Hs.
    + destruct (IH H) as (pre & ws & post & -> & ?).
      now exists (String c pre), ws, post.
Qed.

Lemma search_hours_here (s n : string) :
  Re.match_hours s = Some n -> Re.search_hours s = Some n.
Proof. intros H. destruct s; cbn [Re.search_hours]; now rewrite H. Qed.

Lemma search_hours_complete (pre n ws post : string) :
  n <> "" -> all_chars Text.isdecimal n = true ->
  all_chars Text.isspace ws = true ->
  exists n', Re.search_hours (pre ++ n ++ ws ++ "hour" ++ post) = Some n'.
Proof.
  intros Hn Hd Hws. induction pre as [|c pre IH].
  - destruct (match_hours_complete n ws post Hn Hd Hws) as [n' E].
    exists n'. now apply search_hours_here.
  - destruct IH as [n' IH].
    change (String c pre ++ n ++ ws ++ "hour" ++ post)
      with (String c (pre ++ n ++ ws ++ "hour" ++ post)).
    cbn [Re.search_hours].
    destruct (Re.match_hours (String c (pre ++ n ++ ws ++ "hour" ++ post)));
      eauto.
Qed.

(** What [re.search] finds in the lower-cased text is a mention of hours
    in the goal text, and every mention is found. *)
Lemma search_hours_mention (goal_text n : string) :
  Re.search_hours (Text.lower goal_text) = Some n -> hours_mention goal_text n.
Proof.
  intros H.
  destruct (search_hours_sound _ _ H) as (pre & ws & post & E & Hn & Hd & Hws).
  destruct (lower_split _ _ _ E) as (pre0 & r1 & -> & _ & E1).
  destruct (lower_split _ _ _ E1) as (n0 & r2 & -> & En & E2).
  destruct (lower_split _ _ _ E2) as (ws0 & r3 & -> & Ews & E3).
  destruct (lower_split _ _ _ E3) as (h0 & post0 & -> & Eh & _).
  assert (n0 = n) as ->.
  { rewrite <- En in Hd |- *. symmetry.
    apply (lower_keeps Text.isdecimal); [apply lower_char_decimal | exact Hd]. }
  assert (ws0 = ws) as ->.
  { rewrite <- Ews in Hws |- *. symmetry.
    apply (lower_keeps Text.isspace); [apply lower_char_space | exact Hws]. }
  now exists pre0, ws, h0, post0.
Qed.

Lemma mention_search_hours (goal_text n : string) :
  hours_mention goal_text n ->
  exists n', Re.search_hours (Text.lower goal_text) = Some n'.
Proof.
  intros (pre & ws & h & post & -> & Hn & Hd & Hws & Hh).
  rewrite !lower_append, Hh.
  rewrite (lower_fixes Text.isdecimal n decimal_lower Hd).
  rewrite (lower_fixes Text.isspace ws space_lower Hws).
  now apply search_hours_complete.
Qed.

(** At its start, the pattern finds the whole run of digits. *)
Lemma match_hours_exact (n ws post : string) :
  n <> "" -> all_chars Text.isdecimal n = true ->
  all_chars Text.isspace ws = true ->
  Re.match_hours (n ++ ws ++ "hour" ++ post) = Some n.
Proof.
  intros Hn Hd Hws. destruct n as [|c n]; [congruence|].
  cbn [all_chars] in Hd. apply andb_true_iff in Hd as [Hc Hd].
  change (String c n ++ ws ++ "hour" ++ post)
    with (String c (n ++ ws ++ "hour" ++ post)).
  cbn [Re.match_hours]. rewrite Hc.
  rewrite (star_whole_run Text.isdecimal Re.spaces_hour n _ Hd
             (spaces_hour_intro ws post Hws)); [reflexivity|].
  destruct ws as [|s ws]; [reflexivity|].
  cbn [all_chars] in Hws. apply andb_true_iff in Hws as [Hs _].
  cbn [append]. revert Hs.
  destruct s as [[] [] [] [] [] [] [] []]; vm_compute; congruence.
Qed.

(** A mention at the head of a text is what [re.match] finds on the
    lower-cased text. *)
Lemma mention_at_match (s n : string) :
  mention_at s n <-> Re.match_hours (Text.lower s) = Some n.
Proof.
  split.
  - intros (ws & h & post & -> & Hn & Hd & Hws & Hh).
    rewrite !lower_append, Hh.
    rewrite (lower_fixes Text.isdecimal n decimal_lower Hd).
    rewrite (lower_fixes Text.isspace ws space_lower Hws).
    now apply match_hours_exact.
  - intros H.
    destruct (match_hours_sound _ _ H) as (ws & post & E & Hn & Hd & Hws).
    destruct (lower_split _ _ _ E) as (n0 & r2 & -> & En & E2).
    destruct (lower_split _ _ _ E2) as (ws0 & r3 & -> & Ews & E3).
    destruct (lower_split _ _ _ E3) as (h0 & post0 & -> & Eh & _).
    assert (n0 = n) as ->.
    { rewrite <- En in Hd |- *. symmetry.
      apply (lower_keeps Text.isdecimal); [apply lower_char_decimal | exact Hd]. }
    assert (ws0 = ws) as ->.
    { rewrite <- Ews in Hws |- *. symmetry.
      apply (lower_keeps Text.isspace); [apply lower_char_space | exact Hws]. }
    now exists ws, h0, post0.
Qed.

(** [re.search] finds the match at the first place where there is one. *)
Lemma search_hours_first (s n : string) :
  Re.search_hours s = Some n <->
  exists pre rest,
    s = pre ++ rest /\ Re.match_hours rest = Some n
    /\ forall p1 p2, pre = p1 ++ p2 -> p2 <> "" ->
         Re.match_hours (p2 ++ rest) = None.
Proof.
  split.
  - induction s as [|c s IH]; intros H; [discriminate|].
    cbn [Re.search_hours] in H.
    destruct (Re.match_hours (String c s)) as [g|] eqn:E.
    + injection H as <-. exists "", (String c s).
      split; [reflexivity|]. split; [exact E|].
      intros [|x p1] [|y p2] Hp Hne; try discriminate; congruence.
    + destruct (IH H) as (pre & rest & -> & Hm & Hnone).
      exists (String c pre), rest. split; [reflexivity|]. split; [exact Hm|].
      intros [|x p1] p2 Hp Hne.
      * cbn [append] in Hp. subst p2. exact E.
      * cbn [append] in Hp. injection Hp as _ Hp. now apply (Hnone p1).
  - intros (pre & rest & -> & Hm & Hnone).
    induction pre as [|c pre IH].
    + now apply search_hours_here.
    + change (String c pre ++ rest) with (String c (pre ++ rest)).
      cbn [Re.search_hours].
      change (String c (pre ++ rest)) with (String c pre ++ rest).
      rewrite (Hnone "" (String c pre) eq_refl) by discriminate.
      apply IH. intros p1 p2 Hp Hne.
      apply (Hnone (String c p1)); [now rewrite Hp | exact Hne].
Qed.

Lemma lower_empty (s : string) : Text.lower s = "" -> s = "".
Proof. destruct s; [reflexivity | discriminate]. Qed.

(** The integer [re.search] finds in the lower-cased text is the integer
    of the first mention of hours in the goal text. *)
Lemma first_mention_search (goal_text n : string) :
  first_mention goal_text n <->
  Re.search_hours (Text.lower goal_text) = Some n.
Proof.
  rewrite search_hours_first. split.
  - intros (pre & rest & -> & Hm & Hfirst).
    exists (Text.lower pre), (Text.lower rest).
    split; [apply lower_append|]. split; [now apply mention_at_match|].
    intros p1 p2 Hp Hne.
    destruct (lower_split _ _ _ Hp) as (q1 & q2 & -> & _ & <-).
    destruct (Re.match_hours (Text.lower q2 ++ Text.lower rest)) as [m|] eqn:E;
      [|reflexivity].
    exfalso. apply (Hfirst q1 q2 m eq_refl).
    + intros ->. now apply Hne.
    + apply mention_at_match. now rewrite lower_append.
  - intros (pre & rest & E & Hm & Hnone).
    destruct (lower_split _ _ _ E) as (pre0 & rest0 & -> & <- & <-).
    exists pre0, rest0. split; [reflexivity|].
    split; [now apply mention_at_match|].
    intros q1 q2 m -> Hne Hmention.
    apply mention_at_match in Hmention. rewrite lower_append in Hmention.
    rewrite (Hnone (Text.lower q1) (Text.lower q2)) in Hmention.
    + discriminate.
    + apply lower_append.
    + intros Hq. now apply Hne, lower_empty.
Qed.

Lemma first_mention_mention (goal_text n : string) :
  first_mention goal_text n -> hours_mention goal_text n.
Proof.
  intros (pre & rest & -> & (ws & h & post & -> & H) & _).
  now exists pre, ws, h, post.
Qed.

(** The integer of the first mention is a whole number of the text. *)
Lemma first_mention_whole (goal_text n : string) :
  first_mention goal_text n -> whole_number goal_text n.
Proof.
  intros (pre & rest & -> & (ws & h & post & -> & Hn & Hd & Hws & Hh) & Hfirst).
  exists pre, (ws ++ h ++ post). split; [reflexivity|]. split.
  - intros p c -> . destruct (Text.isdecimal c) eqn:Hc; [|reflexivity].
    exfalso. apply (Hfirst p (String c "") (String c n) eq_refl); [discriminate|].
    exists ws, h, post. split; [reflexivity|]. split; [discriminate|].
    split; [|split; assumption].
    cbn [all_chars]. now rewrite Hc, Hd.
  - destruct ws as [|s ws].
    + destruct h as [|c h]; [discriminate|]. cbn [append].
      cbn [Text.lower] in Hh. injection Hh as Hc _.
      destruct (Text.isdecimal c) eqn:Hdc; [|reflexivity].
      rewrite (decimal_lower c Hdc) in Hc. subst c. discriminate.
    + cbn [all_chars] in Hws. apply andb_true_iff in Hws as [Hs _].
      cbn [append]. revert Hs.
      destruct s as [[] [] [] [] [] [] [] []]; vm_compute; congruence.
Qed.

(** ** The Local Plan Generator *)

(** The list the appends of lines 75-96 build. *)
Lemma local_tasks_shape (goal_text : string) :
  local_tasks goal_text =
    ([clarify_task; work_task goal_text]
     ++ (if meal_test goal_text then [meal_task] else [])
     ++ (if sleep_test goal_text then [sleep_task] else [])
     ++ (if meal_test goal_text || sleep_test goal_text
         then [] else [review_task]))%list.
Proof.
  unfold local_tasks, work_task, meal_test, sleep_test.
  destruct (Re.search_hours (Text.lower goal_text));
    destruct (existsb _ meal_words);
    destruct (Text.contains "sleep" (Text.lower goal_text)); reflexivity.
Qed.

Lemma meal_test_mention (goal_text : string) :
  meal_test goal_text = true <-> meal_mention goal_text.
Proof.
  unfold meal_test, meal_mention. rewrite existsb_exists.
  split; intros (w & Hw & H); exists w; split; trivial;
    now apply contains_lower_occurs.
Qed.

Lemma sleep_test_occurs (goal_text : string) :
  sleep_test goal_text = true <-> occurs "sleep" goal_text.
Proof. apply contains_lower_occurs. Qed.

Lemma work_task_fields (goal_text : string) : has_task_fields (work_task goal_text).
Proof.
  unfold work_task, has_task_fields, hours_task, timebox_task, mk_task.
  destruct (Re.search_hours _); eauto.
Qed.

Lemma work_task_not_review (goal_text : string) : work_task goal_text <> review_task.
Proof.
  unfold work_task. destruct (Re.search_hours _); discriminate.
Qed.

Lemma work_task_not_meal (goal_text : string) : work_task goal_text <> meal_task.
Proof.
  unfold work_task. destruct (Re.search_hours _); discriminate.
Qed.

Lemma work_task_not_sleep (goal_text : string) : work_task goal_text <> sleep_task.
Proof.
  unfold work_task. destruct (Re.search_hours _); discriminate.
Qed.

(** C3.  [generate_plan_locally] is a total function of the goal text: it
    raises on no string and equal texts give equal plans.  The plan it
    returns is a dict whose only key, tasks, holds a list of at least three
    tasks, each a dict with exactly the fields task_description,
    dependencies and deadline.  This holds for every goal text, the empty
    one included. *)
Theorem local_plan_at_least_three (goal_text : string) :
  exists tasks : list pyval,
    generate_plan_locally goal_text = PyDict [("tasks", PyList tasks)]
    /\ 3 <= length tasks
    /\ Forall has_task_fields tasks
    /\ (forall other, other = goal_text ->
          generate_plan_locally other = generate_plan_locally goal_text).
Proof.
  exists (local_tasks goal_text). split; [reflexivity|].
  rewrite local_tasks_shape.
  assert (Hc : has_task_fields clarify_task) by (unfold has_task_fields; eauto).
  assert (Hm : has_task_fields meal_task) by (unfold has_task_fields; eauto).
  assert (Hs : has_task_fields sleep_task) by (unfold has_task_fields; eauto).
  assert (Hr : has_task_fields review_task) by (unfold has_task_fields; eauto).
  pose proof (work_task_fields goal_text) as Hw.
  split; [|split].
  - destruct (meal_test goal_text), (sleep_test goal_text); simpl; lia.
  - destruct (meal_test goal_text), (sleep_test goal_text); simpl;
      repeat constructor; assumption.
  - now intros other ->.
Qed.

Lemma local_plan_at_least_three_witness :
  exists tasks : list pyval,
    generate_plan_locally "Finish report in 2 hours"
      = PyDict [("tasks", PyList tasks)]
    /\ 3 <= length tasks /\ Forall has_task_fields tasks.
Proof.
  destruct (local_plan_at_least_three "Finish report in 2 hours")
    as (tasks & H1 & H2 & H3 & _).
  exists tasks. repeat split; assumption.
Defined.

(** C5.  When the goal text mentions hours -- an integer, optional
    whitespace and the word hour, letter case aside -- it has a first
    mention, and the second task is "Work for N hour(s)." with N the
    integer of that first mention and no other: N is a whole number of
    the text, with no digit right before or after it.  The description
    holds "N hour(s)", the deadline is "Today" and the dependencies
    string is the beginning of the first task's description.  When the
    goal text mentions no hours the second task is the time-boxed work
    task, with the same dependencies and deadline. *)
Theorem second_task_follows_hours (goal_text : string) :
  ((exists n, hours_mention goal_text n) -> exists n, first_mention goal_text n)
  /\ (forall n, first_mention goal_text n ->
        hours_mention goal_text n
        /\ whole_number goal_text n
        /\ (forall n', first_mention goal_text n' -> n' = n)
        /\ local_tasks goal_text !! 1%nat =
             Some (mk_task ("Work for " ++ n ++ " hour(s).")
                           "Clarify and break down the goal" "Today")
        /\ Text.contains (n ++ " hour(s)") ("Work for " ++ n ++ " hour(s).")
           = true)
  /\ ((~ exists n, hours_mention goal_text n) ->
        local_tasks goal_text !! 1%nat =
          Some (mk_task "Work on the project (time-boxed session)."
                        "Clarify and break down the goal" "Today"))
  /\ local_tasks goal_text !! 0%nat =
       Some (mk_task "Clarify and break down the goal into actionable steps."
                     "None" "Today")
  /\ Text.startswith "Clarify and break down the goal"
       "Clarify and break down the goal into actionable steps." = true.
Proof.
  rewrite local_tasks_shape. cbn [app lookup list_lookup].
  split; [|split; [|split; [|split; reflexivity]]].
  - intros [n0 Hn0]. destruct (mention_search_hours _ _ Hn0) as [n E].
    exists n. now apply first_mention_search.
  - intros n Hn. split; [now apply first_mention_mention|].
    split; [now apply first_mention_whole|].
    apply first_mention_search in Hn. split; [|split].
    + intros n' Hn'. apply first_mention_search in Hn'. congruence.
    + unfold work_task. now rewrite Hn.
    + replace (n ++ " hour(s).") with ((n ++ " hour(s)") ++ ".")
        by (now rewrite append_assoc).
      apply contains_intro.
  - intros Hno. unfold work_task.
    destruct (Re.search_hours (Text.lower goal_text)) as [n|] eqn:E;
      [|reflexivity].
    exfalso. apply Hno. exists n. now apply search_hours_mention.
Qed.

Lemma second_task_follows_hours_witness :
  hours_mention "Study 12 HOURS, then 3 hours" "12"
  /\ whole_number "Study 12 HOURS, then 3 hours" "12"
  /\ (forall n', first_mention "Study 12 HOURS, then 3 hours" n' -> n' = "12")
  /\ local_tasks "Study 12 HOURS, then 3 hours" !! 1%nat =
       Some (mk_task ("Work for " ++ "12" ++ " hour(s).")
                     "Clarify and break down the goal" "Today")
  /\ Text.contains ("12" ++ " hour(s)") ("Work for " ++ "12" ++ " hour(s).")
     = true.
Proof.
  apply (proj1 (proj2 (second_task_follows_hours
                         "Study 12 HOURS, then 3 hours")) "12").
  apply first_mention_search. reflexivity.
Defined.

Lemma meal_task_listed (goal_text : string) :
  In meal_task (local_tasks goal_text) <-> meal_test goal_text = true.
Proof.
  rewrite local_tasks_shape.
  pose proof (work_task_not_meal goal_text).
  destruct (meal_test goal_text), (sleep_test goal_text); simpl;
    split; intros Hx; try tauto; try discriminate;
    repeat (destruct Hx as [Hx|Hx]; try discriminate; try congruence);
    try contradiction.
Qed.

Lemma sleep_task_listed (goal_text : string) :
  In sleep_task (local_tasks goal_text) <-> sleep_test goal_text = true.
Proof.
  rewrite local_tasks_shape.
  pose proof (work_task_not_sleep goal_text).
  destruct (meal_test goal_text), (sleep_test goal_text); simpl;
    split; intros Hx; try tauto; try discriminate;
    repeat (destruct Hx as [Hx|Hx]; try discriminate; try congruence);
    try contradiction.
Qed.

Lemma review_task_listed (goal_text : string) :
  In review_task (local_tasks goal_text) <->
  meal_test goal_text = false /\ sleep_test goal_text = false.
Proof.
  rewrite local_tasks_shape.
  pose proof (work_task_not_review goal_text).
  destruct (meal_test goal_text), (sleep_test goal_text); simpl;
    split; intros Hx; try tauto; try (destruct Hx; discriminate);
    repeat (destruct Hx as [Hx|Hx]; try discriminate; try congruence);
    try contradiction.
Qed.

(** C6.  The meal test and the sleep test are independent: the plan lists
    the meal-break task (dependencies "None", deadline "Today") exactly
    when the goal text mentions a meal word, and the sleep task
    (dependencies "Finish work", deadline "Tonight") exactly when it
    mentions sleep, letter case aside.  A goal text with both gets both,
    the meal task before the sleep task, after the two leading tasks. *)
Theorem meal_and_sleep_tasks (goal_text : string) :
  (meal_mention goal_text <-> In meal_task (local_tasks goal_text))
  /\ (occurs "sleep" goal_text <-> In sleep_task (local_tasks goal_text))
  /\ (meal_mention goal_text -> occurs "sleep" goal_text ->
        local_tasks goal_text =
          [clarify_task; work_task goal_text; meal_task; sleep_task])
  /\ meal_task = mk_task "Take meal breaks." "None" "Today"
  /\ sleep_task = mk_task "Sleep adequately." "Finish work" "Tonight".
Proof.
  repeat split.
  - intros H. now apply meal_task_listed, meal_test_mention.
  - intros H. now apply meal_test_mention, meal_task_listed.
  - intros H. now apply sleep_task_listed, sleep_test_occurs.
  - intros H. now apply sleep_test_occurs, sleep_task_listed.
  - intros Hm Hs. apply meal_test_mention in Hm. apply sleep_test_occurs in Hs.
    rewrite local_tasks_shape, Hm, Hs. reflexivity.
Qed.

Lemma meal_and_sleep_tasks_witness :
  local_tasks "Lunch, then SLEEP" =
    [clarify_task; work_task "Lunch, then SLEEP"; meal_task; sleep_task].
Proof.
  apply (proj1 (proj2 (proj2 (meal_and_sleep_tasks "Lunch, then SLEEP")))).
  - exists "lunch". split; [simpl; tauto|].
    exists "", "Lunch", ", then SLEEP". split; reflexivity.
  - exists "Lunch, then ", "SLEEP", "". split; reflexivity.
Defined.

(** C10.  The plan has at most four tasks.  The review task is in it
    exactly when the goal text mentions neither a meal word nor sleep,
    letter case aside; the plan is then the two leading tasks and the
    review task, three tasks in all. *)
Theorem at_most_four_tasks (goal_text : string) :
  length (local_tasks goal_text) <= 4
  /\ (In review_task (local_tasks goal_text) <->
        ~ meal_mention goal_text /\ ~ occurs "sleep" goal_text)
  /\ (~ meal_mention goal_text -> ~ occurs "sleep" goal_text ->
        local_tasks goal_text = [clarify_task; work_task goal_text; review_task]
        /\ length (local_tasks goal_text) = 3)
  /\ review_task =
       mk_task "Review and adjust the plan." "Complete initial tasks" "Today".
Proof.
  assert (Hm : meal_test goal_text = false <-> ~ meal_mention goal_text).
  { rewrite <- meal_test_mention. destruct (meal_test goal_text); intuition congruence. }
  assert (Hs : sleep_test goal_text = false <-> ~ occurs "sleep" goal_text).
  { rewrite <- sleep_test_occurs. destruct (sleep_test goal_text); intuition congruence. }
  split; [|split; [|split]].
  - rewrite local_tasks_shape.
    destruct (meal_test goal_text), (sleep_test goal_text); simpl; lia.
  - rewrite review_task_listed, Hm, Hs. reflexivity.
  - intros H1 H2. apply Hm in H1. apply Hs in H2.
    rewrite local_tasks_shape, H1, H2. split; reflexivity.
  - reflexivity.
Qed.

Lemma at_most_four_tasks_witness :
  local_tasks "Write the report" =
    [clarify_task; work_task "Write the report"; review_task]
  /\ length (local_tasks "Write the report") = 3.
Proof.
  apply (proj1 (proj2 (proj2 (at_most_four_tasks "Write the report")))).
  - intros H. apply meal_test_mention in H. vm_compute in H. discriminate.
  - intros H. apply sleep_test_occurs in H. vm_compute in H. discriminate.
Defined.

(** ** The handler *)

Local Open Scope list_scope.

Ltac run := unfold sbind, lift, ret in *; cbn beta iota in *.

Lemma insert_one_up (w : world) (doc : nat -> document) (db : mongo) :
  acknowledged w (next_oid db) = true ->
  insert_one w doc db =
    ({| written := written db ++ [doc (next_oid db)];
        next_oid := S (next_oid db) |}, Ok (next_oid db)).
Proof. intros H. unfold insert_one. now rewrite H. Qed.

Lemma insert_one_inv (w : world) (doc : nat -> document) (db db' : mongo)
    (r : result nat) :
  insert_one w doc db = (db', r) ->
  next_oid db' = S (next_oid db)
  /\ ((r = Ok (next_oid db) /\ written db' = written db ++ [doc (next_oid db)])
      \/ (r = Raise StoreError /\ written db' = written db)).
Proof.
  unfold insert_one. destruct (acknowledged w (next_oid db));
    intros H; injection H as <- <-; simpl; auto.
Qed.

(** What one turn of the loop writes. *)
Lemma store_task_inv (w : world) (goal : nat) (task : pyval) (db db' : mongo)
    (r : result nat) :
  store_task w goal task db = (db', r) ->
  (exists e, r = Raise e /\ written db' = written db)
  \/ (exists t, r = Ok (task_oid t) /\ written db' = written db ++ [TaskDoc t]
        /\ goal_id t = goal /\ task_oid t = next_oid db
        /\ get task "task_description" = Ok (task_description t)
        /\ (exists deps, get task "dependencies" = Ok deps
              /\ dependencies t = stored_dependencies deps)
        /\ get task "deadline" = Ok (deadline t)).
Proof.
  unfold store_task. run.
  destruct (get task "dependencies") as [deps|e|] eqn:Hd.
  2:{ intros H; injection H as <- <-. left; eauto. }
  2:{ destruct task; discriminate. }
  destruct (get task "task_description") as [description|e|] eqn:Hx.
  2:{ intros H; injection H as <- <-. left; eauto. }
  2:{ destruct task; discriminate. }
  destruct (get task "deadline") as [due|e|] eqn:Hy.
  2:{ intros H; injection H as <- <-. left; eauto. }
  2:{ destruct task; discriminate. }
  intros H. apply insert_one_inv in H as (_ & [[-> Hw]|[-> Hw]]).
  - right. eexists {| task_oid := next_oid db |}. simpl.
    repeat split; eauto.
  - left; eauto.
Qed.

Lemma store_task_next (w : world) (goal : nat) (task : pyval) (db db' : mongo)
    (r : result nat) :
  store_task w goal task db = (db', r) -> next_oid db <= next_oid db'.
Proof.
  unfold store_task. run.
  destruct (get task "dependencies"); [|intros H; injection H as <- _; lia ..].
  destruct (get task "task_description"); [|intros H; injection H as <- _; lia ..].
  destruct (get task "deadline"); [|intros H; injection H as <- _; lia ..].
  intros H. apply insert_one_inv in H as [-> _]. lia.
Qed.

(** What the loop writes: task documents only, each with the goal's id,
    whether the loop runs to its end or stops at an exception. *)
Lemma store_tasks_inv (w : world) (goal : nat) (tasks : list pyval) :
  forall (db db' : mongo) (r : result unit),
    store_tasks w goal tasks db = (db', r) ->
    exists ts, written db' = written db ++ map TaskDoc ts
      /\ Forall (fun t => goal_id t = goal) ts
      /\ (r = Ok tt -> length ts = length tasks).
Proof.
  induction tasks as [|task rest IH]; intros db db' r H.
  - injection H as <- <-. exists []. simpl. rewrite app_nil_r. auto.
  - cbn [store_tasks] in H. unfold sbind at 1 in H.
    destruct (store_task w goal task db) as [db1 r1] eqn:E.
    destruct (store_task_inv _ _ _ _ _ _ E)
      as [(e & -> & Hw)|(t & -> & Hw & Hg & _)].
    + injection H as <- <-. exists []. simpl. rewrite app_nil_r.
      repeat split; auto; discriminate.
    + destruct (IH _ _ _ H) as (ts & Hw' & Hall & Hlen).
      exists (t :: ts). rewrite Hw', Hw, <- app_assoc. simpl.
      repeat split; auto; intros Hr; now rewrite Hlen.
Qed.

Lemma store_tasks_up (w : world) (goal : nat) (tasks : list pyval) :
  store_up w -> forallb is_dict tasks = true ->
  forall db, exists db', store_tasks w goal tasks db = (db', Ok tt).
Proof.
  intros Hup. induction tasks as [|task rest IH]; intros Hd db.
  - now exists db.
  - simpl in Hd. apply andb_true_iff in Hd as [Ht Hrest].
    destruct task; try discriminate.
    cbn [store_tasks]. unfold sbind at 1. unfold store_task. run.
    unfold get. simpl. rewrite insert_one_up by apply Hup.
    apply (IH Hrest).
Qed.

(** What lines 126-152 write, however they end: nothing, or the goal
    followed by tasks that carry its id. *)
Lemma respond_journal (w : world) (text : string) (fb : bool) (tasks : pyval)
    (db db' : mongo) (r : result (pyval * nat)) :
  respond w text fb tasks db = (db', r) ->
  (written db' = written db /\ r = Raise StoreError)
  \/ (exists ts,
        written db' =
          written db ++ GoalDoc (new_goal w text (next_oid db)) :: map TaskDoc ts
        /\ Forall (fun t => goal_id t = next_oid db) ts
        /\ (forall body status, r = Ok (body, status) ->
              status = 200
              /\ body = plan_response (next_oid db) text tasks fb
              /\ exists items, iter tasks = Ok items /\ length ts = length items)).
Proof.
  unfold respond. unfold sbind at 1.
  destruct (insert_one w _ db) as [db1 r1] eqn:E1.
  apply insert_one_inv in E1 as (_ & [[-> Hw1]|[-> Hw1]]).
  2:{ intros H; injection H as <- <-. now left. }
  intros H. right. run.
  destruct (iter tasks) as [items|e|] eqn:Hi.
  2:{ injection H as <- <-. exists []. simpl. repeat split; auto; discriminate. }
  2:{ destruct tasks; discriminate. }
  destruct (store_tasks w (next_oid db) items db1) as [db2 r2] eqn:E2.
  destruct (store_tasks_inv _ _ _ _ _ _ E2) as (ts & Hw2 & Hall & Hlen).
  exists ts. rewrite Hw1, <- app_assoc in Hw2. simpl in Hw2.
  destruct r2 as [[]|e|]; injection H as <- <-;
    (split; [exact Hw2 | split; [exact Hall |]]);
    intros body status Hr; try discriminate.
  injection Hr as <- <-. repeat split. exists items. split; [reflexivity|].
  now apply Hlen.
Qed.

Lemma respond_up (w : world) (text : string) (fb : bool) (tasks : pyval)
    (items : list pyval) (db : mongo) :
  store_up w -> iter tasks = Ok items -> forallb is_dict items = true ->
  exists db',
    respond w text fb tasks db =
      (db', Ok (plan_response (next_oid db) text tasks fb, 200)).
Proof.
  intros Hup Hi Hd. unfold respond. unfold sbind at 1.
  rewrite insert_one_up by apply Hup. run. rewrite Hi.
  destruct (store_tasks_up w (next_oid db) items Hup Hd
              {| written := written db ++ [GoalDoc (new_goal w text (next_oid db))];
                 next_oid := S (next_oid db) |}) as [db' E].
  unfold new_goal in E. rewrite E. eauto.
Qed.

Lemma endpoint_with_goal (w : world) (data : pyval) (text : string) (db : mongo) :
  request_goal data = Some text -> text <> ""%string ->
  generate_plan_endpoint w data db = plan_and_respond w text db.
Proof.
  intros Hg Hne. unfold request_goal in Hg.
  destruct data as [| | | |?|d]; try discriminate.
  destruct (dict_lookup "goal" d) as [[| | |g| |]|] eqn:Hd; try discriminate.
  injection Hg as <-.
  unfold generate_plan_endpoint, plan_and_respond.
  unfold sbind at 1. unfold lift at 1, lacks.
  assert (Ht : truthy (PyDict d) = true) by (destruct d; [discriminate | reflexivity]).
  rewrite Ht. cbn [negb py_in]. rewrite Hd. cbn [negb].
  unfold sbind at 1. unfold lift at 1, getitem. rewrite Hd.
  unfold sbind at 1. unfold lift at 1, strip_of.
  assert (Hs : truthy (PyStr (Text.strip g)) = true).
  { simpl. apply negb_true_iff, String.eqb_neq, Hne. }
  rewrite Hs. reflexivity.
Qed.

Lemma local_plan_items (text : string) :
  forallb is_dict (local_tasks text) = true.
Proof.
  rewrite local_tasks_shape. unfold work_task.
  destruct (Re.search_hours _), (meal_test text), (sleep_test text); reflexivity.
Qed.

(** The fallback branch: the local plan is stored and returned. *)
Lemma fallback_up (w : world) (text : string) (plan : pyval) (db : mongo) :
  store_up w -> generate_plan_with_groq w text = Ok plan ->
  lacks "tasks" plan = Ok true ->
  exists db',
    plan_and_respond w text db =
      (db', Ok (plan_response (next_oid db) text (PyList (local_tasks text)) true,
                200)).
Proof.
  intros Hup Hp Hl. unfold plan_and_respond. run. rewrite Hp, Hl.
  cbn [generate_plan_locally getitem dict_lookup String.eqb Ascii.eqb Bool.eqb].
  apply (respond_up w text true _ (local_tasks text)); auto.
  apply local_plan_items.
Qed.

Lemma lacks_tasks_true (plan : pyval) :
  plan = PyNone \/ (exists d, plan = PyDict d /\ dict_lookup "tasks" d = None) ->
  lacks "tasks" plan = Ok true.
Proof.
  intros [->|(d & -> & Hd)]; [reflexivity|].
  unfold lacks. destruct d; [reflexivity|].
  cbn [truthy negb py_in]. now rewrite Hd.
Qed.

(** When the handler goes on after the fallback test, the flag tells
    whether the plan had a key tasks. *)
Lemma lacks_tasks_flag (text : string) (plan tasks : pyval) (fb : bool) :
  lacks "tasks" plan = Ok fb ->
  getitem (if fb then generate_plan_locally text else plan) "tasks" = Ok tasks ->
  (fb = true <-> plan = PyNone \/ has_tasks_key plan = false).
Proof.
  intros Hl Hg. destruct fb.
  - split; [intros _ | reflexivity].
    destruct plan as [| | | |?|d]; auto. right. simpl.
    unfold lacks in Hl. destruct d; [reflexivity|].
    cbn [truthy negb py_in] in Hl.
    destruct (dict_lookup "tasks" (p :: d)); [discriminate | reflexivity].
  - split; [discriminate|]. unfold getitem in Hg.
    destruct plan as [| | | |?|d]; try discriminate.
    simpl. destruct (dict_lookup "tasks" d); [|discriminate].
    intros [?|?]; discriminate.
Qed.

(** The remote branch: a plan whose tasks are a list of dicts is stored
    and returned. *)
Lemma remote_up (w : world) (text : string) (d : list (string * pyval))
    (items : list pyval) (db : mongo) :
  store_up w -> generate_plan_with_groq w text = Ok (PyDict d) ->
  dict_lookup "tasks" d = Some (PyList items) -> forallb is_dict items = true ->
  exists db',
    plan_and_respond w text db =
      (db', Ok (plan_response (next_oid db) text (PyList items) false, 200)).
Proof.
  intros Hup Hp Hd Hitems. unfold plan_and_respond. run. rewrite Hp.
  assert (Hl : lacks "tasks" (PyDict d) = Ok false).
  { unfold lacks. destruct d; [discriminate|].
    cbn [truthy negb py_in]. now rewrite Hd. }
  rewrite Hl. cbn [getitem]. rewrite Hd.
  now apply (respond_up w text false _ items).
Qed.

(** C1.  For a request with a non-empty goal, whenever the handler
    answers, the answer is the 200 response and its used_fallback flag is
    true exactly when the Remote Plan Generator returned [None] or a value
    without a key tasks; the tasks are then the local plan, and otherwise
    the tasks of the remote plan.  The handler does answer, the store
    being up, when the remote generator returned [None] or a dict without
    a key tasks (flag true), and when it returned a dict whose tasks are a
    list of dicts (flag false). *)
Theorem used_fallback_iff_remote_unusable (w : world) (data : pyval)
    (text : string) (db : mongo) :
  request_goal data = Some text -> text <> ""%string ->
  (forall db' body status,
     generate_plan_endpoint w data db = (db', Ok (body, status)) ->
     exists plan fb tasks,
       generate_plan_with_groq w text = Ok plan
       /\ status = 200
       /\ body = plan_response (next_oid db) text tasks fb
       /\ (fb = true <-> plan = PyNone \/ has_tasks_key plan = false)
       /\ (fb = true -> tasks = PyList (local_tasks text))
       /\ (fb = false -> getitem plan "tasks" = Ok tasks))
  /\ (forall plan,
        store_up w -> generate_plan_with_groq w text = Ok plan ->
        plan = PyNone
        \/ (exists d, plan = PyDict d /\ dict_lookup "tasks" d = None) ->
        exists db',
          generate_plan_endpoint w data db =
            (db', Ok (plan_response (next_oid db) text
                        (PyList (local_tasks text)) true, 200)))
  /\ (forall plan d items,
        store_up w -> generate_plan_with_groq w text = Ok plan ->
        plan = PyDict d -> dict_lookup "tasks" d = Some (PyList items) ->
        forallb is_dict items = true ->
        exists db',
          generate_plan_endpoint w data db =
            (db', Ok (plan_response (next_oid db) text (PyList items) false,
                      200))).
Proof.
  intros Hg Hne. rewrite (endpoint_with_goal w data text db Hg Hne).
  split; [|split].
  - intros db' body status H. unfold plan_and_respond in H. run.
    destruct (generate_plan_with_groq w text) as [plan|e|]; try discriminate.
    destruct (lacks "tasks" plan) as [fb|e|] eqn:Hl; try discriminate.
    destruct (getitem (if fb then generate_plan_locally text else plan) "tasks")
      as [tasks|e|] eqn:Hi; try discriminate.
    destruct (respond_journal _ _ _ _ _ _ _ H) as [[_ ?]|(ts & _ & _ & Hr)];
      [discriminate|].
    destruct (Hr _ _ eq_refl) as (-> & -> & _).
    exists plan, fb, tasks. repeat split; trivial.
    + apply (lacks_tasks_flag text plan tasks fb Hl Hi).
    + apply (lacks_tasks_flag text plan tasks fb Hl Hi).
    + intros ->. simpl in Hi. now injection Hi.
    + intros ->. exact Hi.
  - intros plan Hup Hp Hplan.
    apply (fallback_up w text plan db Hup Hp), lacks_tasks_true, Hplan.
  - intros plan d items Hup Hp -> Hd Hitems.
    now apply (remote_up w text d items).
Qed.

Lemma used_fallback_iff_remote_unusable_witness :
  exists db',
    generate_plan_endpoint service_down sample_request empty_store =
      (db', Ok (plan_response 0 "Finish report in 2 hours"
                  (PyList (local_tasks "Finish report in 2 hours")) true, 200)).
Proof.
  assert (Hne : "Finish report in 2 hours" <> ""%string) by discriminate.
  apply (proj1 (proj2 (used_fallback_iff_remote_unusable service_down
           sample_request "Finish report in 2 hours" empty_store eq_refl Hne))
           PyNone).
  - intros oid. reflexivity.
  - reflexivity.
  - left. reflexivity.
Defined.

(** C2, as the code has it.  With [client = None] the remote generator
    raises [ConnectionError] before its [try] block and the handler
    catches nothing: a request with a non-empty goal ends in that
    exception, the Local Plan Generator is not called and the store is
    left as it was.  A failure inside the [try] block -- the call raises,
    or its content is not JSON -- is turned into [None] and recovered:
    the store being up, the answer is 200 with used_fallback true. *)
Theorem missing_client_escapes (w : world) (data : pyval) (text : string)
    (db : mongo) :
  request_goal data = Some text -> text <> ""%string ->
  (client w = None ->
     generate_plan_endpoint w data db = (db, Raise ConnectionError))
  /\ (forall create,
        client w = Some create -> store_up w ->
        create (user_message text) = None
        \/ (exists content e, create (user_message text) = Some content
              /\ Json.loads content = Raise e) ->
        exists db',
          generate_plan_endpoint w data db =
            (db', Ok (plan_response (next_oid db) text
                        (PyList (local_tasks text)) true, 200))).
Proof.
  intros Hg Hne. rewrite (endpoint_with_goal w data text db Hg Hne). split.
  - intros Hc. unfold plan_and_respond, generate_plan_with_groq. run.
    now rewrite Hc.
  - intros create Hc Hup Hfail.
    apply (fallback_up w text PyNone db Hup); [|reflexivity].
    unfold generate_plan_with_groq. rewrite Hc.
    destruct Hfail as [->|(content & e & -> & ->)]; reflexivity.
Qed.

Lemma missing_client_escapes_witness :
  generate_plan_endpoint no_client sample_request empty_store =
    (empty_store, Raise ConnectionError).
Proof.
  assert (Hne : "Finish report in 2 hours" <> ""%string) by discriminate.
  apply (proj1 (missing_client_escapes no_client sample_request
                  "Finish report in 2 hours" empty_store eq_refl Hne)).
  reflexivity.
Defined.

(** C2 as stated fails: with no client the request below gets no 200
    response and no used_fallback flag. *)
Lemma missing_client_no_fallback :
  client no_client = None
  /\ request_goal sample_request = Some "Finish report in 2 hours"
  /\ ~ exists db' body,
         generate_plan_endpoint no_client sample_request empty_store =
           (db', Ok (body, 200)).
Proof.
  repeat split. intros (db' & body & H). vm_compute in H. discriminate.
Qed.

(** A run of the handler stops before line 126 and leaves the store as it
    was, or it reaches lines 126-152 with the goal of the request. *)
Lemma plan_and_respond_cases (w : world) (text : string) (db db' : mongo)
    (r : result (pyval * nat)) :
  plan_and_respond w text db = (db', r) ->
  (db' = db /\ forall body status, r <> Ok (body, status))
  \/ (exists fb tasks, respond w text fb tasks db = (db', r)).
Proof.
  unfold plan_and_respond. run.
  destruct (generate_plan_with_groq w text) as [plan|e|].
  2,3: intros H; injection H as <- <-; left; split; [reflexivity | discriminate].
  destruct (lacks "tasks" plan) as [fb|e|].
  2,3: intros H; injection H as <- <-; left; split; [reflexivity | discriminate].
  destruct (getitem (if fb then generate_plan_locally text else plan) "tasks")
    as [tasks|e|].
  2,3: intros H; injection H as <- <-; left; split; [reflexivity | discriminate].
  intros H. right. eauto.
Qed.

Ltac stopped H :=
  unfold ret in H; injection H as <- <-; left;
  split; [reflexivity | discriminate].

Lemma endpoint_cases (w : world) (data : pyval) (db db' : mongo)
    (r : result (pyval * nat)) :
  generate_plan_endpoint w data db = (db', r) ->
  (db' = db /\ forall body, r <> Ok (body, 200))
  \/ (exists text, request_goal data = Some text /\ text <> ""%string
        /\ plan_and_respond w text db = (db', r)).
Proof.
  intros H. unfold generate_plan_endpoint in H.
  unfold sbind at 1 in H; unfold lift at 1 in H.
  destruct (lacks "goal" data) as [[]|e|]; try (stopped H).
  unfold sbind at 1 in H; unfold lift at 1 in H.
  destruct (getitem data "goal") as [v|e|] eqn:Hget; try (stopped H).
  unfold sbind at 1 in H; unfold lift at 1 in H.
  destruct (strip_of v) as [text|e|] eqn:Hs; try (stopped H).
  destruct (negb (truthy (PyStr text))) eqn:Ht; [stopped H|].
  right. exists text. split; [|split].
  - unfold getitem in Hget. destruct data as [| | | |?|d]; try discriminate.
    unfold request_goal. destruct (dict_lookup "goal" d); [|discriminate].
    injection Hget as ->. destruct v; try discriminate.
    simpl in Hs. now injection Hs as ->.
  - simpl in Ht. apply negb_false_iff, negb_true_iff in Ht.
    now apply String.eqb_neq.
  - exact H.
Qed.

Lemma omap_task_docs (ts : list task_doc) :
  omap (fun d => match d with TaskDoc t => Some t | GoalDoc _ => None end)
       (map TaskDoc ts) = ts.
Proof. induction ts as [|t ts IH]; [reflexivity|]. cbn. f_equal. exact IH. Qed.

Lemma omap_goal_docs (ts : list task_doc) :
  omap (fun d => match d with GoalDoc g => Some g | TaskDoc _ => None end)
       (map TaskDoc ts) = [].
Proof. induction ts as [|t ts IH]; [reflexivity|]. cbn. exact IH. Qed.

Lemma tasks_collection_step (db db' : mongo) (g : goal_doc)
    (ts : list task_doc) :
  written db' = written db ++ GoalDoc g :: map TaskDoc ts ->
  tasks_collection db' = tasks_collection db ++ ts.
Proof.
  intros Hw. unfold tasks_collection. rewrite Hw, omap_app.
  f_equal. change (GoalDoc g :: map TaskDoc ts) with ([GoalDoc g] ++ map TaskDoc ts).
  rewrite omap_app. apply omap_task_docs.
Qed.

Lemma goals_collection_step (db db' : mongo) (g : goal_doc)
    (ts : list task_doc) :
  written db' = written db ++ GoalDoc g :: map TaskDoc ts ->
  goals_collection db' = goals_collection db ++ [g].
Proof.
  intros Hw. unfold goals_collection. rewrite Hw, omap_app.
  f_equal. change (GoalDoc g :: map TaskDoc ts) with ([GoalDoc g] ++ map TaskDoc ts).
  rewrite omap_app, omap_goal_docs. reflexivity.
Qed.

(** A goal written before tasks that carry its id keeps the references
    of the store whole. *)
Lemma referential_step (db db' : mongo) (g : goal_doc) (ts : list task_doc) :
  written db' = written db ++ GoalDoc g :: map TaskDoc ts ->
  Forall (fun t => goal_id t = goal_oid g) ts ->
  referential db -> referential db'.
Proof.
  intros Hw Hts Href t Ht.
  rewrite (tasks_collection_step _ _ _ _ Hw) in Ht.
  rewrite (goals_collection_step _ _ _ _ Hw).
  apply in_app_or in Ht as [Ht|Ht].
  - destruct (Href t Ht) as (g0 & Hg0 & E). exists g0.
    split; [apply in_or_app; now left | exact E].
  - exists g. split; [apply in_or_app; right; now left|].
    rewrite Forall_forall in Hts. symmetry. apply Hts.
    now apply list_elem_of_In.
Qed.

(** What a run of the handler does to the store and what a 200 response
    is made of. *)
Lemma endpoint_journal (w : world) (data : pyval) (db db' : mongo)
    (r : result (pyval * nat)) :
  generate_plan_endpoint w data db = (db', r) ->
  (referential db -> referential db')
  /\ (forall body, r = Ok (body, 200) ->
        exists text tasks fb ts,
          body = plan_response (next_oid db) text tasks fb
          /\ written db' =
               written db
               ++ GoalDoc (new_goal w text (next_oid db)) :: map TaskDoc ts
          /\ Forall (fun t => goal_id t = next_oid db) ts
          /\ exists items, iter tasks = Ok items /\ length ts = length items).
Proof.
  intros H.
  destruct (endpoint_cases _ _ _ _ _ H) as [[-> Hr]|(text & _ & _ & Hp)].
  { split; [trivial|]. intros body ->. now destruct (Hr body). }
  destruct (plan_and_respond_cases _ _ _ _ _ Hp)
    as [[-> Hr]|(fb & tasks & Hresp)].
  { split; [trivial|]. intros body ->. now destruct (Hr body 200). }
  destruct (respond_journal _ _ _ _ _ _ _ Hresp)
    as [[Hw ->]|(ts & Hw & Hts & Hr)].
  - split; [|discriminate].
    intros Href t Ht. unfold tasks_collection, goals_collection in *.
    rewrite Hw in *. auto.
  - split.
    + now apply (referential_step db db' (new_goal w text (next_oid db)) ts).
    + intros body ->. destruct (Hr _ _ eq_refl) as (_ & -> & Hitems).
      exists text, tasks, fb, ts. auto.
Qed.

(** C9.  A run of the handler that answers 200 has appended to the store
    the goal document first and then task documents only, every one with
    the id the goal insert returned, which is also the id of the
    response.  So every task it stored refers to a stored goal; and a
    store whose tasks all refer to stored goals is still such a store
    after any run of the handler, one cut short by an exception
    included. *)
Theorem goal_stored_before_its_tasks (w : world) (data : pyval)
    (db db' : mongo) (r : result (pyval * nat)) :
  generate_plan_endpoint w data db = (db', r) ->
  (referential db -> referential db')
  /\ (forall body, r = Ok (body, 200) ->
        exists text tasks fb ts,
          body = plan_response (next_oid db) text tasks fb
          /\ written db' =
               written db
               ++ GoalDoc (new_goal w text (next_oid db)) :: map TaskDoc ts
          /\ Forall (fun t => goal_id t = next_oid db) ts
          /\ exists items, iter tasks = Ok items /\ length ts = length items).
Proof. apply endpoint_journal. Qed.

Lemma goal_stored_before_its_tasks_witness :
  referential
    (fst (generate_plan_endpoint service_down sample_request empty_store)).
Proof.
  apply (proj1 (goal_stored_before_its_tasks service_down sample_request
                  empty_store _ _ (surjective_pairing _))).
  intros t Ht. destruct Ht.
Defined.

(** ** The dependency normalisation *)

(** [scanstring] reads back what [encode_basestring_ascii] wrote. *)
Lemma scanstring_escape_char (c : ascii) (rest : string) :
  Json.scanstring (Json.escape_char c ++ rest)%string =
    (let* (t, r) := Json.scanstring rest in Ok (option_map (String c) t, r)).
Proof.
  destruct c as [[] [] [] [] [] [] [] []]; reflexivity.
Qed.

Lemma scanstring_escape (s rest : string) :
  Json.scanstring (Json.escape s ++ String Json.dquote rest)%string
    = Ok (Some s, rest).
Proof.
  induction s as [|c s IH].
  - reflexivity.
  - cbn [Json.escape]. rewrite append_assoc, scanstring_escape_char, IH.
    reflexivity.
Qed.
Lemma string_length_append (a b : string) :
  String.length (a ++ b)%string = String.length a + String.length b.
Proof. induction a as [|c a IH]; simpl; [reflexivity | now rewrite IH]. Qed.

Lemma scan_once_str (fuel : nat) (p rest : string) :
  Json.scan_once (S fuel) (Json.dumps_str p ++ rest)%string
    = Ok (Some (PyStr p), rest).
Proof.
  unfold Json.dumps_str.
  change (String Json.dquote (Json.escape p ++ Json.chr Json.dquote) ++ rest)%string
    with (String Json.dquote ((Json.escape p ++ Json.chr Json.dquote) ++ rest))%string.
  rewrite append_assoc.
  change (Json.chr Json.dquote ++ rest)%string with (String Json.dquote rest).
  cbn [Json.scan_once].
  change (Text.code Json.dquote =? 34)%N with true. cbn iota.
  now rewrite scanstring_escape.
Qed.

Lemma scan_items_step (fuel : nat) (s : string) :
  Json.scan_items (S fuel) s =
    (let* (v, rest) := Json.scan_once fuel s in
     match Json.skip_ws rest with
     | String c rest' =>
         if (Text.code c =? 93)%N then Ok (option_map (fun x => [x]) v, rest')
         else if (Text.code c =? 44)%N then
           let* (vs, r) := Json.scan_items fuel (Json.skip_ws rest') in
           Ok (Json.both cons v vs, r)
         else Json.bad
     | EmptyString => Json.bad
     end).
Proof. reflexivity. Qed.

Lemma join_two (sep a b : string) (l : list string) :
  Text.join sep (a :: b :: l) = (a ++ sep ++ Text.join sep (b :: l))%string.
Proof. reflexivity. Qed.

(** The text of a list of strings starts with a quote, which is no
    whitespace. *)
Lemma skip_ws_joined (p : string) (parts : list string) (rest : string) :
  Json.skip_ws (Text.join ", " (map Json.dumps_str (p :: parts)) ++ rest)%string
    = (Text.join ", " (map Json.dumps_str (p :: parts)) ++ rest)%string.
Proof.
  destruct parts as [|p2 ps]; cbn [map]; [|rewrite join_two];
    unfold Json.dumps_str at 1 2; reflexivity.
Qed.

Lemma scan_items_strs (parts : list string) :
  forall (p : string) (fuel : nat) (rest : string),
    length parts < fuel ->
    Json.scan_items (S fuel)
      (Text.join ", " (map Json.dumps_str (p :: parts)) ++ "]" ++ rest)%string
      = Ok (Some (map PyStr (p :: parts)), rest).
Proof.
  induction parts as [|p2 ps IH]; intros p fuel rest Hfuel;
    rewrite scan_items_step; (destruct fuel as [|fuel]; [simpl in Hfuel; lia|]).
  - cbn [map Text.join]. rewrite scan_once_str. reflexivity.
  - change (map Json.dumps_str (p :: p2 :: ps))
      with (Json.dumps_str p :: Json.dumps_str p2 :: map Json.dumps_str ps).
    rewrite join_two, !append_assoc, scan_once_str.
    cbn [bind].
    change (", " ++ ?x)%string with (String "," (String " " x)).
    change (Json.skip_ws (String "," ?x)) with (String "," x). cbn iota.
    change (Text.code "," =? 93)%N with false.
    change (Text.code "," =? 44)%N with true. cbn iota.
    change (Json.skip_ws (String " " ?x)) with (Json.skip_ws x).
    rewrite (skip_ws_joined p2 ps), (IH p2 fuel rest) by (simpl in Hfuel; lia).
    reflexivity.
Qed.

Lemma joined_strs_length (parts : list string) :
  length parts <= String.length (Text.join ", " (map Json.dumps_str parts)).
Proof.
  induction parts as [|p ps IH]; [simpl; lia|].
  destruct ps as [|p2 ps].
  - cbn [map Text.join length]. unfold Json.dumps_str. simpl. lia.
  - change (map Json.dumps_str (p :: p2 :: ps))
      with (Json.dumps_str p :: Json.dumps_str p2 :: map Json.dumps_str ps).
    rewrite join_two, !string_length_append.
    change (map Json.dumps_str (p2 :: ps))
      with (Json.dumps_str p2 :: map Json.dumps_str ps) in IH.
    cbn [length] in *. change (String.length ", ") with 2. lia.
Qed.

(** [json.loads] reads back the list of strings [json.dumps] wrote. *)
Lemma loads_dumps_strs (parts : list string) :
  Json.loads (Json.dumps (PyList (map PyStr parts)))
    = Ok (PyList (map PyStr parts)).
Proof.
  cbn [Json.dumps]. rewrite map_map.
  change (map (fun x => Json.dumps (PyStr x)) parts)
    with (map Json.dumps_str parts).
  unfold Json.loads.
  change ("[" ++ ?x)%string with (String "[" x).
  change (Json.skip_ws (String "[" ?x)) with (String "[" x).
  pose proof (joined_strs_length parts) as Hlen.
  destruct parts as [|p ps].
  - reflexivity.
  - remember (Text.join ", " (map Json.dumps_str (p :: ps))) as body eqn:Hb.
    cbn [String.length].
    rewrite string_length_append. change (String.length "]") with 1.
    replace (2 * S (String.length body + 1) + 2)
      with (S (S (2 * String.length body + 4))) by lia.
    cbn [Json.scan_once].
    change (Text.code "[" =? 34)%N with false.
    change (Text.code "[" =? 123)%N with false.
    change (Text.code "[" =? 91)%N with true. cbn iota.
    change (body ++ "]")%string with (body ++ "]" ++ "")%string.
    subst body.
    rewrite (skip_ws_joined p ps ("]" ++ "")).
    assert (Hafter : Json.after "]"
              (Text.join ", " (map Json.dumps_str (p :: ps)) ++ "]" ++ "")%string
            = None).
    { destruct ps as [|p2 ps']; cbn [map]; [|rewrite join_two];
        unfold Json.dumps_str at 1; reflexivity. }
    rewrite Hafter, scan_items_strs by (simpl in Hlen |- *; lia).
    reflexivity.
Qed.

Lemma all_str_strs (parts : list string) : all_str (map PyStr parts) = Some parts.
Proof.
  induction parts as [|p ps IH]; [reflexivity|]. cbn. now rewrite IH.
Qed.

(** A list of strings written and read back is the strings joined. *)
Lemma listed_strings_round_trip (parts : list string) :
  formatted_dependencies (stored_dependencies (PyList (map PyStr parts)))
    = Ok (PyStr (Text.join ", " parts)).
Proof.
  unfold stored_dependencies, formatted_dependencies. cbn [is_list].
  now rewrite loads_dumps_strs, all_str_strs.
Qed.

Lemma local_dependencies_kept (goal_text : string) :
  Forall (fun t => exists deps,
            py_get t "dependencies" = Some deps
            /\ formatted_dependencies (stored_dependencies deps) = Ok deps)
         (local_tasks goal_text).
Proof.
  rewrite local_tasks_shape. unfold work_task.
  destruct (Re.search_hours _), (meal_test goal_text), (sleep_test goal_text);
    repeat constructor; eexists; (split; [reflexivity | vm_compute; reflexivity]).
Qed.

(** C4, as the code has it.  The list ["A", "B"] written and read back is
    the string "A, B", and so is every list of strings: it comes back as
    its items joined by ", ".  The string "None" written and read back is
    "None".  A value that is not a list comes back unchanged when it is
    not a string, or is a string [json.loads] rejects; so do the
    dependencies of every task of the Local Plan Generator.  A string
    that [json.loads] accepts does not come back: line 167 binds [deps]
    to the parsed value before line 168 asks whether it is a list, so
    what comes back is the parsed value, or its items joined when it is
    a list of strings. *)
Theorem dependencies_round_trip :
  formatted_dependencies (stored_dependencies (PyList [PyStr "A"; PyStr "B"]))
    = Ok (PyStr "A, B")
  /\ (forall parts,
        formatted_dependencies (stored_dependencies (PyList (map PyStr parts)))
          = Ok (PyStr (Text.join ", " parts)))
  /\ formatted_dependencies (stored_dependencies (PyStr "None"))
       = Ok (PyStr "None")
  /\ (forall deps, is_list deps = false ->
        (forall s, deps = PyStr s -> exists e, Json.loads s = Raise e) ->
        formatted_dependencies (stored_dependencies deps) = Ok deps)
  /\ (forall goal_text,
        Forall (fun t => exists deps,
                  py_get t "dependencies" = Some deps
                  /\ formatted_dependencies (stored_dependencies deps) = Ok deps)
               (local_tasks goal_text))
  /\ (forall s v, Json.loads s = Ok v ->
        formatted_dependencies (stored_dependencies (PyStr s)) =
          Ok (match v with
              | PyList items =>
                  match all_str items with
                  | Some parts => PyStr (Text.join ", " parts)
                  | None => v
                  end
              | _ => v
              end)).
Proof.
  split; [vm_compute; reflexivity|]. split; [apply listed_strings_round_trip|].
  split; [vm_compute; reflexivity|].
  split; [|split; [apply local_dependencies_kept|]].
  - intros deps Hl Hs. unfold stored_dependencies. rewrite Hl.
    destruct deps as [| | |s| |]; try reflexivity.
    destruct (Hs s eq_refl) as [e He]. unfold formatted_dependencies.
    now rewrite He.
  - intros s v Hv. unfold stored_dependencies, formatted_dependencies.
    cbn [is_list]. rewrite Hv.
    destruct v as [| | | |items|]; try reflexivity.
    destruct (all_str items); reflexivity.
Qed.

Lemma dependencies_round_trip_witness :
  formatted_dependencies (stored_dependencies (PyStr "2.5 km run"))
    = Ok (PyStr "2.5 km run").
Proof.
  apply (proj1 (proj2 (proj2 (proj2 dependencies_round_trip)))).
  - reflexivity.
  - intros s E. injection E as <-. exists JSONDecodeError.
    vm_compute. reflexivity.
Defined.

(** C4 fails in the code for a string that is itself JSON: the
    dependencies "1", a string and no list, are stored as they are and
    come back as the number 1. *)
Lemma numeral_dependencies_change :
  is_list (PyStr "1") = false
  /\ stored_dependencies (PyStr "1") = PyStr "1"
  /\ formatted_dependencies (stored_dependencies (PyStr "1")) = Ok (PyInt 1)
  /\ formatted_dependencies (stored_dependencies (PyStr "1")) <> Ok (PyStr "1").
Proof.
  split; [reflexivity|]. split; [reflexivity|].
  split; [vm_compute; reflexivity|].
  vm_compute. discriminate.
Qed.

(** ** Lines 126-152 on objects *)

Section ObjectLevel.
Import Objects.

Lemma grows_refl (h : heap) : grows h h.
Proof. split; auto. Qed.

Lemma grows_trans (h1 h2 h3 : heap) : grows h1 h2 -> grows h2 h3 -> grows h1 h3.
Proof. intros [L1 H1] [L2 H2]. split; [lia | auto]. Qed.

Lemma grows_app (h ext : heap) : grows h (h ++ ext).
Proof.
  split; [rewrite length_app; lia|].
  intros a o H. now apply lookup_app_l_Some.
Qed.

(** Reading finds the same value with more fuel and in a grown heap. *)
Lemma denote_grows (h h' : heap) :
  grows h h' ->
  forall fuel a v, denote fuel h a = Some v -> denote fuel h' a = Some v.
Proof.
  intros [_ Hg]. induction fuel as [|fuel IH]; intros a v H; [discriminate|].
  cbn [denote] in *.
  destruct (h !! a) as [o|] eqn:Ho; [|discriminate].
  rewrite (Hg _ _ Ho).
  destruct o; try exact H.
  - destruct (mapM (denote fuel h) items) as [vs|] eqn:E; [|discriminate].
    apply mapM_Some in E.
    assert (E' : mapM (denote fuel h') items = Some vs).
    { apply mapM_Some. eapply Forall2_impl; [exact E|]. intros; now apply IH. }
    now rewrite E'.
  - destruct (mapM _ entries) as [d|] eqn:E; [|discriminate].
    apply mapM_Some in E.
    assert (E' : mapM (fun e => pair (fst e) <$> denote fuel h' (snd e)) entries
                 = Some d).
    { apply mapM_Some. eapply Forall2_impl; [exact E|].
      intros e kv Hx. simpl in *.
      destruct (denote fuel h e.2) as [u|] eqn:Eu; [|discriminate].
      now rewrite (IH _ _ Eu). }
    now rewrite E'.
Qed.

Lemma denote_fuel (h : heap) :
  forall fuel fuel' a v,
    denote fuel h a = Some v -> fuel <= fuel' -> denote fuel' h a = Some v.
Proof.
  induction fuel as [|fuel IH]; intros fuel' a v H Hle; [discriminate|].
  destruct fuel' as [|fuel']; [lia|].
  cbn [denote] in *.
  destruct (h !! a) as [o|]; [|discriminate].
  destruct o; try exact H.
  - destruct (mapM (denote fuel h) items) as [vs|] eqn:E; [|discriminate].
    apply mapM_Some in E.
    assert (E' : mapM (denote fuel' h) items = Some vs).
    { apply mapM_Some. eapply Forall2_impl; [exact E|].
      intros; apply (IH fuel'); [assumption | lia]. }
    now rewrite E'.
  - destruct (mapM _ entries) as [d|] eqn:E; [|discriminate].
    apply mapM_Some in E.
    assert (E' : mapM (fun e => pair (fst e) <$> denote fuel' h (snd e)) entries
                 = Some d).
    { apply mapM_Some. eapply Forall2_impl; [exact E|].
      intros e kv Hx. simpl in *.
      destruct (denote fuel h e.2) as [u|] eqn:Eu; [|discriminate].
      rewrite (IH fuel' _ _ Eu); [assumption | lia]. }
    now rewrite E'.
Qed.

Lemma read_grows (h h' : heap) (a : addr) (v : pyval) :
  grows h h' -> read h a = Some v -> read h' a = Some v.
Proof.
  intros Hg H. unfold read in *.
  apply (denote_fuel h' (S (length h))); [|destruct Hg; lia].
  now apply (denote_grows h h').
Qed.


Lemma read_none (h : heap) : read (h ++ [ONone]) (length h) = Some PyNone.
Proof.
  unfold read. cbn [denote]. now rewrite (list_lookup_middle h [] ONone).
Qed.

Lemma read_str (h : heap) (s : string) :
  read (h ++ [OStr s]) (length h) = Some (PyStr s).
Proof.
  unfold read. cbn [denote]. now rewrite (list_lookup_middle h [] (OStr s)).
Qed.

(** The entries of a dict object against the entries of its value. *)
Lemma entries_lookup (fuel : nat) (h : heap) (k : string) :
  forall es d,
    mapM (fun e : string * addr => pair (fst e) <$> denote fuel h (snd e)) es
      = Some d ->
    match entry k es with
    | Some a => exists v, denote fuel h a = Some v /\ dict_lookup k d = Some v
    | None => dict_lookup k d = None
    end.
Proof.
  induction es as [|[k' a] es IH]; intros d H.
  - injection H as <-. reflexivity.
  - cbn in H.
    destruct (denote fuel h a) as [v|] eqn:Ev; [|discriminate]. cbn in H.
    destruct (mapM _ es) as [d'|] eqn:Ed; [|discriminate]. cbn in H.
    injection H as <-. cbn [entry dict_lookup].
    destruct (String.eqb k k'); [eauto | now apply IH].
Qed.

Lemma read_is_list (h : heap) (a : addr) (v : pyval) :
  read h a = Some v ->
  match h !! a with Some (OList _) => true | _ => false end = is_list v.
Proof.
  unfold read. cbn [denote].
  destruct (h !! a) as [[]|]; try discriminate;
    try (intros H; injection H as <-; reflexivity).
  - destruct (mapM _ items); [|discriminate].
    intros H; injection H as <-; reflexivity.
  - destruct (mapM _ entries); [|discriminate].
    intros H; injection H as <-; reflexivity.
Qed.

(** [task.get(k)] on the object and on its value. *)
Lemma o_get_refines (m : machine) (t : addr) (k : string) (tv : pyval) :
  read (objects m) t = Some tv ->
  (exists v m' a,
     get tv k = Ok v /\ o_get t k m = (m', Ok a) /\ store m' = store m
     /\ grows (objects m) (objects m') /\ read (objects m') a = Some v)
  \/ (get tv k = Raise AttributeError /\ o_get t k m = (m, Raise AttributeError)).
Proof.
  intros H. unfold o_get. unfold read in H. cbn [denote] in H.
  destruct (objects m !! t) as [[]|] eqn:Ho; try discriminate;
    try (right; injection H as <-; split; reflexivity).
  - right. destruct (mapM _ items); [|discriminate].
    injection H as <-. split; reflexivity.
  - left. destruct (mapM _ entries) as [d|] eqn:Ed; [|discriminate].
    injection H as <-. pose proof (entries_lookup _ _ k _ _ Ed) as Hk.
    unfold get, py_get.
    destruct (entry k entries) as [a|].
    + destruct Hk as (v & Hv & ->). exists v, m, a.
      do 3 (split; [reflexivity|]). split; [apply grows_refl|].
      unfold read. apply (denote_fuel _ (length (objects m))); [exact Hv | lia].
    + rewrite Hk. eexists PyNone, _, _. unfold new.
      do 3 (split; [reflexivity|]). split; [apply grows_app | apply read_none].
Qed.

(** [insert_one] on a task document just built: the document gets its
    [_id], the store gets the values of its fields. *)
Lemma o_insert_task_spec (w : world) (h : heap) (db : mongo)
    (g a1 a2 a3 goal : nat) (v1 v2 v3 : pyval) :
  h !! g = Some (OObjectId goal) ->
  read h a1 = Some v1 -> read h a2 = Some v2 -> read h a3 = Some v3 ->
  let doc := fun oid =>
    TaskDoc {| task_oid := oid; goal_id := goal; task_description := v1;
               dependencies := v2; deadline := v3 |} in
  exists h',
    grows h h'
    /\ o_insert_task w (length h)
         {| objects := h ++ [ODict [("goal_id", g); ("task_description", a1);
                                    ("dependencies", a2); ("deadline", a3)]];
            store := db |}
       = ({| objects := h'; store := fst (insert_one w doc db) |},
          snd (insert_one w doc db)).
Proof.
  intros Hg H1 H2 H3 doc.
  set (es := [("goal_id", g); ("task_description", a1);
              ("dependencies", a2); ("deadline", a3)]).
  set (h' := h ++ [ODict (set_entry "_id" (S (length h)) es);
                   OObjectId (next_oid db)]).
  assert (Hgrow : grows h h') by apply grows_app.
  exists h'. split; [exact Hgrow|].
  unfold o_insert_task. unfold sbind at 1. unfold new at 1.
  cbn [objects store].
  unfold sbind at 1. unfold setitem. cbn [objects store].
  replace (length (h ++ [ODict es])) with (S (length h))
    by (rewrite length_app; simpl; lia).
  rewrite <- (app_assoc h). cbn [app].
  rewrite (list_lookup_middle h _ (ODict es) (length h) eq_refl).
  rewrite (insert_app_r_alt h _ (length h)) by lia.
  rewrite Nat.sub_diag. cbn [insert list_insert].
  fold h'.
  assert (Hd : h' !! length h
               = Some (ODict (set_entry "_id" (S (length h)) es)))
    by (apply list_lookup_middle; reflexivity).
  unfold sbind at 1. cbn [objects]. rewrite Hd.
  change (entry "goal_id" (set_entry "_id" (S (length h)) es)) with (Some g).
  unfold o_oid. cbn [objects]. rewrite (proj2 Hgrow _ _ Hg).
  unfold sbind at 1. unfold o_field at 1. cbn [objects]. rewrite Hd.
  change (entry "task_description" (set_entry "_id" (S (length h)) es))
    with (Some a1).
  unfold o_read. cbn [objects]. rewrite (read_grows h h' a1 v1 Hgrow H1).
  unfold sbind at 1. unfold o_field at 1. cbn [objects]. rewrite Hd.
  change (entry "dependencies" (set_entry "_id" (S (length h)) es))
    with (Some a2).
  unfold o_read. cbn [objects]. rewrite (read_grows h h' a2 v2 Hgrow H2).
  unfold sbind at 1. unfold o_field at 1. cbn [objects]. rewrite Hd.
  change (entry "deadline" (set_entry "_id" (S (length h)) es))
    with (Some a3).
  unfold o_read. cbn [objects]. rewrite (read_grows h h' a3 v3 Hgrow H3).
  unfold on_store. cbn [objects store]. fold doc.
  now destruct (insert_one w doc db).
Qed.

Lemma sbind_ok {S A B : Type} (c : stateful S A) (k : A -> stateful S B)
    (st st' : S) (a : A) :
  c st = (st', Ok a) -> sbind c k st = k a st'.
Proof. intros H. unfold sbind. now rewrite H. Qed.

Lemma sbind_raise {S A B : Type} (c : stateful S A) (k : A -> stateful S B)
    (st st' : S) (e : exn) :
  c st = (st', Raise e) -> sbind c k st = (st', Raise e).
Proof. intros H. unfold sbind. now rewrite H. Qed.

Lemma store_task_run (w : world) (goal : nat) (tv : pyval) (db : mongo) :
  store_task w goal tv db =
    match get tv "dependencies" with
    | Ok dv =>
        match get tv "task_description" with
        | Ok v3 =>
            match get tv "deadline" with
            | Ok v4 =>
                insert_one w (fun oid =>
                  TaskDoc {| task_oid := oid; goal_id := goal;
                             task_description := v3;
                             dependencies := stored_dependencies dv;
                             deadline := v4 |}) db
            | Raise e => (db, Raise e)
            | Beyond => (db, Beyond)
            end
        | Raise e => (db, Raise e)
        | Beyond => (db, Beyond)
        end
    | Raise e => (db, Raise e)
    | Beyond => (db, Beyond)
    end.
Proof.
  unfold store_task. run.
  destruct (get tv "dependencies"); [|reflexivity ..].
  destruct (get tv "task_description"); [|reflexivity ..].
  destruct (get tv "deadline"); reflexivity.
Qed.

(** One turn of the loop on objects does to the store what it does on
    values, and changes no object that was there. *)
Lemma o_store_task_refines (w : world) (g goal t : nat) (tv : pyval)
    (m : machine) :
  read (objects m) t = Some tv -> objects m !! g = Some (OObjectId goal) ->
  exists h',
    grows (objects m) h'
    /\ o_store_task w g t m =
         ({| objects := h'; store := fst (store_task w goal tv (store m)) |},
          snd (store_task w goal tv (store m))).
Proof.
  intros Ht Hg. rewrite store_task_run. unfold o_store_task.
  (* deps = task.get("dependencies") *)
  destruct (o_get_refines m t "dependencies" tv Ht)
    as [(dv & m1 & a & -> & E1 & Hs1 & G1 & R1)|[-> E1]].
  2:{ rewrite (sbind_raise _ _ _ _ _ E1).
      exists (objects m). split; [apply grows_refl | now destruct m]. }
  rewrite (sbind_ok _ _ _ _ _ E1).
  (* if isinstance(deps, list): deps = json.dumps(deps) *)
  assert (E2 : o_is_list a m1 = (m1, Ok (is_list dv))).
  { unfold o_is_list. now rewrite (read_is_list _ _ _ R1). }
  rewrite (sbind_ok _ _ _ _ _ E2).
  assert (Hdeps : exists m2 a2,
    (if is_list dv
     then do* v := o_read a in new (OStr (Json.dumps v))
     else ret a) m1 = (m2, Ok a2)
    /\ store m2 = store m /\ grows (objects m1) (objects m2)
    /\ read (objects m2) a2 = Some (stored_dependencies dv)).
  { unfold stored_dependencies. destruct (is_list dv).
    - unfold sbind, o_read, new. rewrite R1. eexists _, _.
      split; [reflexivity|]. cbn [objects store].
      split; [exact Hs1|]. split; [apply grows_app | apply read_str].
    - exists m1, a. unfold ret. auto using grows_refl. }
  destruct Hdeps as (m2 & a2 & E3 & Hs2 & G2 & R2).
  rewrite (sbind_ok _ _ _ _ _ E3).
  pose proof (grows_trans _ _ _ G1 G2) as G02.
  (* task.get("task_description") *)
  destruct (o_get_refines m2 t "task_description" tv (read_grows _ _ _ _ G02 Ht))
    as [(v3 & m3 & a3 & -> & E4 & Hs3 & G3 & R3)|[-> E4]].
  2:{ rewrite (sbind_raise _ _ _ _ _ E4).
      exists (objects m2). split; [exact G02|]. rewrite <- Hs2. now destruct m2. }
  rewrite (sbind_ok _ _ _ _ _ E4).
  pose proof (grows_trans _ _ _ G02 G3) as G03.
  (* task.get("deadline") *)
  destruct (o_get_refines m3 t "deadline" tv (read_grows _ _ _ _ G03 Ht))
    as [(v4 & m4 & a4 & -> & E5 & Hs4 & G4 & R4)|[-> E5]].
  2:{ rewrite (sbind_raise _ _ _ _ _ E5).
      exists (objects m3). split; [exact G03|].
      rewrite <- Hs2, <- Hs3. now destruct m3. }
  rewrite (sbind_ok _ _ _ _ _ E5).
  pose proof (grows_trans _ _ _ G03 G4) as G04.
  (* task_doc = {...}; tasks_collection.insert_one(task_doc) *)
  unfold sbind at 1. unfold new at 1.
  destruct (o_insert_task_spec w (objects m4) (store m4) g a3 a2 a4 goal
              v3 (stored_dependencies dv) v4) as (h' & G5 & E).
  - apply (proj2 G04), Hg.
  - apply (read_grows _ _ _ _ G4 R3).
  - apply (read_grows _ _ _ _ (grows_trans _ _ _ G3 G4) R2).
  - exact R4.
  - exists h'. split; [apply (grows_trans _ _ _ G04 G5)|].
    rewrite E. now rewrite Hs4, Hs3, Hs2.
Qed.

Lemma store_tasks_cons (w : world) (goal : nat) (tv : pyval)
    (rest : list pyval) (db : mongo) :
  store_tasks w goal (tv :: rest) db =
    match store_task w goal tv db with
    | (db', Ok _) => store_tasks w goal rest db'
    | (db', Raise e) => (db', Raise e)
    | (db', Beyond) => (db', Beyond)
    end.
Proof. reflexivity. Qed.

(** The loop on objects, from its [i]-th step on, against the loop on the
    values of the items left. *)
Lemma o_store_tasks_refines (w : world) (g goal tasks : nat) (h0 : heap)
    (items : list addr) (vs : list pyval) :
  h0 !! tasks = Some (OList items) ->
  Forall2 (fun a v => read h0 a = Some v) items vs ->
  h0 !! g = Some (OObjectId goal) ->
  forall n i fuel m,
    i + n = length items -> n < fuel -> grows h0 (objects m) ->
    exists h',
      grows (objects m) h'
      /\ o_store_tasks fuel w g tasks i m =
           ({| objects := h';
               store := fst (store_tasks w goal (drop i vs) (store m)) |},
            snd (store_tasks w goal (drop i vs) (store m))).
Proof.
  intros Htasks Hitems Hg.
  pose proof (Forall2_length _ _ _ Hitems) as Hlen.
  induction n as [|n IH]; intros i fuel m Hi Hfuel Hgrow;
    (destruct fuel as [|fuel]; [lia|]); cbn [o_store_tasks];
    rewrite (proj2 Hgrow _ _ Htasks).
  - rewrite (proj2 (lookup_ge_None items i)) by lia.
    rewrite drop_ge by lia.
    exists (objects m). split; [apply grows_refl | now destruct m].
  - destruct (lookup_lt_is_Some_2 items i) as [t Et]; [lia|].
    rewrite Et.
    destruct (Forall2_lookup_l _ _ _ _ _ Hitems Et) as (tv & Ev & Rt).
    rewrite (drop_S _ _ _ Ev), store_tasks_cons.
    destruct (o_store_task_refines w g goal t tv m
                (read_grows _ _ _ _ Hgrow Rt) (proj2 Hgrow _ _ Hg))
      as (h1 & G1 & E1).
    destruct (store_task w goal tv (store m)) as [db1 [oid|e|]];
      cbn [fst snd] in E1.
    + rewrite (sbind_ok _ _ _ _ _ E1).
      destruct (IH (S i) fuel {| objects := h1; store := db1 |})
        as (h' & G' & E'); [lia | lia | apply (grows_trans _ _ _ Hgrow G1) |].
      exists h'. split; [apply (grows_trans _ _ _ G1 G') | exact E'].
    + rewrite (sbind_raise _ _ _ _ _ E1). exists h1. now split.
    + unfold sbind. rewrite E1. exists h1. now split.
Qed.

(** [for task in tasks] on the object against the loop on its value. *)
Lemma o_for_tasks_refines (w : world) (g goal tasks : nat) (v : pyval)
    (m : machine) :
  read (objects m) tasks = Some v -> objects m !! g = Some (OObjectId goal) ->
  exists h',
    grows (objects m) h'
    /\ o_for_tasks w g tasks m =
         ({| objects := h';
             store := fst ((do* items := lift (iter v) in
                            store_tasks w goal items) (store m)) |},
          snd ((do* items := lift (iter v) in
                store_tasks w goal items) (store m))).
Proof.
  intros H Hg. unfold o_for_tasks.
  pose proof H as Hread. unfold read in H. cbn [denote] in H.
  destruct (objects m !! tasks) as [[| | |s|items|es| |]|] eqn:Ho;
    try discriminate.
  - injection H as <-. cbn [o_store_tasks]. rewrite Ho.
    exists (objects m). split; [apply grows_refl | now destruct m].
  - injection H as <-. cbn [o_store_tasks]. rewrite Ho.
    exists (objects m). split; [apply grows_refl | now destruct m].
  - injection H as <-. cbn [o_store_tasks]. rewrite Ho.
    exists (objects m). split; [apply grows_refl | now destruct m].
  - injection H as <-. cbn [o_store_tasks]. rewrite Ho.
    exists (objects m). split; [apply grows_refl|].
    destruct s; now destruct m.
  - destruct (mapM _ items) as [vs|] eqn:E; [|discriminate].
    injection H as <-. apply mapM_Some in E.
    assert (Hitems : Forall2 (fun a v => read (objects m) a = Some v) items vs).
    { eapply Forall2_impl; [exact E|]. intros a u Hu. unfold read.
      apply (denote_fuel _ _ _ _ _ Hu). lia. }
    destruct (o_store_tasks_refines w g goal tasks (objects m) items vs
                Ho Hitems Hg (length items) 0 (S (length items)) m)
      as (h' & G & E'); [lia | lia | apply grows_refl |].
    exists h'. split; [exact G|]. rewrite E'. reflexivity.
  - destruct (mapM _ es) as [d|] eqn:E; [|discriminate].
    injection H as <-. cbn [o_store_tasks]. rewrite Ho.
    exists (objects m). split; [apply grows_refl|].
    destruct es as [|[k a] es].
    + injection E as <-. now destruct m.
    + cbn in E. destruct (denote _ _ a); [|discriminate]. cbn in E.
      destruct (mapM _ es); [|discriminate]. injection E as <-.
      now destruct m.
Qed.

Lemma read_bool (h : heap) (b : bool) :
  read (h ++ [OBool b]) (length h) = Some (PyBool b).
Proof.
  unfold read. cbn [denote]. now rewrite (list_lookup_middle h [] (OBool b)).
Qed.

(** A new dict object reads as the dict of what its entries read as. *)
Lemma read_dict_new (h : heap) (es : list (string * addr))
    (d : list (string * pyval)) :
  Forall2 (fun e kv => fst e = fst kv /\ read h (snd e) = Some (snd kv)) es d ->
  read (h ++ [ODict es]) (length h) = Some (PyDict d).
Proof.
  intros H. unfold read. cbn [denote].
  rewrite (list_lookup_middle h [] (ODict es)) by reflexivity.
  assert (E : mapM (fun e : string * addr =>
                      pair (fst e) <$>
                        denote (length (h ++ [ODict es])) (h ++ [ODict es]) (snd e))
                   es = Some d).
  { apply mapM_Some. eapply Forall2_impl; [exact H|].
    intros [k a] [k' u] [Hk Hr]. simpl in *. subst k'.
    rewrite length_app, Nat.add_1_r.
    now rewrite (denote_grows h _ (grows_app h _) _ _ _ Hr). }
  now rewrite E.
Qed.

Lemma respond_run (w : world) (text : string) (fb : bool) (v : pyval)
    (db : mongo) :
  respond w text fb v db =
    match insert_one w (fun oid => GoalDoc (new_goal w text oid)) db with
    | (db1, Ok goal) =>
        match (do* items := lift (iter v) in store_tasks w goal items) db1 with
        | (db2, Ok _) => (db2, Ok (plan_response goal text v fb, 200))
        | (db2, Raise e) => (db2, Raise e)
        | (db2, Beyond) => (db2, Beyond)
        end
    | (db1, Raise e) => (db1, Raise e)
    | (db1, Beyond) => (db1, Beyond)
    end.
Proof.
  unfold respond, new_goal. run.
  destruct (insert_one w _ db) as [db1 [goal|e|]]; try reflexivity.
  destruct (iter v) as [items|e|]; reflexivity.
Qed.

Lemma o_respond_refines (w : world) (text : string) (fb : bool)
    (tasks : nat) (v : pyval) (m : machine) :
  read (objects m) tasks = Some v ->
  exists h',
    grows (objects m) h'
    /\ o_respond w text fb tasks m =
         ({| objects := h'; store := fst (respond w text fb v (store m)) |},
          snd (respond w text fb v (store m))).
Proof.
  intros Hv. destruct m as [h db]. cbn [objects store] in *.
  rewrite respond_run. unfold o_respond.
  unfold sbind at 1. unfold new at 1. cbn [objects store].
  unfold sbind at 1. unfold new at 1. cbn [objects store].
  unfold sbind at 1. unfold new at 1. cbn [objects store].
  set (h2 := (h ++ [OStr text]) ++ [ODatetime (utcnow w)]).
  set (gd := [("goal_text", length h); ("created_at", length (h ++ [OStr text]))]).
  assert (G2 : grows h h2).
  { apply (grows_trans _ (h ++ [OStr text])); apply grows_app. }
  assert (Rtext : read h2 (length h) = Some (PyStr text)).
  { apply (read_grows (h ++ [OStr text])); [apply grows_app | apply read_str]. }
  (* goals_collection.insert_one(goal_doc) *)
  unfold sbind at 1. unfold o_insert_goal.
  unfold sbind at 1. unfold new at 1. cbn [objects store].
  unfold sbind at 1. unfold setitem. cbn [objects store].
  rewrite <- (app_assoc h2). cbn [app].
  rewrite (list_lookup_middle h2 _ (ODict gd) (length h2) eq_refl).
  rewrite (insert_app_r_alt h2 _ (length h2)) by lia.
  rewrite Nat.sub_diag. cbn [insert list_insert].
  replace (length (h2 ++ [ODict gd])) with (S (length h2))
    by (rewrite length_app; simpl; lia).
  set (h4 := h2 ++ [ODict (set_entry "_id" (S (length h2)) gd);
                    OObjectId (next_oid db)]).
  assert (G4 : grows h h4) by (apply (grows_trans _ h2); [exact G2 | apply grows_app]).
  assert (Hid : h4 !! S (length h2) = Some (OObjectId (next_oid db))).
  { unfold h4. rewrite lookup_app_r by lia.
    replace (S (length h2) - length h2) with 1 by lia. reflexivity. }
  unfold sbind at 1. unfold on_store at 1. cbn [objects store].
  unfold insert_one, new_goal.
  destruct (acknowledged w (next_oid db)).
  2:{ exists h4. now split. }
  unfold ret at 1. cbn beta iota.
  set (db1 := {| written := written db ++ [_]; next_oid := S (next_oid db) |}).
  (* for task in tasks *)
  destruct (o_for_tasks_refines w (S (length h2)) (next_oid db) tasks v
              {| objects := h4; store := db1 |}
              (read_grows _ _ _ _ G4 Hv) Hid) as (h5 & G5 & E5).
  cbn [objects store] in G5, E5.
  destruct ((do* items := lift (iter v) in
             store_tasks w (next_oid db) items) db1) as [db2 [[]|e|]];
    cbn [fst snd] in E5.
  2:{ rewrite (sbind_raise _ _ _ _ _ E5). exists h5.
      split; [apply (grows_trans _ _ _ G4 G5) | reflexivity]. }
  2:{ unfold sbind at 1. rewrite E5. exists h5.
      split; [apply (grows_trans _ _ _ G4 G5) | reflexivity]. }
  rewrite (sbind_ok _ _ _ _ _ E5).
  (* response = {...}; jsonify(response) *)
  unfold sbind at 1. unfold o_oid at 1. cbn [objects store].
  rewrite (proj2 G5 _ _ Hid).
  unfold sbind at 1. unfold new at 1. cbn [objects store].
  unfold sbind at 1. unfold new at 1. cbn [objects store].
  unfold sbind at 1. unfold new at 1. cbn [objects store].
  set (h7 := (h5 ++ [OStr (str_oid (next_oid db))]) ++ [OBool fb]).
  assert (G7 : grows h5 h7).
  { apply (grows_trans _ (h5 ++ [OStr (str_oid (next_oid db))])); apply grows_app. }
  unfold sbind at 1. unfold o_read at 1. cbn [objects store].
  rewrite (read_dict_new h7 _
             [("goal_id", PyStr (str_oid (next_oid db)));
              ("goal_text", PyStr text); ("tasks", v);
              ("used_fallback", PyBool fb)]).
  - exists (h7 ++ [ODict [("goal_id", length h5); ("goal_text", length h);
                          ("tasks", tasks);
                          ("used_fallback",
                           length (h5 ++ [OStr (str_oid (next_oid db))]))]]).
    split; [|reflexivity].
    apply (grows_trans _ h4); [exact G4|].
    apply (grows_trans _ h5); [exact G5|].
    apply (grows_trans _ h7); [exact G7 | apply grows_app].
  - repeat constructor; cbn [fst snd].
    + apply (read_grows (h5 ++ [OStr (str_oid (next_oid db))]));
        [apply grows_app | apply read_str].
    + apply (read_grows h2); [|exact Rtext].
      apply (grows_trans _ h4); [apply grows_app|].
      apply (grows_trans _ h5); [exact G5 | exact G7].
    + apply (read_grows h); [|exact Hv].
      apply (grows_trans _ h4); [exact G4|].
      apply (grows_trans _ h5); [exact G5 | exact G7].
    + apply read_bool.
Qed.

(** Induction on values, through the items of lists and dicts. *)
Lemma pyval_nested_ind (P : pyval -> Prop) :
  P PyNone -> (forall b, P (PyBool b)) -> (forall z, P (PyInt z)) ->
  (forall s, P (PyStr s)) ->
  (forall items, Forall P items -> P (PyList items)) ->
  (forall entries, Forall (fun e => P (snd e)) entries -> P (PyDict entries)) ->
  forall v, P v.
Proof.
  intros HN HB HI HS HL HD.
  refine (fix IH (v : pyval) : P v :=
            match v with
            | PyNone => HN
            | PyBool b => HB b
            | PyInt z => HI z
            | PyStr s => HS s
            | PyList items =>
                HL items
                  ((fix items_ok (l : list pyval) : Forall P l :=
                      match l with
                      | [] => Forall_nil_2 _
                      | x :: l' => Forall_cons_2 _ _ _ (IH x) (items_ok l')
                      end) items)
            | PyDict entries =>
                HD entries
                  ((fix entries_ok (l : list (string * pyval))
                      : Forall (fun e => P (snd e)) l :=
                      match l with
                      | [] => Forall_nil_2 _
                      | e :: l' => Forall_cons_2 _ _ _ (IH (snd e)) (entries_ok l')
                      end) entries)
            end).
Qed.

(** Every value can be laid out: [build] adds objects that read as the
    value and leaves the others alone. *)
Lemma build_reads (v : pyval) :
  forall h, grows h (fst (build v h))
            /\ read (fst (build v h)) (snd (build v h)) = Some v.
Proof.
  induction v as [| | | |items IH|entries IH] using pyval_nested_ind; intros h.
  - split; [apply grows_app | apply read_none].
  - split; [apply grows_app | apply read_bool].
  - split; [apply grows_app|]. unfold read. cbn [build fst snd denote].
    now rewrite (list_lookup_middle h [] (OInt z)).
  - split; [apply grows_app | apply read_str].
  - cbn [build].
    assert (Hfold : forall h0 acc vs0,
      Forall2 (fun a u => read h0 a = Some u) acc vs0 ->
      let r := fold_left (fun acc x =>
                 let '(h1, as1) := acc in
                 let '(h2, a) := build x h1 in (h2, as1 ++ [a]))
                 items (h0, acc) in
      grows h0 (fst r)
      /\ Forall2 (fun a u => read (fst r) a = Some u) (snd r) (vs0 ++ items)).
    { induction IH as [|x items Hx _ IHitems]; intros h0 acc vs0 Hacc.
      - cbn. rewrite app_nil_r. split; [apply grows_refl | exact Hacc].
      - cbn [fold_left]. destruct (build x h0) as [h2 a] eqn:Eb.
        destruct (Hx h0) as [G R]. rewrite Eb in G, R. cbn [fst snd] in G, R.
        destruct (IHitems h2 (acc ++ [a]) (vs0 ++ [x])) as [G' R'].
        { apply Forall2_app; [|now repeat constructor].
          eapply Forall2_impl; [exact Hacc|]. intros; now apply (read_grows h0). }
        rewrite <- app_assoc in R'. split; [apply (grows_trans _ _ _ G G') | exact R']. }
    specialize (Hfold h [] [] ltac:(constructor)). cbn zeta in Hfold.
    destruct (fold_left _ items (h, [])) as [h' addrs].
    cbn [fst snd app] in *. destruct Hfold as [G R].
    split; [apply (grows_trans _ _ _ G), grows_app|].
    unfold read. cbn [denote].
    rewrite (list_lookup_middle h' [] (OList addrs)) by reflexivity.
    assert (E : mapM (denote (length (h' ++ [OList addrs])) (h' ++ [OList addrs]))
                  addrs = Some items).
    { apply mapM_Some. eapply Forall2_impl; [exact R|].
      intros a u Hr. rewrite length_app, Nat.add_1_r.
      exact (denote_grows h' _ (grows_app h' _) _ _ _ Hr). }
    now rewrite E.
  - cbn [build].
    assert (Hfold : forall h0 acc d0,
      Forall2 (fun e kv => fst e = fst kv /\ read h0 (snd e) = Some (snd kv))
              acc d0 ->
      let r := fold_left (fun acc kx =>
                 let '(h1, es1) := acc in
                 let '(h2, a) := build (snd kx) h1 in
                 (h2, es1 ++ [(fst kx, a)]))
                 entries (h0, acc) in
      grows h0 (fst r)
      /\ Forall2 (fun e kv => fst e = fst kv
                              /\ read (fst r) (snd e) = Some (snd kv))
                 (snd r) (d0 ++ entries)).
    { induction IH as [|[k x] entries Hx _ IHentries]; intros h0 acc d0 Hacc.
      - cbn. rewrite app_nil_r. split; [apply grows_refl | exact Hacc].
      - cbn [fold_left fst snd]. cbn [snd] in Hx.
        destruct (build x h0) as [h2 a] eqn:Eb.
        destruct (Hx h0) as [G R]. rewrite Eb in G, R. cbn [fst snd] in G, R.
        destruct (IHentries h2 (acc ++ [(k, a)]) (d0 ++ [(k, x)])) as [G' R'].
        { apply Forall2_app; [|now repeat constructor].
          eapply Forall2_impl; [exact Hacc|].
          intros e kv [? ?]; split; [assumption | now apply (read_grows h0)]. }
        rewrite <- app_assoc in R'. split; [apply (grows_trans _ _ _ G G') | exact R']. }
    specialize (Hfold h [] [] ltac:(constructor)). cbn zeta in Hfold.
    destruct (fold_left _ entries (h, [])) as [h' es].
    cbn [fst snd app] in *. destruct Hfold as [G R].
    split; [apply (grows_trans _ _ _ G), grows_app|].
    now apply read_dict_new.
Qed.

End ObjectLevel.

(** What the 200 response carries: the list of the generator that was
    chosen, as that generator returned it. *)
Lemma endpoint_200_tasks (w : world) (data : pyval) (db db' : mongo)
    (body : pyval) :
  generate_plan_endpoint w data db = (db', Ok (body, 200)) ->
  exists text plan,
    request_goal data = Some text
    /\ generate_plan_with_groq w text = Ok plan
    /\ ((getitem body "tasks" = Ok (PyList (local_tasks text))
         /\ getitem body "used_fallback" = Ok (PyBool true))
        \/ (getitem body "tasks" = getitem plan "tasks"
            /\ getitem body "used_fallback" = Ok (PyBool false))).
Proof.
  intros H.
  destruct (endpoint_cases _ _ _ _ _ H) as [[_ Hr]|(text & Hg & _ & Hp)].
  { now destruct (Hr body). }
  exists text. unfold plan_and_respond in Hp. run.
  destruct (generate_plan_with_groq w text) as [plan|e|]; try discriminate.
  exists plan. split; [exact Hg|]. split; [reflexivity|].
  destruct (lacks "tasks" plan) as [fb|e|]; try discriminate.
  destruct (getitem (if fb then generate_plan_locally text else plan) "tasks")
    as [tasks|e|] eqn:Hi; try discriminate.
  destruct (respond_journal _ _ _ _ _ _ _ Hp) as [[_ ?]|(ts & _ & _ & Hr)];
    [discriminate|].
  destruct (Hr _ _ eq_refl) as (_ & -> & _).
  destruct fb.
  - left. simpl in Hi. injection Hi as <-. split; reflexivity.
  - right. rewrite Hi. split; reflexivity.
Qed.

(** C8.  The tasks of a 200 response are the list the chosen generator
    returned -- the local plan when used_fallback is true, the value under
    tasks of the remote plan otherwise -- in the same order and with every
    field as the generator gave it.  The lines that store the tasks do not
    change them: run on objects in memory, with [tasks] the address of a
    list object that reads as the value [v], lines 126-152 write the same
    documents and give the same response as on the value [v], and every
    object that was readable before reads the same afterwards.  Every
    value a generator returns has such a list object: the one [build]
    lays out. *)
Theorem response_carries_generator_tasks :
  (forall w data db db' body,
     generate_plan_endpoint w data db = (db', Ok (body, 200)) ->
     exists text plan,
       request_goal data = Some text
       /\ generate_plan_with_groq w text = Ok plan
       /\ ((getitem body "tasks" = Ok (PyList (local_tasks text))
            /\ getitem body "used_fallback" = Ok (PyBool true))
           \/ (getitem body "tasks" = getitem plan "tasks"
               /\ getitem body "used_fallback" = Ok (PyBool false))))
  /\ (forall w text fb tasks v m,
        Objects.read (Objects.objects m) tasks = Some v ->
        exists m',
          Objects.o_respond w text fb tasks m =
            (m', snd (respond w text fb v (Objects.store m)))
          /\ Objects.store m' = fst (respond w text fb v (Objects.store m))
          /\ (forall a u,
                Objects.read (Objects.objects m) a = Some u ->
                Objects.read (Objects.objects m') a = Some u))
  /\ (forall v h,
        Objects.read (fst (Objects.build v h)) (snd (Objects.build v h))
          = Some v).
Proof.
  split; [apply endpoint_200_tasks|]. split; [|apply build_reads].
  intros w text fb tasks v m Hv.
  destruct (o_respond_refines w text fb tasks v m Hv) as (h' & G & E).
  eexists. split; [exact E|]. split; [reflexivity|].
  intros a u Hu. now apply (read_grows _ _ _ _ G).
Qed.

Lemma response_carries_generator_tasks_witness :
  exists m',
    Objects.o_respond service_down "Plan the launch" false sample_tasks_addr
      sample_machine =
      (m', snd (respond service_down "Plan the launch" false sample_tasks
                  empty_store))
    /\ Objects.store m' =
         fst (respond service_down "Plan the launch" false sample_tasks
                empty_store)
    /\ (forall a u,
          Objects.read (Objects.objects sample_machine) a = Some u ->
          Objects.read (Objects.objects m') a = Some u).
Proof.
  apply (proj1 (proj2 response_carries_generator_tasks) service_down
           "Plan the launch" false sample_tasks_addr sample_tasks
           sample_machine).
  vm_compute. reflexivity.
Defined.

(** A run with the remote plan [sample_tasks]: the response has the
    dependencies as the list the service gave, the store has their JSON
    text. *)
Example listed_dependencies_run :
  exists db' body,
    generate_plan_endpoint service_lists_dependencies sample_request
      empty_store = (db', Ok (body, 200))
    /\ getitem body "tasks" = Ok sample_tasks
    /\ map dependencies (tasks_collection db')
       = [PyStr (Json.dumps (PyList [PyStr "A"; PyStr "B"]))].
Proof.
  eexists _, _. split; [vm_compute; reflexivity|]. split; reflexivity.
Qed.

(** * More of the code *)

(** ** The Remote Plan Generator *)

(** X1.  The remote generator raises only [ConnectionError], and exactly
    when the client is missing.  With a client it returns: a plan it
    returns that is not [None] is the parse of the content the service
    answered. *)
Theorem remote_generator_outcomes (w : world) (text : string) :
  (forall e, generate_plan_with_groq w text = Raise e <->
             client w = None /\ e = ConnectionError)
  /\ (forall plan, generate_plan_with_groq w text = Ok plan ->
        plan <> PyNone ->
        exists create content,
          client w = Some create
          /\ create (user_message text) = Some content
          /\ Json.loads content = Ok plan).
Proof.
  unfold generate_plan_with_groq. split.
  - intros e. destruct (client w) as [create|].
    + split; [|intros [? _]; discriminate].
      destruct (create (user_message text)) as [content|]; [|discriminate].
      destruct (Json.loads content); discriminate.
    + split; [intros H; injection H as <-; auto | intros [_ ->]; reflexivity].
  - intros plan H Hplan. destruct (client w) as [create|]; [|discriminate].
    destruct (create (user_message text)) as [content|] eqn:Ec.
    + destruct (Json.loads content) as [v|e|] eqn:El; try discriminate.
      * injection H as <-. eauto.
      * injection H as <-. congruence.
    + injection H as <-. congruence.
Qed.

Lemma remote_generator_outcomes_witness :
  exists create content,
    client service_lists_dependencies = Some create
    /\ create (user_message "Plan the launch") = Some content
    /\ Json.loads content = Ok (PyDict [("tasks", sample_tasks)]).
Proof.
  apply (proj2 (remote_generator_outcomes service_lists_dependencies
                  "Plan the launch")).
  - vm_compute. reflexivity.
  - discriminate.
Defined.

(** ** The handler: statuses, exceptions and documents *)

(** After the membership test, the subscript finds its key or meets a
    value that has no keys. *)
Lemma lacks_getitem (k : string) (c : pyval) :
  lacks k c = Ok false ->
  (exists v, getitem c k = Ok v) \/ getitem c k = Raise TypeError.
Proof.
  unfold lacks, getitem. destruct (negb (truthy c)); [discriminate|].
  destruct c as [| | | |items|d]; cbn [py_in]; auto.
  destruct (dict_lookup k d); [eauto | discriminate].
Qed.

Lemma lacks_outcomes (k : string) (c : pyval) :
  (exists b, lacks k c = Ok b) \/ lacks k c = Raise TypeError.
Proof.
  unfold lacks. destruct (negb (truthy c)); [eauto|].
  destruct (py_in k c); eauto.
Qed.

Lemma strip_of_outcomes (v : pyval) :
  (exists s, strip_of v = Ok s) \/ strip_of v = Raise AttributeError.
Proof. destruct v; simpl; eauto. Qed.

Lemma store_task_dict (w : world) (goal : nat) (task : pyval) (db : mongo) :
  is_dict task = true ->
  store_task w goal task db =
    insert_one w (fun oid => TaskDoc (task_document goal task oid)) db.
Proof.
  intros H. destruct task; try discriminate.
  rewrite store_task_run. reflexivity.
Qed.

Lemma store_task_not_dict (w : world) (goal : nat) (task : pyval) (db : mongo) :
  is_dict task = false ->
  store_task w goal task db = (db, Raise AttributeError).
Proof.
  intros H. rewrite store_task_run. destruct task; try discriminate; reflexivity.
Qed.

(** A loop that ran to its end met dicts only and wrote their documents,
    in order, under consecutive ids the store acknowledged. *)
Lemma store_tasks_ok_inv (w : world) (goal : nat) (items : list pyval) :
  forall db db',
    store_tasks w goal items db = (db', Ok tt) ->
    forallb is_dict items = true
    /\ written db' =
         written db ++ map TaskDoc (task_documents goal (next_oid db) items)
    /\ next_oid db' = next_oid db + length items
    /\ (forall i, i < length items -> acknowledged w (next_oid db + i) = true).
Proof.
  induction items as [|task rest IH]; intros db db' H.
  - injection H as <-. cbn. rewrite app_nil_r.
    repeat split; auto; intros; lia.
  - rewrite store_tasks_cons in H.
    destruct (is_dict task) eqn:Hd.
    2:{ rewrite (store_task_not_dict _ _ _ _ Hd) in H. discriminate. }
    rewrite (store_task_dict _ _ _ _ Hd) in H. unfold insert_one in H.
    destruct (acknowledged w (next_oid db)) eqn:Hack; [|discriminate].
    destruct (IH _ _ H) as (Hall & Hw & Hn & Hacks).
    cbn [written next_oid] in Hw, Hn, Hacks.
    split; [cbn; now rewrite Hd|]. split; [|split].
    + rewrite Hw, <- app_assoc. reflexivity.
    + rewrite Hn. cbn [length]. lia.
    + intros [|i] Hi; [now rewrite Nat.add_0_r|].
      replace (next_oid db + S i) with (S (next_oid db) + i) by lia.
      apply Hacks. cbn [length] in Hi. lia.
Qed.

(** A run that answers 200, in full. *)
Lemma endpoint_200_inv (w : world) (data : pyval) (db db' : mongo)
    (body : pyval) :
  generate_plan_endpoint w data db = (db', Ok (body, 200)) ->
  exists text fb tasks items,
    request_goal data = Some text /\ text <> ""%string
    /\ body = plan_response (next_oid db) text tasks fb
    /\ iter tasks = Ok items
    /\ forallb is_dict items = true
    /\ written db' =
         written db
         ++ GoalDoc (new_goal w text (next_oid db))
            :: map TaskDoc (task_documents (next_oid db) (S (next_oid db)) items)
    /\ next_oid db' = next_oid db + 1 + length items.
Proof.
  intros H.
  destruct (endpoint_cases _ _ _ _ _ H) as [[_ Hr]|(text & Hg & Hne & Hp)].
  { now destruct (Hr body). }
  destruct (plan_and_respond_cases _ _ _ _ _ Hp)
    as [[_ Hr]|(fb & tasks & Hresp)].
  { now destruct (Hr body 200). }
  rewrite respond_run in Hresp. unfold insert_one in Hresp.
  destruct (acknowledged w (next_oid db)); [|discriminate].
  unfold sbind, lift in Hresp.
  destruct (iter tasks) as [items|e|] eqn:Hi; try discriminate.
  destruct (store_tasks w (next_oid db) items _) as [db2 [[]|e|]] eqn:Hs;
    try discriminate.
  injection Hresp as <- <-.
  destruct (store_tasks_ok_inv _ _ _ _ _ Hs) as (Hall & Hw & Hn & _).
  cbn [written next_oid] in Hw, Hn.
  exists text, fb, tasks, items. repeat split; auto.
  - rewrite Hw, <- app_assoc. reflexivity.
  - rewrite Hn. lia.
Qed.

(** X2.  On a 200 run the store gains the goal document and then one
    document per task of the response, in plan order and under
    consecutive ids.  Each holds the task's description and deadline, a
    missing field as [None], and its dependencies as JSON text when they
    were a list; the goal text is the goal of the request, stripped. *)
Theorem documents_of_a_200_run (w : world) (data : pyval) (db db' : mongo)
    (body : pyval) :
  generate_plan_endpoint w data db = (db', Ok (body, 200)) ->
  exists text tasks items,
    request_goal data = Some text
    /\ getitem body "tasks" = Ok tasks
    /\ iter tasks = Ok items
    /\ written db' =
         written db
         ++ GoalDoc {| goal_oid := next_oid db; goal_text := text;
                       created_at := utcnow w |}
            :: map TaskDoc (task_documents (next_oid db) (S (next_oid db)) items)
    /\ next_oid db' = next_oid db + 1 + length items.
Proof.
  intros H.
  destruct (endpoint_200_inv _ _ _ _ _ H)
    as (text & fb & tasks & items & Hg & _ & -> & Hi & _ & Hw & Hn).
  exists text, tasks, items. repeat split; auto.
Qed.

Lemma documents_of_a_200_run_witness :
  exists text tasks items,
    request_goal sample_request = Some text
    /\ getitem sample_body "tasks" = Ok tasks
    /\ iter tasks = Ok items
    /\ written sample_store =
         written empty_store
         ++ GoalDoc {| goal_oid := 0; goal_text := text; created_at := 0 |}
            :: map TaskDoc (task_documents 0 1 items)
    /\ next_oid sample_store = 0 + 1 + length items.
Proof.
  apply (documents_of_a_200_run service_lists_dependencies sample_request
           empty_store sample_store sample_body).
  vm_compute. reflexivity.
Defined.

Lemma store_tasks_raise (w : world) (goal : nat) (items : list pyval) :
  forall db db' e,
    store_tasks w goal items db = (db', Raise e) ->
    e = AttributeError \/ e = StoreError.
Proof.
  induction items as [|task rest IH]; intros db db' e H; [discriminate|].
  rewrite store_tasks_cons in H.
  destruct (is_dict task) eqn:Hd.
  - rewrite (store_task_dict _ _ _ _ Hd) in H. unfold insert_one in H.
    destruct (acknowledged w (next_oid db)); [eauto|].
    injection H as _ <-. auto.
  - rewrite (store_task_not_dict _ _ _ _ Hd) in H. injection H as _ <-. auto.
Qed.

Lemma store_tasks_not_beyond (w : world) (goal : nat) (items : list pyval) :
  forall db db', store_tasks w goal items db <> (db', Beyond).
Proof.
  induction items as [|task rest IH]; intros db db' H; [discriminate|].
  rewrite store_tasks_cons in H.
  destruct (is_dict task) eqn:Hd.
  - rewrite (store_task_dict _ _ _ _ Hd) in H. unfold insert_one in H.
    destruct (acknowledged w (next_oid db)); [eapply IH; eauto | discriminate].
  - rewrite (store_task_not_dict _ _ _ _ Hd) in H. discriminate.
Qed.

(** How lines 126-152 end. *)
Lemma respond_outcomes (w : world) (text : string) (fb : bool) (tasks : pyval)
    (db db' : mongo) (r : result (pyval * nat)) :
  respond w text fb tasks db = (db', r) ->
  r = Ok (plan_response (next_oid db) text tasks fb, 200)
  \/ r = Raise TypeError \/ r = Raise AttributeError \/ r = Raise StoreError.
Proof.
  rewrite respond_run. unfold insert_one.
  destruct (acknowledged w (next_oid db)).
  2:{ intros H; injection H as _ <-. auto. }
  unfold sbind, lift. destruct (iter tasks) as [items|e|] eqn:Hi.
  - destruct (store_tasks w (next_oid db) items _) as [db2 [[]|e|]] eqn:Hs.
    + intros H; injection H as _ <-. auto.
    + intros H; injection H as _ <-.
      destruct (store_tasks_raise _ _ _ _ _ _ Hs) as [->| ->]; auto.
    + now destruct (store_tasks_not_beyond _ _ _ _ _ Hs).
  - intros H; injection H as _ <-.
    unfold iter in Hi. destruct (py_iter tasks); [discriminate|].
    injection Hi as <-. auto.
  - unfold iter in Hi. destruct (py_iter tasks); discriminate.
Qed.

(** How a run of the handler ends before line 117, when it ends there. *)
Lemma endpoint_early (w : world) (data : pyval) (db db' : mongo)
    (r : result (pyval * nat)) :
  generate_plan_endpoint w data db = (db', r) ->
  (db' = db
   /\ (r = Ok (error_body "JSON must contain 'goal'", 400)
       \/ r = Ok (error_body "Goal cannot be empty", 400)
       \/ r = Raise TypeError \/ r = Raise AttributeError))
  \/ (exists text, request_goal data = Some text /\ text <> ""%string
        /\ plan_and_respond w text db = (db', r)).
Proof.
  intros H. unfold generate_plan_endpoint in H.
  unfold sbind at 1 in H; unfold lift at 1 in H.
  destruct (lacks_outcomes "goal" data) as [[[] Hl]|Hl]; rewrite Hl in H.
  - unfold ret in H. injection H as <- <-. auto.
  - unfold sbind at 1 in H; unfold lift at 1 in H.
    destruct (lacks_getitem _ _ Hl) as [[v Hget]|Hget]; rewrite Hget in H.
    2:{ injection H as <- <-. auto 6. }
    unfold sbind at 1 in H; unfold lift at 1 in H.
    destruct (strip_of_outcomes v) as [[text Hs]|Hs]; rewrite Hs in H.
    2:{ injection H as <- <-. auto 6. }
    destruct (negb (truthy (PyStr text))) eqn:Ht.
    + unfold ret in H. injection H as <- <-. auto 6.
    + right. exists text. split; [|split].
      * unfold getitem in Hget. destruct data as [| | | |?|d]; try discriminate.
        unfold request_goal. destruct (dict_lookup "goal" d); [|discriminate].
        injection Hget as ->. destruct v; try discriminate.
        simpl in Hs. now injection Hs as ->.
      * simpl in Ht. apply negb_false_iff, negb_true_iff in Ht.
        now apply String.eqb_neq.
      * exact H.
  - injection H as <- <-. auto 6.
Qed.

Lemma plan_and_respond_outcomes (w : world) (text : string) (db db' : mongo)
    (r : result (pyval * nat)) :
  plan_and_respond w text db = (db', r) ->
  (exists tasks fb, r = Ok (plan_response (next_oid db) text tasks fb, 200))
  \/ (r = Raise ConnectionError /\ client w = None /\ db' = db)
  \/ r = Raise TypeError \/ r = Raise AttributeError \/ r = Raise StoreError
  \/ r = Beyond.
Proof.
  unfold plan_and_respond. unfold sbind at 1. unfold lift at 1.
  destruct (generate_plan_with_groq w text) as [plan|e|] eqn:Hp.
  2:{ intros H; injection H as <- <-. right. left.
      unfold generate_plan_with_groq in Hp.
      destruct (client w) as [create|]; [|now injection Hp as <-].
      destruct (create _); [destruct (Json.loads _)|]; discriminate. }
  2:{ intros H; injection H as _ <-. auto 7. }
  unfold sbind at 1. unfold lift at 1.
  destruct (lacks_outcomes "tasks" plan) as [[fb Hl]|Hl]; rewrite Hl.
  2:{ intros H; injection H as _ <-. auto 7. }
  unfold sbind at 1. unfold lift at 1.
  assert (Hget : (exists tasks,
            getitem (if fb then generate_plan_locally text else plan) "tasks"
              = Ok tasks)
          \/ getitem (if fb then generate_plan_locally text else plan) "tasks"
             = Raise TypeError).
  { destruct fb; [left; eexists; reflexivity | now apply lacks_getitem]. }
  destruct Hget as [[tasks Hget]|Hget]; rewrite Hget.
  2:{ intros H; injection H as _ <-. auto 7. }
  intros H. destruct (respond_outcomes _ _ _ _ _ _ _ H) as [->|[->|[->| ->]]];
    eauto 8.
Qed.

(** X3.  The handler answers 200 with the four keys of the plan
    response, or 400 with an error body and then the store is as it was.
    The exceptions it lets out are [TypeError], [AttributeError],
    [ConnectionError] and [StoreError]: the two subscripts are guarded by
    their membership tests and never raise [KeyError], and no
    [JSONDecodeError] leaves the remote generator.  A [ConnectionError]
    means the client is missing and nothing was written. *)
Theorem handler_outcomes (w : world) (data : pyval) (db db' : mongo)
    (r : result (pyval * nat)) :
  generate_plan_endpoint w data db = (db', r) ->
  (forall body status, r = Ok (body, status) ->
     (status = 200
      /\ body_keys body = ["goal_id"; "goal_text"; "tasks"; "used_fallback"]%string)
     \/ (status = 400 /\ db' = db /\ body_keys body = ["error"%string]))
  /\ (forall e, r = Raise e ->
        e <> KeyError /\ e <> JSONDecodeError
        /\ (e = ConnectionError -> client w = None /\ db' = db)).
Proof.
  intros H.
  destruct (endpoint_early _ _ _ _ _ H)
    as [[-> [->|[->|[->| ->]]]]|(text & _ & _ & Hp)].
  1,2: split; [intros body status E; injection E as <- <-; right; auto
              | discriminate].
  1,2: split; [discriminate|];
       intros e E; injection E as <-; repeat split; discriminate.
  destruct (plan_and_respond_outcomes _ _ _ _ _ Hp)
    as [(tasks & fb & ->)|[(-> & Hc & ->)|[->|[->|[->| ->]]]]].
  - split; [|discriminate]. intros body status E. injection E as <- <-.
    left. split; reflexivity.
  - split; [discriminate|]. intros e E. injection E as <-.
    repeat split; auto; discriminate.
  - split; [discriminate|]. intros e E; injection E as <-;
      repeat split; discriminate.
  - split; [discriminate|]. intros e E; injection E as <-;
      repeat split; discriminate.
  - split; [discriminate|]. intros e E; injection E as <-;
      repeat split; discriminate.
  - split; discriminate.
Qed.

Lemma handler_outcomes_witness :
  client no_client = None /\ empty_store = empty_store.
Proof.
  apply (proj2 (handler_outcomes no_client sample_request empty_store
                  empty_store (Raise ConnectionError) eq_refl)
           ConnectionError eq_refl).
  reflexivity.
Defined.

(** The loop stops at the first insert the store refuses and keeps what it
    wrote. *)
Lemma store_tasks_stops (w : world) (goal : nat) (items : list pyval) :
  forall db k,
    forallb is_dict items = true -> k < length items ->
    (forall i, i < k -> acknowledged w (next_oid db + i) = true) ->
    acknowledged w (next_oid db + k) = false ->
    store_tasks w goal items db =
      ({| written := written db
                     ++ map TaskDoc (task_documents goal (next_oid db)
                                       (take k items));
          next_oid := next_oid db + k + 1 |}, Raise StoreError).
Proof.
  induction items as [|task rest IH]; intros db k Hd Hk Hacks Hfail;
    [cbn in Hk; lia|].
  cbn [forallb] in Hd. apply andb_true_iff in Hd as [Ht Hrest].
  rewrite store_tasks_cons, (store_task_dict _ _ _ _ Ht). unfold insert_one.
  destruct k as [|k].
  - rewrite Nat.add_0_r in Hfail. rewrite Hfail. cbn. rewrite app_nil_r.
    do 2 f_equal. f_equal. lia.
  - assert (Hack0 : acknowledged w (next_oid db) = true)
      by (rewrite <- (Nat.add_0_r (next_oid db)); apply Hacks; lia).
    rewrite Hack0. rewrite (IH _ k Hrest).
    + cbn [written next_oid take task_documents map].
      rewrite <- app_assoc. do 2 f_equal. f_equal. lia.
    + cbn [length] in Hk. lia.
    + intros i Hi. cbn [next_oid].
      replace (S (next_oid db) + i) with (next_oid db + S i) by lia.
      apply Hacks. lia.
    + cbn [next_oid].
      now replace (S (next_oid db) + k) with (next_oid db + S k) by lia.
Qed.

(** X4.  Nothing is rolled back.  When the store refuses the insert of
    the goal, the handler raises and the store is as it was.  When it
    takes the goal and the first [k] tasks and refuses the next one, the
    handler raises and the goal and those [k] task documents stay
    stored. *)
Theorem no_rollback (w : world) (data : pyval) (text : string) (plan : pyval)
    (fb : bool) (tasks : pyval) (items : list pyval) (db : mongo) :
  request_goal data = Some text -> text <> ""%string ->
  generate_plan_with_groq w text = Ok plan ->
  lacks "tasks" plan = Ok fb ->
  getitem (if fb then generate_plan_locally text else plan) "tasks" = Ok tasks ->
  iter tasks = Ok items -> forallb is_dict items = true ->
  (acknowledged w (next_oid db) = false ->
     generate_plan_endpoint w data db =
       ({| written := written db; next_oid := S (next_oid db) |},
        Raise StoreError))
  /\ (forall k, k < length items ->
        (forall i, i <= k -> acknowledged w (next_oid db + i) = true) ->
        acknowledged w (next_oid db + S k) = false ->
        generate_plan_endpoint w data db =
          ({| written :=
                written db
                ++ GoalDoc {| goal_oid := next_oid db; goal_text := text;
                              created_at := utcnow w |}
                   :: map TaskDoc (task_documents (next_oid db)
                                     (S (next_oid db)) (take k items));
              next_oid := next_oid db + k + 2 |}, Raise StoreError)).
Proof.
  intros Hg Hne Hp Hl Hget Hi Hd.
  rewrite (endpoint_with_goal w data text db Hg Hne).
  unfold plan_and_respond. run. rewrite Hp, Hl, Hget.
  rewrite respond_run. unfold insert_one, new_goal. split.
  - intros ->. reflexivity.
  - intros k Hk Hacks Hfail.
    assert (Hack0 : acknowledged w (next_oid db) = true)
      by (rewrite <- (Nat.add_0_r (next_oid db)); apply Hacks; lia).
    rewrite Hack0. unfold sbind, lift. rewrite Hi.
    rewrite (store_tasks_stops w (next_oid db) items _ k Hd Hk).
    + cbn [written next_oid]. rewrite <- app_assoc. cbn [app].
      replace (S (next_oid db) + k + 1) with (next_oid db + k + 2) by lia.
      reflexivity.
    + intros i Hlt. cbn [next_oid].
      replace (S (next_oid db) + i) with (next_oid db + S i) by lia.
      apply Hacks. lia.
    + cbn [next_oid].
      now replace (S (next_oid db) + k) with (next_oid db + S k) by lia.
Qed.

Lemma no_rollback_witness :
  generate_plan_endpoint (store_fails_at 2) sample_request empty_store =
    ({| written :=
          [GoalDoc {| goal_oid := 0; goal_text := "Finish report in 2 hours";
                      created_at := 0 |};
           TaskDoc (task_document 0 clarify_task 1)];
        next_oid := 3 |}, Raise StoreError).
Proof.
  apply (proj2 (no_rollback (store_fails_at 2) sample_request
                  "Finish report in 2 hours" PyNone true
                  (PyList (local_tasks "Finish report in 2 hours"))
                  (local_tasks "Finish report in 2 hours") empty_store
                  eq_refl ltac:(discriminate) eq_refl eq_refl eq_refl eq_refl
                  eq_refl) 1).
  - vm_compute. lia.
  - intros [|[|i]] Hi; [reflexivity | reflexivity | lia].
  - reflexivity.
Defined.

(** What the loop writes has dependencies that are no list, however the
    loop ends. *)
Lemma stored_dependencies_no_list (deps : pyval) :
  is_list (stored_dependencies deps) = false.
Proof. unfold stored_dependencies. destruct deps; reflexivity. Qed.

Lemma store_tasks_no_list (w : world) (goal : nat) (tasks : list pyval) :
  forall (db db' : mongo) (r : result unit),
    store_tasks w goal tasks db = (db', r) ->
    exists ts, written db' = written db ++ map TaskDoc ts
      /\ Forall (fun t => is_list (dependencies t) = false) ts.
Proof.
  induction tasks as [|task rest IH]; intros db db' r H.
  - injection H as <- <-. exists []. simpl. rewrite app_nil_r. auto.
  - rewrite store_tasks_cons in H.
    destruct (store_task w goal task db) as [db1 r1] eqn:E.
    destruct (store_task_inv _ _ _ _ _ _ E)
      as [(e & -> & Hw)|(t & -> & Hw & _ & _ & _ & (deps & _ & Hdeps) & _)].
    + injection H as <- <-. exists []. simpl. rewrite app_nil_r. auto.
    + destruct (IH _ _ _ H) as (ts & Hw' & Hall).
      exists (t :: ts). rewrite Hw', Hw, <- app_assoc. split; [reflexivity|].
      constructor; [|exact Hall]. rewrite Hdeps.
      apply stored_dependencies_no_list.
Qed.

(** X5.  The handler never stores a list under dependencies: a store
    whose tasks all have dependencies that are no list is still such a
    store after any run, one that ends in an exception included.  So the
    [json.loads] of the read path is only ever given what the write path
    made of a list, or a value that was no list. *)
Theorem dependencies_never_stored_as_list (w : world) (data : pyval)
    (db db' : mongo) (r : result (pyval * nat)) :
  generate_plan_endpoint w data db = (db', r) ->
  no_listed db -> no_listed db'.
Proof.
  intros H Hdb.
  destruct (endpoint_cases _ _ _ _ _ H) as [[-> _]|(text & _ & _ & Hp)];
    [exact Hdb|].
  destruct (plan_and_respond_cases _ _ _ _ _ Hp)
    as [[-> _]|(fb & tasks & Hresp)]; [exact Hdb|].
  rewrite respond_run in Hresp. unfold insert_one in Hresp.
  destruct (acknowledged w (next_oid db)).
  2:{ injection Hresp as <- _. exact Hdb. }
  unfold sbind, lift in Hresp.
  set (db1 := {| written := written db ++ [_]; next_oid := S (next_oid db) |})
    in Hresp.
  assert (Hdb1 : no_listed db1).
  { unfold no_listed, tasks_collection, db1. cbn [written].
    rewrite omap_app. cbn. rewrite app_nil_r. exact Hdb. }
  destruct (iter tasks) as [items|e|].
  2,3: injection Hresp as <- _; exact Hdb1.
  destruct (store_tasks w (next_oid db) items db1) as [db2 r2] eqn:Hs.
  destruct (store_tasks_no_list _ _ _ _ _ _ Hs) as (ts & Hw & Hall).
  assert (Hdb2 : no_listed db2).
  { unfold no_listed, tasks_collection. rewrite Hw, omap_app, omap_task_docs.
    apply Forall_app. split; [exact Hdb1 | exact Hall]. }
  destruct r2 as [[]|e|]; injection Hresp as <- _; exact Hdb2.
Qed.

Lemma dependencies_never_stored_as_list_witness : no_listed sample_store.
Proof.
  apply (dependencies_never_stored_as_list service_lists_dependencies
           sample_request empty_store sample_store (snd sample_run)).
  - apply surjective_pairing.
  - constructor.
Defined.

(** ** Which plans of the service the handler can answer *)

(** The fallback test and the subscript of line 123 on a result of the
    remote generator. *)
Lemma answerable_cases (plan : pyval) :
  (lacks "tasks" plan = Ok true /\ answerable plan = true)
  \/ (lacks "tasks" plan = Raise TypeError /\ answerable plan = false)
  \/ (lacks "tasks" plan = Ok false /\ getitem plan "tasks" = Raise TypeError
      /\ answerable plan = false)
  \/ (exists tasks, lacks "tasks" plan = Ok false
        /\ getitem plan "tasks" = Ok tasks /\ answerable plan = storable tasks).
Proof.
  unfold lacks, getitem.
  destruct plan as [|[]|z|s|items|d]; cbn [truthy negb py_in answerable]; auto 8.
  - destruct (z =? 0)%Z; cbn [negb]; auto 8.
  - destruct s as [|c s]; [auto 8|].
    change (negb (negb (String c s =? "")%string)) with false. cbv iota.
    destruct (Text.contains "tasks" (String c s)); cbn [negb]; auto 8.
  - destruct items as [|v items]; [auto 8|]. cbv iota.
    destruct (existsb _ (v :: items)); cbn [negb]; auto 8.
  - destruct d as [|e d]; [auto 8|]. cbv iota.
    destruct (dict_lookup "tasks" (e :: d)) as [tasks|]; cbn [negb]; [|auto 8].
    right. right. right. exists tasks. auto 8.
Qed.

(** With the store up, the loop raises at the first item that is no
    dict. *)
Lemma store_tasks_not_dicts (w : world) (goal : nat) (items : list pyval) :
  store_up w -> forallb is_dict items = false ->
  forall db, exists db', store_tasks w goal items db = (db', Raise AttributeError).
Proof.
  intros Hup. induction items as [|task rest IH]; intros Hd db; [discriminate|].
  rewrite store_tasks_cons. cbn [forallb] in Hd.
  destruct (is_dict task) eqn:Ht.
  - rewrite (store_task_dict _ _ _ _ Ht), insert_one_up by apply Hup.
    apply (IH Hd).
  - rewrite (store_task_not_dict _ _ _ _ Ht). eauto.
Qed.

(** Lines 126-152 on tasks that cannot be stored. *)
Lemma respond_not_storable (w : world) (text : string) (fb : bool)
    (tasks : pyval) (db : mongo) :
  store_up w -> storable tasks = false ->
  exists db' e, respond w text fb tasks db = (db', Raise e)
    /\ (e = TypeError \/ e = AttributeError).
Proof.
  intros Hup Hs. rewrite respond_run.
  rewrite insert_one_up by apply Hup. unfold sbind, lift, iter.
  unfold storable in Hs. destruct (py_iter tasks) as [items|]; [|eauto].
  destruct (store_tasks_not_dicts w (next_oid db) items Hup Hs
              {| written := written db
                              ++ [GoalDoc (new_goal w text (next_oid db))];
                 next_oid := S (next_oid db) |}) as [db' E].
  rewrite E. eauto.
Qed.

Lemma respond_storable (w : world) (text : string) (fb : bool)
    (tasks : pyval) (db : mongo) :
  store_up w -> storable tasks = true ->
  exists db',
    respond w text fb tasks db =
      (db', Ok (plan_response (next_oid db) text tasks fb, 200)).
Proof.
  intros Hup Hs. unfold storable in Hs.
  destruct (py_iter tasks) as [items|] eqn:Hi; [|discriminate].
  apply (respond_up w text fb tasks items); auto.
  unfold iter. now rewrite Hi.
Qed.

(** X6.  For a request with a non-empty goal and a store that is up, what
    the remote generator returned decides the outcome.  The handler
    answers 200 exactly when the plan is falsy or holds no tasks (the
    fallback then answers) or is a dict whose tasks can be looped over
    and are all dicts.  On every other plan -- true, a number but 0, a
    string or list that holds tasks, tasks that are a number or hold an
    item without [.get] -- it raises [TypeError] or [AttributeError]. *)
Theorem answers_the_storable_plans (w : world) (data : pyval) (text : string)
    (plan : pyval) (db : mongo) :
  request_goal data = Some text -> text <> ""%string -> store_up w ->
  generate_plan_with_groq w text = Ok plan ->
  ((exists db' body, generate_plan_endpoint w data db = (db', Ok (body, 200)))
   <-> answerable plan = true)
  /\ (answerable plan = false ->
        exists db' e, generate_plan_endpoint w data db = (db', Raise e)
          /\ (e = TypeError \/ e = AttributeError)).
Proof.
  intros Hg Hne Hup Hp. rewrite (endpoint_with_goal w data text db Hg Hne).
  destruct (answerable_cases plan)
    as [[Hl Ha]|[[Hl Ha]|[(Hl & Hget & Ha)|(tasks & Hl & Hget & Ha)]]].
  - destruct (fallback_up w text plan db Hup Hp Hl) as [db' E].
    rewrite E, Ha. split; [split; eauto | discriminate].
  - unfold plan_and_respond. run. rewrite Hp, Hl, Ha.
    split; [split; [intros (? & ? & ?)|]; discriminate | eauto].
  - unfold plan_and_respond. run. rewrite Hp, Hl, Hget, Ha.
    split; [split; [intros (? & ? & ?)|]; discriminate | eauto].
  - unfold plan_and_respond. run. rewrite Hp, Hl, Hget, Ha.
    destruct (storable tasks) eqn:Hs.
    + destruct (respond_storable w text false tasks db Hup Hs) as [db' E].
      rewrite E. split; [split; eauto | discriminate].
    + destruct (respond_not_storable w text false tasks db Hup Hs)
        as (db' & e & E & He).
      rewrite E. split; [split; [intros (? & ? & ?)|]; discriminate | eauto].
Qed.

Lemma answers_the_storable_plans_witness :
  exists db' e,
    generate_plan_endpoint service_lists_strings sample_request empty_store
      = (db', Raise e)
    /\ (e = TypeError \/ e = AttributeError).
Proof.
  apply (proj2 (answers_the_storable_plans service_lists_strings sample_request
                  "Finish report in 2 hours"
                  (PyDict [("tasks", PyList [PyStr "Call the printer"])])
                  empty_store eq_refl ltac:(discriminate)
                  (fun _ => eq_refl) ltac:(vm_compute; reflexivity))).
  reflexivity.
Defined.

(** ** The goal of a request *)

Lemma lstrip_spaces (s : string) :
  all_chars Text.isspace (Text.lstrip s) = all_chars Text.isspace s.
Proof.
  induction s as [|c s IH]; [reflexivity|]. cbn [Text.lstrip].
  destruct (Text.isspace c) eqn:Hc; [|reflexivity].
  cbn [all_chars]. now rewrite Hc, IH.
Qed.

Lemma rstrip_empty (s : string) :
  Text.rstrip s = ""%string <-> all_chars Text.isspace s = true.
Proof.
  induction s as [|c s IH]; [now split|]. cbn [Text.rstrip all_chars].
  destruct (Text.rstrip s) as [|r rs].
  - destruct (Text.isspace c); cbn [andb].
    + split; [intros _; now apply IH | reflexivity].
    + split; discriminate.
  - split; [discriminate|]. intros H. apply andb_true_iff in H as [_ H].
    apply IH in H. discriminate.
Qed.

(** [s.strip()] is empty exactly when [s] is white space only. *)
Lemma strip_empty (s : string) :
  Text.strip s = ""%string <-> all_chars Text.isspace s = true.
Proof. unfold Text.strip. rewrite rstrip_empty, lstrip_spaces. reflexivity. Qed.

Lemma endpoint_goal_key (w : world) (d : list (string * pyval)) (v : pyval)
    (db : mongo) :
  dict_lookup "goal" d = Some v ->
  generate_plan_endpoint w (PyDict d) db =
    match strip_of v with
    | Ok text =>
        if negb (truthy (PyStr text))
        then (db, Ok (error_body "Goal cannot be empty", 400))
        else plan_and_respond w text db
    | Raise e => (db, Raise e)
    | Beyond => (db, Beyond)
    end.
Proof.
  intros Hd. unfold generate_plan_endpoint, plan_and_respond.
  unfold sbind at 1. unfold lift at 1, lacks.
  assert (Ht : truthy (PyDict d) = true) by (destruct d; [discriminate | reflexivity]).
  rewrite Ht. cbn [negb py_in]. rewrite Hd. cbn [negb].
  unfold sbind at 1. unfold lift at 1, getitem. rewrite Hd.
  unfold sbind at 1. unfold lift at 1.
  destruct (strip_of v) as [text|e|]; try reflexivity.
  destruct (negb (truthy (PyStr text))); reflexivity.
Qed.

(** X7.  Line 112: a goal that is white space only, the empty string
    included, gets 400 with the message that the goal cannot be empty and
    nothing is written; no other string goal gets that answer.  A goal
    that is no string -- a number, a list, null -- has no [strip]: the
    handler raises [AttributeError] and writes nothing. *)
Theorem blank_goal_rejected (w : world) (d : list (string * pyval))
    (v : pyval) (db : mongo) :
  dict_lookup "goal" d = Some v ->
  (forall g, v = PyStr g ->
     (generate_plan_endpoint w (PyDict d) db =
        (db, Ok (error_body "Goal cannot be empty", 400))
      <-> all_chars Text.isspace g = true))
  /\ ((forall g, v <> PyStr g) ->
        generate_plan_endpoint w (PyDict d) db = (db, Raise AttributeError)).
Proof.
  intros Hd. rewrite (endpoint_goal_key w d v db Hd). split.
  - intros g ->. cbn [strip_of truthy]. rewrite <- strip_empty.
    destruct (String.eqb_spec (Text.strip g) "") as [E|E]; cbn [negb].
    + now split.
    + split; [|intros E'; now destruct E].
      intros H. exfalso.
      destruct (plan_and_respond_outcomes _ _ _ _ _ H)
        as [(tasks & fb & Hr)|[(Hr & _)|[Hr|[Hr|[Hr|Hr]]]]]; discriminate.
  - intros Hv. destruct v as [| | |g| |]; try reflexivity.
    now destruct (Hv g).
Qed.

Lemma blank_goal_rejected_witness :
  generate_plan_endpoint service_down
    (PyDict [("goal", PyStr (String (ascii_of_N 9) " "))]) empty_store =
    (empty_store, Ok (error_body "Goal cannot be empty", 400)).
Proof.
  apply (proj1 (blank_goal_rejected service_down
                  [("goal", PyStr (String (ascii_of_N 9) " "))]
                  (PyStr (String (ascii_of_N 9) " ")) empty_store eq_refl)
           (String (ascii_of_N 9) " ") eq_refl).
  reflexivity.
Defined.

(** ** Which requests get an answer *)

Lemma endpoint_no_goal (w : world) (data : pyval) (db : mongo) :
  truthy data = false \/ py_in "goal" data = Some false ->
  generate_plan_endpoint w data db =
    (db, Ok (error_body "JSON must contain 'goal'", 400)).
Proof.
  intros H. unfold generate_plan_endpoint. unfold sbind at 1.
  unfold lift at 1, lacks.
  destruct (truthy data); [|reflexivity]. cbn [negb].
  destruct H as [H|H]; [discriminate|]. now rewrite H.
Qed.

Lemma endpoint_no_keys (w : world) (data : pyval) (db : mongo) :
  data = PyBool true \/ (exists z, data = PyInt z /\ z <> 0%Z)
  \/ (exists s, data = PyStr s /\ Text.contains "goal" s = true)
  \/ (exists items, data = PyList items /\ py_in "goal" data = Some true) ->
  generate_plan_endpoint w data db = (db, Raise TypeError).
Proof.
  intros [->|[(z & -> & Hz)|[(s & -> & Hs)|(items & -> & Hi)]]];
    unfold generate_plan_endpoint; unfold sbind at 1; unfold lift at 1, lacks.
  - reflexivity.
  - cbn [truthy]. apply Z.eqb_neq in Hz. now rewrite Hz.
  - destruct s as [|c s]; [discriminate|].
    change (negb (truthy (PyStr (String c s)))) with false. cbv iota.
    cbn [py_in]. now rewrite Hs.
  - destruct items as [|v items]; [discriminate|].
    change (negb (truthy (PyList (v :: items)))) with false. cbv iota.
    now rewrite Hi.
Qed.

(** C7, as the code has it.  The handler answers 400 with an error body,
    the store unchanged, to a body that is null, false, 0 or empty and to
    an object, list or string that does not hold goal, and to a goal
    that is a string of white space only.  It has no answer for the
    other bodies without a goal: true, a number but 0, and a string or
    list that holds goal raise [TypeError]; a goal that is no string
    raises [AttributeError].  A request whose goal is a string with more
    than white space gets 200, the store acknowledging the inserts,
    exactly when the remote generator returns a value that is falsy or
    holds no tasks, or a dict whose tasks can be looped over and are all
    dicts; on any other result the handler raises [TypeError] or
    [AttributeError], and with a client that was never initialised
    [ConnectionError].  Every answer is 200 with exactly the keys
    goal_id, goal_text, tasks and used_fallback, or 400 with the key
    error. *)
Theorem endpoint_answers (w : world) (db : mongo) :
  (forall data, truthy data = false \/ py_in "goal" data = Some false ->
     generate_plan_endpoint w data db =
       (db, Ok (error_body "JSON must contain 'goal'", 400)))
  /\ (forall data,
        data = PyBool true \/ (exists z, data = PyInt z /\ z <> 0%Z)
        \/ (exists s, data = PyStr s /\ Text.contains "goal" s = true)
        \/ (exists items, data = PyList items /\ py_in "goal" data = Some true) ->
        generate_plan_endpoint w data db = (db, Raise TypeError))
  /\ (forall d v, dict_lookup "goal" d = Some v ->
        (forall g, v = PyStr g -> all_chars Text.isspace g = true ->
           generate_plan_endpoint w (PyDict d) db =
             (db, Ok (error_body "Goal cannot be empty", 400)))
        /\ (forall g, v = PyStr g -> all_chars Text.isspace g = false ->
              request_goal (PyDict d) = Some (Text.strip g)
              /\ Text.strip g <> ""%string)
        /\ ((forall g, v <> PyStr g) ->
              generate_plan_endpoint w (PyDict d) db = (db, Raise AttributeError)))
  /\ (forall data text plan,
        request_goal data = Some text -> text <> ""%string ->
        store_up w -> generate_plan_with_groq w text = Ok plan ->
        ((exists db' body,
            generate_plan_endpoint w data db = (db', Ok (body, 200)))
         <-> answerable plan = true)
        /\ (answerable plan = false ->
              exists db' e, generate_plan_endpoint w data db = (db', Raise e)
                /\ (e = TypeError \/ e = AttributeError)))
  /\ (forall data text,
        request_goal data = Some text -> text <> ""%string ->
        client w = None ->
        generate_plan_endpoint w data db = (db, Raise ConnectionError))
  /\ (forall data db' body status,
        generate_plan_endpoint w data db = (db', Ok (body, status)) ->
        (status = 200
         /\ body_keys body = ["goal_id"; "goal_text"; "tasks"; "used_fallback"]%string)
        \/ (status = 400 /\ db' = db /\ body_keys body = ["error"%string])).
Proof.
  split; [intros data; apply endpoint_no_goal|].
  split; [intros data; apply endpoint_no_keys|].
  split; [|split; [|split]].
  - intros d v Hd. rewrite (endpoint_goal_key w d v db Hd).
    split; [|split].
    + intros g -> Hg. cbn [strip_of truthy].
      apply strip_empty in Hg. now rewrite Hg.
    + intros g -> Hg. unfold request_goal. rewrite Hd.
      split; [reflexivity|]. intros E. apply strip_empty in E. congruence.
    + intros Hv. destruct v as [| | |g| |]; try reflexivity.
      now destruct (Hv g).
  - intros data text plan Hg Hne Hup Hp.
    rewrite (endpoint_with_goal w data text db Hg Hne).
    destruct (answerable_cases plan)
      as [[Hl Ha]|[[Hl Ha]|[(Hl & Hget & Ha)|(tasks & Hl & Hget & Ha)]]].
    + destruct (fallback_up w text plan db Hup Hp Hl) as [db' E].
      rewrite E, Ha. split; [split; eauto | discriminate].
    + unfold plan_and_respond. run. rewrite Hp, Hl, Ha.
      split; [split; [intros (? & ? & ?)|]; discriminate | eauto].
    + unfold plan_and_respond. run. rewrite Hp, Hl, Hget, Ha.
      split; [split; [intros (? & ? & ?)|]; discriminate | eauto].
    + unfold plan_and_respond. run. rewrite Hp, Hl, Hget, Ha.
      destruct (storable tasks) eqn:Hs.
      * destruct (respond_storable w text false tasks db Hup Hs) as [db' E].
        rewrite E. split; [split; eauto | discriminate].
      * destruct (respond_not_storable w text false tasks db Hup Hs)
          as (db' & e & E & He).
        rewrite E. split; [split; [intros (? & ? & ?)|]; discriminate | eauto].
  - intros data text Hg Hne Hc.
    rewrite (endpoint_with_goal w data text db Hg Hne).
    unfold plan_and_respond, generate_plan_with_groq. run. now rewrite Hc.
  - intros data db' body status H.
    destruct (endpoint_early _ _ _ _ _ H)
      as [[-> [E|[E|[E|E]]]]|(text & _ & _ & Hp)].
    1,2: injection E as -> ->; right; repeat split; reflexivity.
    1,2: discriminate.
    destruct (plan_and_respond_outcomes _ _ _ _ _ Hp)
      as [(tasks & fb & E)|[(E & _)|[E|[E|[E|E]]]]]; try discriminate.
    injection E as -> ->. left. split; reflexivity.
Qed.

Lemma endpoint_answers_witness :
  generate_plan_endpoint service_down (PyDict [("topic", PyStr "report")])
    empty_store =
    (empty_store, Ok (error_body "JSON must contain 'goal'", 400)).
Proof.
  apply (proj1 (endpoint_answers service_down empty_store)).
  right. reflexivity.
Defined.

(** C7 as stated fails in both halves.  The body 5 is JSON and has no
    key goal, and the handler raises [TypeError] at the membership test
    of line 108: there is no 400 response.  And to a request with a
    non-empty goal, when the service answers a plan whose tasks are
    strings, the handler raises at the first [task.get] after it stored
    the goal: there is no 200 response. *)
Lemma requests_without_an_answer :
  (request_goal (PyInt 5) = None
   /\ generate_plan_endpoint service_down (PyInt 5) empty_store =
        (empty_store, Raise TypeError)
   /\ ~ exists db' body status,
          generate_plan_endpoint service_down (PyInt 5) empty_store =
            (db', Ok (body, status)))
  /\ request_goal sample_request = Some "Finish report in 2 hours"
  /\ generate_plan_endpoint service_lists_strings sample_request empty_store =
       ({| written := [GoalDoc {| goal_oid := 0;
                                  goal_text := "Finish report in 2 hours";
                                  created_at := 0 |}];
           next_oid := 1 |}, Raise AttributeError)
  /\ ~ exists db' body,
         generate_plan_endpoint service_lists_strings sample_request
           empty_store = (db', Ok (body, 200)).
Proof.
  split; [split; [reflexivity|split; [reflexivity|]]|].
  { intros (db' & body & status & H). vm_compute in H. discriminate. }
  split; [reflexivity|]. split; [vm_compute; reflexivity|].
  intros (db' & body & H). vm_compute in H. discriminate.
Qed.

(** ** The handler of GET /api/get-all-goals *)

Lemma for_each_ok {A B : Type} (f : A -> result B) (l : list A) (ys : list B) :
  for_each f l = Ok ys <-> Forall2 (fun x y => f x = Ok y) l ys.
Proof.
  revert ys. induction l as [|x l IH]; intros ys; cbn [for_each].
  - split; [intros H; injection H as <-; constructor
           | intros H; inversion H; reflexivity].
  - split.
    + unfold bind. destruct (f x) as [y|e|] eqn:Hx; try discriminate.
      destruct (for_each f l) as [ys'|e|]; try discriminate.
      intros H; injection H as <-. constructor; [exact Hx | now apply IH].
    + intros H. inversion H as [|? y ? ys' Hx Hrest]; subst.
      apply IH in Hrest. unfold bind. now rewrite Hx, Hrest.
Qed.

Lemma for_each_raise {A B : Type} (f : A -> result B) (l : list A) (e : exn) :
  for_each f l = Raise e -> exists x, In x l /\ f x = Raise e.
Proof.
  induction l as [|x l IH]; cbn [for_each]; [discriminate|].
  unfold bind. destruct (f x) as [y|e'|] eqn:Hx; try discriminate.
  - destruct (for_each f l) as [ys|e'|]; try discriminate.
    intros H; injection H as <-.
    destruct IH as (x' & Hin & Hx'); [reflexivity|].
    exists x'. split; [now right | exact Hx'].
  - intros H; injection H as <-. exists x. split; [now left | exact Hx].
Qed.

(** The bare [except] of lines 170-171: no stored dependencies make the
    read path raise. *)
Lemma formatted_dependencies_no_raise (deps : pyval) (e : exn) :
  formatted_dependencies deps <> Raise e.
Proof.
  unfold formatted_dependencies. destruct deps as [| | |s| |]; try discriminate.
  destruct (Json.loads s) as [[| | | |items|]|e'|]; try discriminate.
  destruct (all_str items); discriminate.
Qed.

Lemma formatted_task_ok (t : task_doc) (ft : pyval) :
  formatted_task t = Ok ft <->
  exists deps, formatted_dependencies (dependencies t) = Ok deps
    /\ ft = PyDict [("task_description", task_description t);
                    ("dependencies", deps); ("deadline", deadline t)].
Proof.
  unfold formatted_task, bind.
  destruct (formatted_dependencies (dependencies t)) as [deps|e|].
  - split; [intros H; injection H as <-; eauto|].
    intros (deps' & E & ->). now injection E as <-.
  - split; [discriminate | intros (? & ? & _); discriminate].
  - split; [discriminate | intros (? & ? & _); discriminate].
Qed.

Lemma formatted_task_no_raise (t : task_doc) (e : exn) :
  formatted_task t <> Raise e.
Proof.
  unfold formatted_task, bind.
  destruct (formatted_dependencies (dependencies t)) eqn:E; try discriminate.
  now apply formatted_dependencies_no_raise in E.
Qed.

Lemma goal_entry_raise (rd : reader) (db : mongo) (goal : goal_doc) (e : exn) :
  goal_entry rd db goal = Raise e -> find_tasks rd db (goal_oid goal) = None.
Proof.
  unfold goal_entry, bind, query.
  destruct (find_tasks rd db (goal_oid goal)) as [ts|]; [|reflexivity].
  destruct (for_each formatted_task ts) as [fts|e'|] eqn:E; try discriminate.
  intros H; injection H as <-.
  apply for_each_raise in E as (t & _ & Ht).
  now apply formatted_task_no_raise in Ht.
Qed.

Lemma goal_entry_ok (rd : reader) (db : mongo) (goal : goal_doc)
    (entry : pyval) :
  goal_entry rd db goal = Ok entry ->
  exists ts fts,
    find_tasks rd db (goal_oid goal) = Some ts
    /\ Forall2 (fun t ft => formatted_task t = Ok ft) ts fts
    /\ entry = PyDict [("goal_id", PyStr (str_oid (goal_oid goal)));
                       ("goal_text", PyStr (goal_text goal));
                       ("created_at", PyStr (strftime rd (created_at goal)));
                       ("tasks", PyList fts)].
Proof.
  unfold goal_entry, bind, query.
  destruct (find_tasks rd db (goal_oid goal)) as [ts|]; [|discriminate].
  destruct (for_each formatted_task ts) as [fts|e'|] eqn:E; try discriminate.
  intros H; injection H as <-. exists ts, fts.
  split; [reflexivity|]. split; [now apply for_each_ok | reflexivity].
Qed.

(** The sort of line 160. *)
Lemma insert_sorted_perm {A : Type} (before : A -> A -> bool) (x : A)
    (l : list A) :
  insert_sorted before x l ≡ₚ x :: l.
Proof.
  induction l as [|h l IH]; cbn [insert_sorted]; [reflexivity|].
  destruct (before h x); [|reflexivity].
  rewrite IH. apply Permutation_swap.
Qed.

Lemma sort_by_perm {A : Type} (before : A -> A -> bool) (l : list A) :
  sort_by before l ≡ₚ l.
Proof.
  induction l as [|x l IH]; [reflexivity|].
  cbn [sort_by foldr]. rewrite insert_sorted_perm.
  now apply Permutation_cons.
Qed.

Lemma newest_first_cons (h : goal_doc) (l : list goal_doc) :
  Forall (fun b => (created_at b <= created_at h)%Z) l ->
  newest_first l -> newest_first (h :: l).
Proof.
  intros Hh Hl [|i] [|j] a b Ha Hb Hij; cbn in Ha, Hb.
  - injection Ha as <-. injection Hb as <-. lia.
  - injection Ha as <-. rewrite Forall_forall in Hh. apply Hh.
    now apply (list_elem_of_lookup_2 l j).
  - lia.
  - apply (Hl i j a b Ha Hb). lia.
Qed.

Lemma newest_first_inv (h : goal_doc) (l : list goal_doc) :
  newest_first (h :: l) ->
  Forall (fun b => (created_at b <= created_at h)%Z) l /\ newest_first l.
Proof.
  intros H. split.
  - apply Forall_forall. intros b Hb.
    apply list_elem_of_lookup_1 in Hb as [j Hj].
    apply (H 0 (S j) h b); [reflexivity | exact Hj | lia].
  - intros i j a b Ha Hb Hij. apply (H (S i) (S j) a b Ha Hb). lia.
Qed.

Lemma insert_newest_first (g : goal_doc) (l : list goal_doc) :
  newest_first l ->
  newest_first
    (insert_sorted (fun a b => (created_at b <? created_at a)%Z) g l).
Proof.
  induction l as [|h l IH]; intros Hl; cbn [insert_sorted].
  - apply newest_first_cons; [constructor|].
    intros i j a b Ha. destruct i; discriminate.
  - destruct (newest_first_inv _ _ Hl) as [Hh Hrest].
    destruct (Z.ltb_spec (created_at g) (created_at h)) as [Hlt|Hge].
    + apply newest_first_cons; [|now apply IH].
      assert (Hp := insert_sorted_perm
                      (fun a b => (created_at b <? created_at a)%Z) g l).
      rewrite Forall_forall. intros b Hb. rewrite Hp in Hb.
      apply elem_of_cons in Hb as [->|Hb]; [lia|].
      rewrite Forall_forall in Hh. now apply Hh.
    + apply newest_first_cons; [|exact Hl].
      constructor; [lia|]. eapply Forall_impl; [exact Hh|].
      intros b Hb. cbn in Hb. lia.
Qed.

(** Sorted by [created_at] with direction -1, the goals are the goals
    found, the newest first. *)
Lemma sorted_newest_first (found : list goal_doc) :
  exists goals,
    cursor_sort "created_at" (-1) found = Ok goals
    /\ goals ≡ₚ found /\ newest_first goals.
Proof.
  eexists. split; [reflexivity|]. split; [apply sort_by_perm|].
  induction found as [|g l IH].
  - intros i j a b Ha. destruct i; discriminate.
  - cbn [sort_by foldr]. now apply insert_newest_first.
Qed.

Lemma plain_reader_answers (db : mongo) : driver_answers plain_reader db.
Proof.
  split.
  - intros found H. now injection H as <-.
  - intros oid ts H. now injection H as <-.
Qed.

Lemma get_all_goals_200 (rd : reader) (db : mongo) (body : pyval) :
  get_all_goals rd db = Ok (body, 200) ->
  exists found goals entries,
    body = PyList entries /\ find_goals rd db = Some found
    /\ goals ≡ₚ found /\ newest_first goals
    /\ Forall2 (fun goal entry => goal_entry rd db goal = Ok entry) goals entries.
Proof.
  unfold get_all_goals, all_goals, query.
  destruct (find_goals rd db) as [found|]; [|discriminate].
  cbn [bind].
  destruct (sorted_newest_first found) as (goals & -> & Hperm & Hsorted).
  cbn [bind].
  destruct (for_each (goal_entry rd db) goals) as [entries|e|] eqn:E;
    try discriminate.
  intros H; injection H as <-. exists found, goals, entries.
  repeat split; auto. now apply for_each_ok.
Qed.

Lemma for_each_beyond {A B : Type} (f : A -> result B) (l : list A) :
  for_each f l = Beyond -> exists x, In x l /\ f x = Beyond.
Proof.
  induction l as [|x l IH]; cbn [for_each]; [discriminate|].
  unfold bind. destruct (f x) as [y|e'|] eqn:Hx; try discriminate.
  - destruct (for_each f l) as [ys|e'|]; try discriminate.
    intros _. destruct IH as (x' & Hin & Hx'); [reflexivity|].
    exists x'. split; [now right | exact Hx'].
  - intros _. exists x. split; [now left | exact Hx].
Qed.

Lemma for_each_all {A B : Type} (f : A -> result B) (l : list A) :
  (forall x, In x l -> exists y, f x = Ok y) -> exists ys, for_each f l = Ok ys.
Proof.
  induction l as [|x l IH]; intros H; [now exists []|].
  destruct (H x (or_introl eq_refl)) as [y Hy].
  destruct IH as [ys Hys]; [intros x' Hx'; apply H; now right|].
  exists (y :: ys). cbn [for_each]. unfold bind. now rewrite Hy, Hys.
Qed.

(** The read path gives no value only for a stored text that is JSON and
    holds a value outside the model. *)
Lemma formatted_task_beyond (t : task_doc) :
  formatted_task t = Beyond ->
  exists s, dependencies t = PyStr s /\ Json.loads s = Beyond.
Proof.
  unfold formatted_task, bind, formatted_dependencies.
  destruct (dependencies t) as [| | |s| |]; try discriminate.
  destruct (Json.loads s) as [[| | | |items|]|e|] eqn:E; try discriminate;
    [destruct (all_str items); discriminate | eauto].
Qed.

Lemma goal_entry_beyond (rd : reader) (db : mongo) (goal : goal_doc) :
  goal_entry rd db goal = Beyond ->
  exists ts t s,
    find_tasks rd db (goal_oid goal) = Some ts /\ In t ts
    /\ dependencies t = PyStr s /\ Json.loads s = Beyond.
Proof.
  unfold goal_entry, bind, query.
  destruct (find_tasks rd db (goal_oid goal)) as [ts|]; [|discriminate].
  destruct (for_each formatted_task ts) as [fts|e'|] eqn:E; try discriminate.
  intros _. apply for_each_beyond in E as (t & Hin & Ht).
  destruct (formatted_task_beyond t Ht) as (s & Hd & Hs).
  exists ts, t, s. auto.
Qed.

(** X8.  On a store that holds the documents the write handler stores,
    the read handler lets no exception out, and answers 200 with a list
    or 500 with the error body.  It answers 500 only when a query of the
    store raised: the query of the goals, or the query of the tasks of a
    goal that was found; when the query of the goals raises, the answer
    is 500.  What is stored under dependencies never makes it fail:
    when every query answers, the answer is 200 whatever texts the tasks
    hold -- a text that is no JSON is listed as it is -- save that the
    model gives no value for a text that is JSON and holds a [float] or
    a character above code point 255. *)
Theorem reading_fails_only_with_the_store (rd : reader) (db : mongo) :
  (forall e, get_all_goals rd db <> Raise e)
  /\ (forall body status, get_all_goals rd db = Ok (body, status) ->
        (status = 200 /\ is_list body = true)
        \/ (status = 500 /\ body = error_body "Failed to fetch goals"))
  /\ (forall body, get_all_goals rd db = Ok (body, 500) ->
        find_goals rd db = None
        \/ exists found goal,
             find_goals rd db = Some found /\ In goal found
             /\ find_tasks rd db (goal_oid goal) = None)
  /\ (find_goals rd db = None ->
        get_all_goals rd db = Ok (error_body "Failed to fetch goals", 500))
  /\ (get_all_goals rd db = Beyond ->
        exists found goal ts t s,
          find_goals rd db = Some found /\ In goal found
          /\ find_tasks rd db (goal_oid goal) = Some ts /\ In t ts
          /\ dependencies t = PyStr s /\ Json.loads s = Beyond)
  /\ (forall found,
        find_goals rd db = Some found ->
        (forall goal, In goal found ->
           exists ts, find_tasks rd db (goal_oid goal) = Some ts
             /\ forall t s, In t ts -> dependencies t = PyStr s ->
                  Json.loads s <> Beyond) ->
        exists entries, get_all_goals rd db = Ok (PyList entries, 200)).
Proof.
  unfold get_all_goals, all_goals, query.
  destruct (find_goals rd db) as [found|].
  2:{ cbn [bind]. split; [discriminate|]. split.
      { intros body status H; injection H as <- <-. right. split; reflexivity. }
      split; [auto|]. split; [reflexivity|]. split; discriminate. }
  cbn [bind].
  destruct (sorted_newest_first found) as (goals & -> & Hperm & _).
  cbn [bind].
  assert (Hin : forall goal, In goal goals -> In goal found).
  { intros goal Hg. apply list_elem_of_In. rewrite <- Hperm.
    now apply list_elem_of_In. }
  destruct (for_each (goal_entry rd db) goals) as [entries|e|] eqn:E.
  - split; [discriminate|]. split.
    { intros body status H; injection H as <- <-. left. split; reflexivity. }
    split; [discriminate|]. split; [discriminate|]. split; [discriminate|].
    intros found' H _. eauto.
  - split; [discriminate|]. split.
    { intros body status H; injection H as <- <-. right. split; reflexivity. }
    apply for_each_raise in E as (goal & Hg & Hraise).
    apply goal_entry_raise in Hraise.
    split; [intros body _; right; exists found, goal; auto|].
    split; [discriminate|]. split; [discriminate|].
    intros found' H Hall. injection H as <-.
    destruct (Hall goal (Hin goal Hg)) as (ts & Hts & _). congruence.
  - apply for_each_beyond in E as (goal & Hg & Hbeyond).
    destruct (goal_entry_beyond rd db goal Hbeyond) as (ts & t & s & Hts & Ht & Hd & Hs).
    split; [discriminate|]. split; [discriminate|]. split; [discriminate|].
    split; [discriminate|]. split.
    + intros _. exists found, goal, ts, t, s. auto 8.
    + intros found' H Hall. injection H as <-.
      destruct (Hall goal (Hin goal Hg)) as (ts' & Hts' & Hok).
      rewrite Hts in Hts'. injection Hts' as <-.
      now destruct (Hok t s Ht Hd).
Qed.

Lemma reading_fails_only_with_the_store_witness :
  exists entries,
    get_all_goals plain_reader distance_store = Ok (PyList entries, 200).
Proof.
  apply (proj2 (proj2 (proj2 (proj2 (proj2
           (reading_fails_only_with_the_store plain_reader distance_store)))))
           (goals_collection distance_store) eq_refl).
  assert (Egoals : goals_collection distance_store =
            [{| goal_oid := 0; goal_text := "Finish report in 2 hours";
                created_at := 0 |}]) by (vm_compute; reflexivity).
  assert (Etasks : tasks_of distance_store 0 =
            [{| task_oid := 1; goal_id := 0; task_description := PyStr "Run";
                dependencies := PyStr "2.5 km run";
                deadline := PyStr "Today" |}]) by (vm_compute; reflexivity).
  rewrite Egoals. intros goal [<-|[]].
  exists (tasks_of distance_store 0). split; [reflexivity|].
  rewrite Etasks. intros t s [<-|[]] E. injection E as <-.
  vm_compute. discriminate.
Defined.

(** X9.  A 200 answer of the read handler lists every stored goal once,
    the newest first.  The entry of a goal holds its id as text, its goal
    text, its date as formatted by [strftime], and one formatted task for
    every stored task that carries the goal's id: the description and the
    deadline as stored, the dependencies as the read path makes them. *)
Theorem goals_listed_newest_first (rd : reader) (db : mongo) (body : pyval) :
  driver_answers rd db ->
  get_all_goals rd db = Ok (body, 200) ->
  exists goals entries,
    body = PyList entries
    /\ goals ≡ₚ goals_collection db
    /\ newest_first goals
    /\ Forall2 (fun goal entry =>
         exists ts fts,
           entry = PyDict [("goal_id", PyStr (str_oid (goal_oid goal)));
                           ("goal_text", PyStr (goal_text goal));
                           ("created_at",
                            PyStr (strftime rd (created_at goal)));
                           ("tasks", PyList fts)]
           /\ ts ≡ₚ tasks_of db (goal_oid goal)
           /\ Forall2 (fun t ft =>
                exists deps,
                  formatted_dependencies (dependencies t) = Ok deps
                  /\ ft = PyDict [("task_description", task_description t);
                                  ("dependencies", deps);
                                  ("deadline", deadline t)]) ts fts)
         goals entries.
Proof.
  intros [Hgoals Htasks] H.
  destruct (get_all_goals_200 _ _ _ H)
    as (found & goals & entries & -> & Hf & Hperm & Hsorted & Hall).
  exists goals, entries. split; [reflexivity|].
  split; [now rewrite Hperm; apply Hgoals|].
  split; [exact Hsorted|].
  eapply Forall2_impl; [exact Hall|]. intros goal entry He.
  destruct (goal_entry_ok _ _ _ _ He) as (ts & fts & Hts & Hfts & ->).
  exists ts, fts. split; [reflexivity|]. split; [now apply Htasks|].
  eapply Forall2_impl; [exact Hfts|]. intros t ft Ht.
  now apply formatted_task_ok.
Qed.

Lemma goals_listed_newest_first_witness :
  exists goals entries,
    sample_listing = PyList entries
    /\ goals ≡ₚ goals_collection sample_store
    /\ newest_first goals
    /\ Forall2 (fun goal entry =>
         exists ts fts,
           entry = PyDict [("goal_id", PyStr (str_oid (goal_oid goal)));
                           ("goal_text", PyStr (goal_text goal));
                           ("created_at",
                            PyStr (strftime plain_reader (created_at goal)));
                           ("tasks", PyList fts)]
           /\ ts ≡ₚ tasks_of sample_store (goal_oid goal)
           /\ Forall2 (fun t ft =>
                exists deps,
                  formatted_dependencies (dependencies t) = Ok deps
                  /\ ft = PyDict [("task_description", task_description t);
                                  ("dependencies", deps);
                                  ("deadline", deadline t)]) ts fts)
         goals entries.
Proof.
  apply (goals_listed_newest_first plain_reader sample_store sample_listing).
  - apply plain_reader_answers.
  - vm_compute. reflexivity.
Defined.

(** ** A plan stored by POST, as GET lists it *)

Lemma Forall2_In_l {A B : Type} (P : A -> B -> Prop) (l : list A) (k : list B)
    (x : A) :
  Forall2 P l k -> In x l -> exists y, In y k /\ P x y.
Proof.
  induction 1 as [|a b l k Hab _ IH]; intros Hin; [destruct Hin|].
  destruct Hin as [->|Hin].
  - exists b. split; [now left | exact Hab].
  - destruct (IH Hin) as (y & Hy & Hxy). exists y. split; [now right | exact Hxy].
Qed.

Lemma Forall2_through {A B C : Type} (Q : A -> B -> Prop) (P : A -> C -> Prop)
    (R : B -> C -> Prop) (l : list A) (k : list B) (m : list C) :
  (forall a b c, Q a b -> P a c -> R b c) ->
  Forall2 Q l k -> Forall2 P l m -> Forall2 R k m.
Proof.
  intros HR HQ. revert m. induction HQ as [|a b l k Hab _ IH]; intros m HP.
  - inversion HP. constructor.
  - inversion HP as [|? c ? m' Hac Hrest]; subst.
    constructor; [now apply (HR a) | now apply IH].
Qed.

Lemma task_documents_goal (goal first : nat) (items : list pyval) :
  Forall (fun t => goal_id t = goal) (task_documents goal first items).
Proof.
  revert first. induction items as [|task rest IH]; intros first; cbn;
    constructor; auto.
Qed.

Lemma task_documents_listed (goal first : nat) (items : list pyval) :
  Forall2 (fun t task => formatted_task t = listed_task task)
          (task_documents goal first items) items.
Proof.
  revert first. induction items as [|task rest IH]; intros first; cbn;
    constructor; auto.
Qed.

Lemma filter_goal_none (oid : nat) (ts : list task_doc) :
  Forall (fun t => goal_id t < oid) ts ->
  List.filter (fun t => Nat.eqb (goal_id t) oid) ts = [].
Proof.
  induction 1 as [|t ts Ht _ IH]; [reflexivity|]. cbn [List.filter].
  destruct (Nat.eqb_spec (goal_id t) oid); [lia | exact IH].
Qed.

Lemma filter_goal_all (oid : nat) (ts : list task_doc) :
  Forall (fun t => goal_id t = oid) ts ->
  List.filter (fun t => Nat.eqb (goal_id t) oid) ts = ts.
Proof.
  induction 1 as [|t ts Ht _ IH]; [reflexivity|]. cbn [List.filter].
  rewrite Ht, Nat.eqb_refl. now rewrite IH.
Qed.

(** The tasks of the local plan are read back as they were answered. *)
Lemma local_tasks_listed (text : string) :
  Forall (fun task => listed_task task = Ok task) (local_tasks text).
Proof.
  rewrite local_tasks_shape. unfold work_task.
  destruct (Re.search_hours _), (meal_test text), (sleep_test text);
    repeat constructor; vm_compute; reflexivity.
Qed.

(** The entry GET lists for the goal a 200 run of POST stored. *)
Lemma post_get_entry (w : world) (rd : reader) (data : pyval)
    (db db' : mongo) (body listing : pyval) :
  fresh_ids db ->
  generate_plan_endpoint w data db = (db', Ok (body, 200)) ->
  driver_answers rd db' ->
  get_all_goals rd db' = Ok (listing, 200) ->
  fresh_ids db'
  /\ exists text tasks fb items entries items' fts,
       body = plan_response (next_oid db) text tasks fb
       /\ iter tasks = Ok items
       /\ listing = PyList entries
       /\ In (PyDict [("goal_id", PyStr (str_oid (next_oid db)));
                      ("goal_text", PyStr text);
                      ("created_at", PyStr (strftime rd (utcnow w)));
                      ("tasks", PyList fts)]) entries
       /\ items' ≡ₚ items
       /\ Forall2 (fun task ft => listed_task task = Ok ft) items' fts.
Proof.
  intros Hfresh Hpost [Hgoals Htasks] Hget.
  destruct (endpoint_200_inv _ _ _ _ _ Hpost)
    as (text & fb & tasks & items & _ & _ & -> & Hi & _ & Hw & Hn).
  assert (Hts := tasks_collection_step _ _ _ _ Hw).
  assert (Hgs := goals_collection_step _ _ _ _ Hw).
  assert (Hdocs := task_documents_goal (next_oid db) (S (next_oid db)) items).
  split.
  { unfold fresh_ids. rewrite Hts. apply Forall_app. split.
    - eapply Forall_impl; [exact Hfresh|]. intros t Ht. cbn in Ht. lia.
    - eapply Forall_impl; [exact Hdocs|]. intros t Ht. cbn in Ht. lia. }
  destruct (get_all_goals_200 _ _ _ Hget)
    as (found & goals & entries & -> & Hf & Hperm & _ & Hall).
  assert (Hin : In (new_goal w text (next_oid db)) goals).
  { apply list_elem_of_In. rewrite Hperm, (Hgoals found Hf), Hgs.
    apply elem_of_app. right.
    apply list_elem_of_singleton. reflexivity. }
  destruct (Forall2_In_l _ _ _ _ Hall Hin) as (entry & Hentry & He).
  destruct (goal_entry_ok _ _ _ _ He) as (ts & fts & Hfind & Hfts & ->).
  cbn [new_goal goal_oid goal_text created_at] in Hfind, Hentry.
  apply Htasks in Hfind. unfold tasks_of in Hfind.
  rewrite Hts, List.filter_app, (filter_goal_none _ _ Hfresh),
    (filter_goal_all _ _ Hdocs) in Hfind.
  cbn [app] in Hfind.
  destruct (Permutation_Forall2 (Permutation_sym Hfind)
              (task_documents_listed (next_oid db) (S (next_oid db)) items))
    as (items' & Hperm' & Hlisted).
  exists text, tasks, fb, items, entries, items', fts.
  split; [reflexivity|]. split; [exact Hi|]. split; [reflexivity|].
  split; [exact Hentry|]. split; [now symmetry|].
  apply (Forall2_through _ _ _ _ _ _
           (fun t task ft (Hq : formatted_task t = listed_task task)
                (Hp : formatted_task t = Ok ft) => eq_trans (eq_sym Hq) Hp)
           Hlisted Hfts).
Qed.

(** X10.  What POST stored, GET lists.  After a run of the write handler
    that answered 200, in a store where no task carried an id not yet
    handed out, a 200 answer of the read handler has an entry with the
    goal id and the goal text of the POST response and the date of the
    request; its tasks are the tasks of the response, each as the read
    path makes it, in the order the driver gave the stored tasks.  The
    store the run leaves again has no task with an id not yet handed
    out. *)
Theorem stored_plan_is_listed (w : world) (rd : reader) (data : pyval)
    (db db' : mongo) (body listing : pyval) :
  fresh_ids db ->
  generate_plan_endpoint w data db = (db', Ok (body, 200)) ->
  driver_answers rd db' ->
  get_all_goals rd db' = Ok (listing, 200) ->
  fresh_ids db'
  /\ exists oid text tasks items entries entry items' fts,
       getitem body "goal_id" = Ok (PyStr oid)
       /\ getitem body "goal_text" = Ok (PyStr text)
       /\ getitem body "tasks" = Ok tasks /\ iter tasks = Ok items
       /\ listing = PyList entries /\ In entry entries
       /\ getitem entry "goal_id" = Ok (PyStr oid)
       /\ getitem entry "goal_text" = Ok (PyStr text)
       /\ getitem entry "created_at" = Ok (PyStr (strftime rd (utcnow w)))
       /\ getitem entry "tasks" = Ok (PyList fts)
       /\ items' ≡ₚ items
       /\ Forall2 (fun task ft => listed_task task = Ok ft) items' fts.
Proof.
  intros Hfresh Hpost Hrd Hget.
  destruct (post_get_entry w rd data db db' body listing Hfresh Hpost Hrd Hget)
    as (Hfresh' & text & tasks & fb & items & entries & items' & fts
        & -> & Hi & -> & Hin & Hperm & Hall).
  split; [exact Hfresh'|].
  exists (str_oid (next_oid db)), text, tasks, items, entries.
  eexists. exists items', fts.
  repeat (split; [reflexivity || eassumption|]). exact Hall.
Qed.

Lemma stored_plan_is_listed_witness :
  fresh_ids distance_store
  /\ exists oid text tasks items entries entry items' fts,
       getitem distance_body "goal_id" = Ok (PyStr oid)
       /\ getitem distance_body "goal_text" = Ok (PyStr text)
       /\ getitem distance_body "tasks" = Ok tasks /\ iter tasks = Ok items
       /\ distance_listing = PyList entries /\ In entry entries
       /\ getitem entry "goal_id" = Ok (PyStr oid)
       /\ getitem entry "goal_text" = Ok (PyStr text)
       /\ getitem entry "created_at" = Ok (PyStr (strftime plain_reader 0))
       /\ getitem entry "tasks" = Ok (PyList fts)
       /\ items' ≡ₚ items
       /\ Forall2 (fun task ft => listed_task task = Ok ft) items' fts.
Proof.
  apply (stored_plan_is_listed service_lists_distance plain_reader
           sample_request empty_store distance_store distance_body
           distance_listing).
  - constructor.
  - vm_compute. reflexivity.
  - apply plain_reader_answers.
  - vm_compute. reflexivity.
Defined.

(** X11.  A plan of the fallback is listed as it was answered: after a
    200 run of POST with used_fallback true, the entry GET lists for the
    goal holds the very tasks of the POST response, every field unchanged,
    in the order the driver gave the stored tasks. *)
Theorem fallback_plan_listed_as_answered (w : world) (rd : reader)
    (data : pyval) (db db' : mongo) (body listing : pyval) :
  fresh_ids db ->
  generate_plan_endpoint w data db = (db', Ok (body, 200)) ->
  getitem body "used_fallback" = Ok (PyBool true) ->
  driver_answers rd db' ->
  get_all_goals rd db' = Ok (listing, 200) ->
  exists oid items entries entry fts,
    getitem body "goal_id" = Ok (PyStr oid)
    /\ getitem body "tasks" = Ok (PyList items)
    /\ listing = PyList entries /\ In entry entries
    /\ getitem entry "goal_id" = Ok (PyStr oid)
    /\ getitem entry "tasks" = Ok (PyList fts)
    /\ fts ≡ₚ items.
Proof.
  intros Hfresh Hpost Hfb Hrd Hget.
  destruct (endpoint_200_tasks _ _ _ _ _ Hpost)
    as (text' & plan & _ & _ & [[Hlocal _]|[_ Hno]]); [|congruence].
  destruct (post_get_entry w rd data db db' body listing Hfresh Hpost Hrd Hget)
    as (_ & text & tasks & fb & items & entries & items' & fts
        & -> & Hi & -> & Hin & Hperm & Hall).
  cbn in Hlocal. injection Hlocal as ->. cbn in Hi. injection Hi as <-.
  assert (Hsame : items' = fts).
  { assert (Hl : Forall (fun task => listed_task task = Ok task) items').
    { rewrite Hperm. apply local_tasks_listed. }
    clear Hperm Hin. induction Hall as [|task ft items' fts Ht _ IH];
      [reflexivity|].
    apply Forall_cons in Hl as [Hl Hrest]. rewrite Hl in Ht.
    injection Ht as ->. f_equal. now apply IH. }
  subst items'.
  exists (str_oid (next_oid db)), (local_tasks text'), entries.
  eexists. exists fts.
  repeat (split; [reflexivity || eassumption|]). exact Hperm.
Qed.

Lemma fallback_plan_listed_as_answered_witness :
  exists oid items entries entry fts,
    getitem fallback_body "goal_id" = Ok (PyStr oid)
    /\ getitem fallback_body "tasks" = Ok (PyList items)
    /\ fallback_listing = PyList entries /\ In entry entries
    /\ getitem entry "goal_id" = Ok (PyStr oid)
    /\ getitem entry "tasks" = Ok (PyList fts)
    /\ fts ≡ₚ items.
Proof.
  apply (fallback_plan_listed_as_answered service_down plain_reader
           sample_request empty_store fallback_store fallback_body
           fallback_listing).
  - constructor.
  - vm_compute. reflexivity.
  - reflexivity.
  - apply plain_reader_answers.
  - vm_compute. reflexivity.
Defined.

(** ** The number of hours the local plan reports *)

Lemma search_hours_skips (pre s : string) :
  all_chars (fun c => negb (Text.isdecimal c)) pre = true ->
  (exists n, Re.match_hours s = Some n) ->
  Re.search_hours (pre ++ s)%string = Re.match_hours s.
Proof.
  intros Hpre [n Hn]. induction pre as [|c pre IH].
  - cbn [append]. rewrite (search_hours_here _ _ Hn). now rewrite Hn.
  - cbn [all_chars] in Hpre. apply andb_true_iff in Hpre as [Hc Hpre].
    apply negb_true_iff in Hc.
    cbn [append Re.search_hours Re.match_hours]. rewrite Hc. now apply IH.
Qed.

Lemma lower_no_digit (pre : string) :
  all_chars (fun c => negb (Text.isdecimal c)) pre = true ->
  all_chars (fun c => negb (Text.isdecimal c)) (Text.lower pre) = true.
Proof.
  induction pre as [|c pre IH]; [reflexivity|]. cbn [all_chars Text.lower].
  intros H. apply andb_true_iff in H as [Hc Hpre]. rewrite (IH Hpre), andb_true_r.
  destruct (Text.isdecimal (Text.lower_char c)) eqn:E; [|reflexivity].
  rewrite (lower_char_decimal c E) in E. now rewrite E in Hc.
Qed.

(** X12.  The number of the second task is the whole number: when the
    first digits of the goal text are a number followed by optional
    white space and the word hour, letter case aside, the second task is
    "Work for N hour(s)." with N that number, every digit of it. *)
Theorem hours_are_the_whole_number (pre n ws h post : string) :
  all_chars (fun c => negb (Text.isdecimal c)) pre = true ->
  n <> ""%string -> all_chars Text.isdecimal n = true ->
  all_chars Text.isspace ws = true -> Text.lower h = "hour"%string ->
  local_tasks (pre ++ n ++ ws ++ h ++ post)%string !! 1%nat =
    Some (mk_task ("Work for " ++ n ++ " hour(s).")%string
                  "Clarify and break down the goal" "Today").
Proof.
  intros Hpre Hn Hd Hws Hh.
  assert (Hm : Re.match_hours (n ++ ws ++ "hour" ++ Text.lower post)%string
               = Some n).
  { destruct n as [|c n]; [congruence|].
    cbn [all_chars] in Hd. apply andb_true_iff in Hd as [Hc Hd].
    change (String c n ++ ws ++ "hour" ++ Text.lower post)%string
      with (String c (n ++ ws ++ "hour" ++ Text.lower post))%string.
    cbn [Re.match_hours]. rewrite Hc.
    rewrite (star_whole_run Text.isdecimal Re.spaces_hour n _ Hd
               (spaces_hour_intro ws (Text.lower post) Hws)); [reflexivity|].
    destruct ws as [|s ws]; [reflexivity|].
    cbn [all_chars] in Hws. apply andb_true_iff in Hws as [Hs _].
    cbn [append]. revert Hs.
    destruct s as [[] [] [] [] [] [] [] []]; vm_compute; congruence. }
  assert (Hs : Re.search_hours (Text.lower (pre ++ n ++ ws ++ h ++ post)%string)
               = Some n).
  { rewrite !lower_append, Hh.
    rewrite (lower_fixes Text.isdecimal n decimal_lower Hd),
      (lower_fixes Text.isspace ws space_lower Hws).
    rewrite (search_hours_skips _ _ (lower_no_digit pre Hpre)); eauto. }
  rewrite local_tasks_shape. unfold work_task. rewrite Hs. reflexivity.
Qed.

Lemma hours_are_the_whole_number_witness :
  local_tasks "Study 12 Hours a day" !! 1%nat =
    Some (mk_task "Work for 12 hour(s)."
                  "Clarify and break down the goal" "Today").
Proof.
  apply (hours_are_the_whole_number "Study " "12" " " "Hour" "s a day");
    (reflexivity || discriminate).
Defined.

(** ** [json.loads] after [json.dumps] *)

Section JsonRoundTrip.
Local Open Scope string_scope.

Ltac digit_value :=
  match goal with
  | |- context [Z.of_N (Text.code ?c - 48)] =>
      let v := eval vm_compute in (Z.of_N (Text.code c - 48)) in
      change (Z.of_N (Text.code c - 48)) with v
  end.

Lemma digits_acc (d : Decimal.uint) :
  forall (a : Z) (acc : positive),
    a = Z.pos acc ->
    fold_left (fun acc c => (10 * acc + Z.of_N (Text.code c - 48))%Z)
      (list_ascii_of_string (NilEmpty.string_of_uint d)) a
    = Z.pos (Pos.of_uint_acc d acc).
Proof.
  induction d; intros a acc ->;
    cbn [NilEmpty.string_of_uint list_ascii_of_string fold_left Pos.of_uint_acc];
    [reflexivity|..]; apply IHd; digit_value; lia.
Qed.

Lemma digits_value_uint (d : Decimal.uint) :
  Json.digits_value (NilEmpty.string_of_uint d) = Z.of_N (Pos.of_uint d).
Proof.
  unfold Json.digits_value.
  induction d;
    cbn [NilEmpty.string_of_uint list_ascii_of_string fold_left Pos.of_uint];
    [reflexivity|..]; digit_value; [exact IHd|..]; now apply digits_acc.
Qed.

Lemma uint_all_digits (d : Decimal.uint) :
  all_chars Text.isdecimal (NilEmpty.string_of_uint d) = true.
Proof.
  induction d; cbn [NilEmpty.string_of_uint all_chars]; [reflexivity|..];
    rewrite IHd; reflexivity.
Qed.

Lemma unorm_head (u : Decimal.uint) :
  match Decimal.unorm u with
  | Decimal.Nil => False
  | Decimal.D0 Decimal.Nil => True
  | Decimal.D0 _ => False
  | _ => True
  end.
Proof. induction u; simpl; auto. Qed.

Lemma to_uint_head (p : positive) :
  match Pos.to_uint p with
  | Decimal.Nil | Decimal.D0 _ => False
  | _ => True
  end.
Proof.
  pose proof (Unsigned.to_uint_nonzero p) as Hzero.
  pose proof (Unsigned.to_of (Pos.to_uint p)) as Hnorm.
  rewrite Unsigned.of_to in Hnorm. cbn [N.to_uint] in Hnorm.
  pose proof (unorm_head (Pos.to_uint p)) as Hhead.
  rewrite <- Hnorm in Hhead.
  destruct (Pos.to_uint p) as [|d| | | | | | | | |]; try exact I; [exact Hhead|].
  destruct d; [congruence | exact Hhead ..].
Qed.

(** The text of an integer: 0, or digits that start with 1-9, after a
    minus sign for a negative number. *)
Lemma dumps_int_cases (z : Z) :
  (z = 0%Z /\ Json.dumps_int z = "0")
  \/ exists c ds,
       ((49 <=? Text.code c) && (Text.code c <=? 57))%N = true
       /\ all_chars Text.isdecimal ds = true
       /\ Json.digits_value (String c ds) = Z.abs z
       /\ Json.dumps_int z =
            if (z <? 0)%Z then String "-" (String c ds) else String c ds.
Proof.
  destruct z as [|p|p]; [left; split; reflexivity | right ..];
    unfold Json.dumps_int;
    cbn [Z.to_int NilZero.string_of_int Z.ltb Z.compare Z.abs];
    pose proof (to_uint_head p) as Hhead;
    pose proof (digits_value_uint (Pos.to_uint p)) as Hvalue;
    rewrite Unsigned.of_to in Hvalue;
    pose proof (uint_all_digits (Pos.to_uint p)) as Hdigits;
    destruct (Pos.to_uint p) as [|u|u|u|u|u|u|u|u|u|u]; try contradiction;
    cbn [NilZero.string_of_uint NilEmpty.string_of_uint all_chars] in *;
    apply andb_true_iff in Hdigits as [_ Hdigits];
    eexists _, _; (split; [|split; [exact Hdigits|split; [exact Hvalue|]]]);
    reflexivity.
Qed.

Lemma span_digits_all (ds rest : string) :
  all_chars Text.isdecimal ds = true -> Json.starts_digit rest = false ->
  Json.span_digits (ds ++ rest) = (ds, rest).
Proof.
  intros Hds Hrest. induction ds as [|c ds IH].
  - destruct rest as [|c rest]; [reflexivity|]. cbn in Hrest |- *.
    now rewrite Hrest.
  - cbn [all_chars] in Hds. apply andb_true_iff in Hds as [Hc Hds].
    cbn [append Json.span_digits]. now rewrite Hc, (IH Hds).
Qed.

(** What a character that starts a number is not. *)
Lemma number_char (c : ascii) :
  Text.isdecimal c = true \/ c = "-"%char ->
  Json.is_ws c = false
  /\ (Text.code c =? 34)%N = false /\ (Text.code c =? 123)%N = false
  /\ (Text.code c =? 91)%N = false
  /\ Ascii.eqb "]" c = false /\ Ascii.eqb "}" c = false
  /\ Ascii.eqb "n" c = false /\ Ascii.eqb "t" c = false
  /\ Ascii.eqb "f" c = false /\ Ascii.eqb "N" c = false
  /\ Ascii.eqb "I" c = false.
Proof.
  intros [H| ->]; [|repeat split].
  revert H. destruct c as [[] [] [] [] [] [] [] []]; vm_compute;
    intros H; try discriminate H; repeat split.
Qed.

Lemma lead_digit (c : ascii) :
  ((49 <=? Text.code c) && (Text.code c <=? 57))%N = true ->
  Text.isdecimal c = true /\ (Text.code c =? 45)%N = false
  /\ (Text.code c =? 48)%N = false /\ Ascii.eqb "I" c = false.
Proof.
  destruct c as [[] [] [] [] [] [] [] []]; vm_compute;
    intros H; try discriminate H; repeat split.
Qed.

Lemma scan_number_lead (c : ascii) (ds rest : string) :
  ((49 <=? Text.code c) && (Text.code c <=? 57))%N = true ->
  all_chars Text.isdecimal ds = true ->
  Json.starts_digit rest = false -> Json.float_follows rest = false ->
  Json.scan_number (String c (ds ++ rest))
    = Ok (Some (PyInt (Json.digits_value (String c ds))), rest)
  /\ Json.scan_number (String "-" (String c (ds ++ rest)))
     = Ok (Some (PyInt (- Json.digits_value (String c ds))), rest).
Proof.
  intros Hc Hds Hrest Hfloat.
  destruct (lead_digit c Hc) as (_ & H45 & H48 & _).
  unfold Json.scan_number.
  change (Text.code "-" =? 45)%N with true. cbv iota.
  rewrite H45, H48, Hc, (span_digits_all ds rest Hds Hrest), Hfloat.
  split; reflexivity.
Qed.

Lemma scan_number_int (z : Z) (rest : string) :
  Json.starts_digit rest = false -> Json.float_follows rest = false ->
  Json.scan_number (Json.dumps_int z ++ rest) = Ok (Some (PyInt z), rest).
Proof.
  intros Hrest Hfloat.
  destruct (dumps_int_cases z) as [[-> ->]|(c & ds & Hc & Hds & Hv & ->)].
  - unfold Json.scan_number. cbn [append].
    change (Text.code "0" =? 45)%N with false. cbv iota.
    change (Text.code "0" =? 48)%N with true. cbv iota.
    now rewrite Hfloat.
  - destruct (scan_number_lead c ds rest Hc Hds Hrest Hfloat) as [Hpos Hneg].
    destruct (Z.ltb_spec z 0).
    + cbn [append]. rewrite Hneg, Hv.
      replace (- Z.abs z)%Z with z by lia. reflexivity.
    + cbn [append]. rewrite Hpos, Hv.
      replace (Z.abs z) with z by lia. reflexivity.
Qed.

(** [scan_once] on the text of an integer is [scan_number]. *)
Lemma scan_once_number (fuel : nat) (c : ascii) (s : string) :
  Text.isdecimal c = true ->
  Json.scan_once (S fuel) (String c s) = Json.scan_number (String c s)
  /\ (Ascii.eqb "I" c = false ->
      Json.scan_once (S fuel) (String "-" (String c s))
        = Json.scan_number (String "-" (String c s))).
Proof.
  intros Hc.
  destruct (number_char c (or_introl Hc))
    as (_ & H34 & H123 & H91 & _ & _ & Hn & Ht & Hf & HN & HI).
  assert (Hminus : Ascii.eqb "-" c = false).
  { clear -Hc. revert Hc. destruct c as [[] [] [] [] [] [] [] []]; vm_compute;
      intros H; try discriminate H; reflexivity. }
  split.
  - cbn [Json.scan_once Json.after].
    rewrite H34, H123, H91, Hn, Ht, Hf, HN, HI, Hminus. reflexivity.
  - intros _. cbn [Json.scan_once Json.after].
    change (Text.code "-" =? 34)%N with false.
    change (Text.code "-" =? 123)%N with false.
    change (Text.code "-" =? 91)%N with false.
    change (Ascii.eqb "n" "-") with false. change (Ascii.eqb "t" "-") with false.
    change (Ascii.eqb "f" "-") with false. change (Ascii.eqb "N" "-") with false.
    change (Ascii.eqb "I" "-") with false. change (Ascii.eqb "-" "-") with true.
    cbv iota. rewrite HI. reflexivity.
Qed.

Lemma scan_once_int (fuel : nat) (z : Z) (rest : string) :
  Json.starts_digit rest = false -> Json.float_follows rest = false ->
  Json.scan_once (S fuel) (Json.dumps_int z ++ rest) = Ok (Some (PyInt z), rest).
Proof.
  intros Hrest Hfloat. rewrite <- (scan_number_int z rest Hrest Hfloat).
  destruct (dumps_int_cases z) as [[-> ->]|(c & ds & Hc & Hds & Hv & ->)].
  - now apply scan_once_number.
  - destruct (lead_digit c Hc) as (Hd & _ & _ & HI).
    destruct (scan_once_number fuel c (ds ++ rest) Hd) as [Hpos Hneg].
    destruct (z <? 0)%Z; [now apply Hneg | exact Hpos].
Qed.

(** The text of a value starts with a character that is no white space
    and closes no list. *)
Lemma dumps_head (v : pyval) :
  exists c s, Json.dumps v = String c s
    /\ Json.is_ws c = false /\ Ascii.eqb "]" c = false.
Proof.
  destruct v as [|[]|z|s|items|entries]; cbn [Json.dumps];
    try (eexists _, _; split; [reflexivity | split; reflexivity]).
  destruct (dumps_int_cases z) as [[-> ->]|(c & ds & Hc & _ & _ & ->)].
  - eexists _, _; split; [reflexivity | split; reflexivity].
  - destruct (z <? 0)%Z.
    + eexists _, _; split; [reflexivity | split; reflexivity].
    + destruct (lead_digit c Hc) as (Hd & _).
      destruct (number_char c (or_introl Hd)) as (Hws & _ & _ & _ & Hclose & _).
      eexists _, _; split; [reflexivity | split; assumption].
Qed.

Lemma skip_ws_dumps (v : pyval) (rest : string) :
  Json.skip_ws (Json.dumps v ++ rest) = Json.dumps v ++ rest.
Proof.
  destruct (dumps_head v) as (c & s & -> & Hws & _).
  cbn [append Json.skip_ws]. now rewrite Hws.
Qed.

Lemma after_close_dumps (v : pyval) (rest : string) :
  Json.after "]" (Json.dumps v ++ rest) = None.
Proof.
  destruct (dumps_head v) as (c & s & -> & _ & Hclose).
  cbn [append Json.after]. now rewrite Hclose.
Qed.

Lemma join_cons (sep a : string) (l : list string) (rest : string) :
  exists tail, Text.join sep (a :: l) ++ rest = a ++ tail.
Proof.
  destruct l as [|b l].
  - now exists rest.
  - rewrite join_two, !append_assoc. eauto.
Qed.

Lemma scan_items_dumps (items : list pyval) :
  forall (v : pyval) (fuel : nat) (rest : string),
    reads_back v -> Forall reads_back items ->
    String.length (Text.join ", " (map Json.dumps (v :: items))) < fuel ->
    Json.scan_items fuel
      (Text.join ", " (map Json.dumps (v :: items)) ++ "]" ++ rest)
      = Ok (Some (v :: items), rest).
Proof.
  induction items as [|v2 more IH]; intros v fuel rest Hv Hitems Hfuel;
    (destruct fuel as [|fuel]; [lia|]); rewrite scan_items_step.
  - cbn [map Text.join] in Hfuel |- *.
    rewrite (Hv fuel ("]" ++ rest)) by (reflexivity || lia). reflexivity.
  - apply Forall_cons in Hitems as [Hv2 Hmore].
    change (map Json.dumps (v :: v2 :: more))
      with (Json.dumps v :: map Json.dumps (v2 :: more)) in Hfuel |- *.
    change (map Json.dumps (v2 :: more))
      with (Json.dumps v2 :: map Json.dumps more) in Hfuel |- * at 1.
    rewrite join_two in Hfuel |- *.
    rewrite !string_length_append in Hfuel. change (String.length ", ") with 2 in Hfuel.
    rewrite !append_assoc.
    rewrite (Hv fuel) by (reflexivity || lia).
    cbn [bind].
    change (", " ++ ?x) with (String "," (String " " x)).
    change (Json.skip_ws (String "," ?x)) with (String "," x). cbn iota.
    change (Text.code "," =? 93)%N with false.
    change (Text.code "," =? 44)%N with true. cbn iota.
    change (Json.skip_ws (String " " ?x)) with (Json.skip_ws x).
    destruct (join_cons ", " (Json.dumps v2) (map Json.dumps more) ("]" ++ rest))
      as [tail Htail].
    assert (Hskip : Json.skip_ws
              (Text.join ", " (Json.dumps v2 :: map Json.dumps more) ++ "]" ++ rest)
            = Text.join ", " (Json.dumps v2 :: map Json.dumps more) ++ "]" ++ rest).
    { rewrite Htail. apply skip_ws_dumps. }
    rewrite Hskip.
    change (Json.dumps v2 :: map Json.dumps more)
      with (map Json.dumps (v2 :: more)).
    rewrite (IH v2 fuel rest Hv2 Hmore); [reflexivity|].
    change (map Json.dumps (v2 :: more))
      with (Json.dumps v2 :: map Json.dumps more). lia.
Qed.

Lemma scan_members_step (fuel : nat) (q : ascii) (s' : string) :
  Json.scan_members (S fuel) (String q s') =
    if (Text.code q =? 34)%N then
      let* (key, rest) := Json.scanstring s' in
      match Json.after ":" (Json.skip_ws rest) with
      | Some rest1 =>
          let* (v, rest2) := Json.scan_once fuel (Json.skip_ws rest1) in
          match Json.skip_ws rest2 with
          | String c rest3 =>
              if (Text.code c =? 125)%N
              then Ok (option_map (fun e => [e]) (Json.both pair key v), rest3)
              else if (Text.code c =? 44)%N then
                let* (ps, r) := Json.scan_members fuel (Json.skip_ws rest3) in
                Ok (Json.both cons (Json.both pair key v) ps, r)
              else Json.bad
          | EmptyString => Json.bad
          end
      | None => Json.bad
      end
    else Json.bad.
Proof. reflexivity. Qed.

Lemma scan_member (fuel : nat) (k : string) (v : pyval) (tail : string) :
  Json.scan_members (S fuel) (member (k, v) ++ tail) =
    (let* (v', rest2) := Json.scan_once fuel (Json.dumps v ++ tail) in
     match Json.skip_ws rest2 with
     | String c rest3 =>
         if (Text.code c =? 125)%N
         then Ok (option_map (fun e => [e]) (Json.both pair (Some k) v'), rest3)
         else if (Text.code c =? 44)%N then
           let* (ps, r) := Json.scan_members fuel (Json.skip_ws rest3) in
           Ok (Json.both cons (Json.both pair (Some k) v') ps, r)
         else Json.bad
     | EmptyString => Json.bad
     end).
Proof.
  unfold member, Json.dumps_str. cbn [fst snd].
  rewrite !append_assoc.
  change (String Json.dquote (Json.escape k ++ Json.chr Json.dquote) ++ ?x)
    with (String Json.dquote ((Json.escape k ++ Json.chr Json.dquote) ++ x)).
  rewrite append_assoc.
  change (Json.chr Json.dquote ++ ?x) with (String Json.dquote x).
  rewrite scan_members_step.
  change (Text.code Json.dquote =? 34)%N with true. cbv iota.
  rewrite scanstring_escape. cbn [bind].
  change (": " ++ ?x) with (String ":" (String " " x)).
  change (Json.skip_ws (String ":" ?x)) with (String ":" x).
  cbn [Json.after]. change (Ascii.eqb ":" ":") with true. cbv iota.
  change (Json.skip_ws (String " " ?x)) with (Json.skip_ws x).
  now rewrite skip_ws_dumps.
Qed.

Lemma member_head (e : string * pyval) (rest : string) :
  exists s, member e ++ rest = String Json.dquote s.
Proof. unfold member, Json.dumps_str. cbn [append]. eauto. Qed.

Lemma scan_members_dumps (entries : list (string * pyval)) :
  forall (e : string * pyval) (fuel : nat) (rest : string),
    reads_back (snd e) -> Forall (fun e => reads_back (snd e)) entries ->
    String.length (Text.join ", " (map member (e :: entries))) < fuel ->
    Json.scan_members fuel
      (Text.join ", " (map member (e :: entries)) ++ "}" ++ rest)
      = Ok (Some (e :: entries), rest).
Proof.
  induction entries as [|e2 more IH]; intros [k v] fuel rest Hv Hentries Hfuel;
    (destruct fuel as [|fuel]; [lia|]); cbn [snd] in Hv.
  - cbn [map Text.join] in Hfuel |- *. rewrite scan_member.
    unfold member in Hfuel. cbn [fst snd] in Hfuel.
    rewrite !string_length_append in Hfuel.
    rewrite (Hv fuel ("}" ++ rest)) by (reflexivity || lia). reflexivity.
  - apply Forall_cons in Hentries as [Hv2 Hmore].
    change (map member ((k, v) :: e2 :: more))
      with (member (k, v) :: member e2 :: map member more) in Hfuel |- *.
    rewrite join_two in Hfuel |- *.
    rewrite !string_length_append in Hfuel.
    change (String.length ", ") with 2 in Hfuel.
    assert (Hk : String.length (Json.dumps v) <= String.length (member (k, v))).
    { unfold member. cbn [fst snd]. rewrite !string_length_append. lia. }
    rewrite !append_assoc, scan_member.
    rewrite (Hv fuel) by (reflexivity || lia).
    cbn [bind].
    change (", " ++ ?x) with (String "," (String " " x)).
    change (Json.skip_ws (String "," ?x)) with (String "," x). cbn iota.
    change (Text.code "," =? 125)%N with false.
    change (Text.code "," =? 44)%N with true. cbn iota.
    change (Json.skip_ws (String " " ?x)) with (Json.skip_ws x).
    destruct (join_cons ", " (member e2) (map member more) ("}" ++ rest))
      as [tail Htail].
    destruct (member_head e2 tail) as [s Hs].
    assert (Hskip : Json.skip_ws
              (Text.join ", " (member e2 :: map member more) ++ "}" ++ rest)
            = Text.join ", " (member e2 :: map member more) ++ "}" ++ rest).
    { rewrite Htail, Hs. reflexivity. }
    rewrite Hskip.
    change (member e2 :: map member more) with (map member (e2 :: more)).
    rewrite (IH e2 fuel rest Hv2 Hmore); [reflexivity|].
    change (map member (e2 :: more)) with (member e2 :: map member more). lia.
Qed.

(** A dict built key by key from entries that name each key once is
    those entries. *)
Lemma unique_app (l k : list string) :
  unique (l ++ k)%list = true ->
  unique l = true /\ unique k = true
  /\ forall x, In x k -> existsb (String.eqb x) l = false.
Proof.
  induction l as [|a l IH]; cbn [app unique]; intros H.
  - repeat split; auto.
  - apply andb_true_iff in H as [Ha H]. apply negb_true_iff in Ha.
    rewrite existsb_app in Ha. apply orb_false_iff in Ha as [Hal Hak].
    destruct (IH H) as (Hl & Hk & Hx).
    rewrite Hal, Hl. repeat split; auto.
    intros x Hin. cbn [existsb]. rewrite (Hx x Hin), orb_false_r.
    destruct (String.eqb_spec x a) as [->|]; [|reflexivity].
    assert (Hex : existsb (String.eqb a) k = true).
    { apply existsb_exists. exists a. split; [exact Hin | apply String.eqb_refl]. }
    congruence.
Qed.

Lemma dict_set_fresh (k : string) (v : pyval) (d : list (string * pyval)) :
  existsb (String.eqb k) (map fst d) = false ->
  Json.dict_set k v d = (d ++ [(k, v)])%list.
Proof.
  induction d as [|[k' v'] d IH]; cbn [map fst existsb Json.dict_set app];
    [reflexivity|].
  intros H. apply orb_false_iff in H as [Hk Hd].
  now rewrite Hk, (IH Hd).
Qed.

Lemma dict_of_pairs_unique (ps : list (string * pyval)) :
  unique (map fst ps) = true -> Json.dict_of_pairs ps = ps.
Proof.
  unfold Json.dict_of_pairs.
  enough (H : forall acc, unique (map fst (acc ++ ps)%list) = true ->
            fold_left (fun d kv => Json.dict_set (fst kv) (snd kv) d) ps acc
            = (acc ++ ps)%list) by (intros Hu; now apply (H [])).
  induction ps as [|[k v] ps IH]; intros acc Hu; cbn [fold_left fst snd].
  - now rewrite app_nil_r.
  - rewrite dict_set_fresh.
    + rewrite IH; rewrite <- app_assoc; [reflexivity | exact Hu].
    + rewrite map_app in Hu. apply unique_app in Hu as (_ & _ & Hx).
      apply Hx. now left.
Qed.

Lemma forallb_Forall_reads (items : list pyval) :
  Forall (fun v => keys_once v = true -> reads_back v) items ->
  forallb keys_once items = true -> Forall reads_back items.
Proof.
  induction 1 as [|v items Hv _ IH]; cbn [forallb]; intros H; constructor;
    apply andb_true_iff in H as [H1 H2]; auto.
Qed.

Lemma forallb_Forall_entries (entries : list (string * pyval)) :
  Forall (fun e => keys_once (snd e) = true -> reads_back (snd e)) entries ->
  forallb (fun e => keys_once (snd e)) entries = true ->
  Forall (fun e => reads_back (snd e)) entries.
Proof.
  induction 1 as [|e entries He _ IH]; cbn [forallb]; intros H; constructor;
    apply andb_true_iff in H as [H1 H2]; auto.
Qed.

(** [scan_once] reads back the text [json.dumps] wrote, given fuel for
    its length. *)
Lemma scan_once_dumps (v : pyval) : keys_once v = true -> reads_back v.
Proof.
  induction v as [|b|z|s|items IH|entries IH] using pyval_nested_ind;
    intros Hkeys fuel rest Hfuel Hdigit Hfloat.
  - destruct fuel as [|fuel]; [cbn in Hfuel; lia | reflexivity].
  - destruct fuel as [|fuel]; [destruct b; cbn in Hfuel; lia|].
    destruct b; reflexivity.
  - destruct fuel as [|fuel].
    { destruct (dumps_head (PyInt z)) as (c & s & E & _).
      rewrite E in Hfuel. cbn in Hfuel. lia. }
    now apply scan_once_int.
  - destruct fuel as [|fuel]; [cbn in Hfuel; lia|]. apply scan_once_str.
  - cbn [keys_once] in Hkeys.
    pose proof (forallb_Forall_reads items IH Hkeys) as Hall.
    destruct fuel as [|fuel]; [cbn in Hfuel; lia|].
    destruct items as [|v items]; [reflexivity|].
    apply Forall_cons in Hall as [Hv Hitems].
    cbn [Json.dumps] in Hfuel |- *.
    change ("[" ++ ?x) with (String "[" x) in Hfuel |- *.
    cbn [String.length] in Hfuel. rewrite string_length_append in Hfuel.
    change (String.length "]") with 1 in Hfuel.
    change (String "[" ?x ++ rest) with (String "[" (x ++ rest)).
    rewrite append_assoc.
    cbn [Json.scan_once].
    change (Text.code "[" =? 34)%N with false.
    change (Text.code "[" =? 123)%N with false.
    change (Text.code "[" =? 91)%N with true. cbv iota.
    change (map Json.dumps (v :: items))
      with (Json.dumps v :: map Json.dumps items) in Hfuel |- *.
    destruct (join_cons ", " (Json.dumps v) (map Json.dumps items) ("]" ++ rest))
      as [tail Htail].
    assert (Hskip : Json.skip_ws
              (Text.join ", " (Json.dumps v :: map Json.dumps items) ++ "]" ++ rest)
            = Text.join ", " (Json.dumps v :: map Json.dumps items) ++ "]" ++ rest).
    { rewrite Htail. apply skip_ws_dumps. }
    rewrite Hskip.
    assert (Hafter : Json.after "]"
              (Text.join ", " (Json.dumps v :: map Json.dumps items) ++ "]" ++ rest)
            = None).
    { rewrite Htail. apply after_close_dumps. }
    rewrite Hafter.
    change (Json.dumps v :: map Json.dumps items)
      with (map Json.dumps (v :: items)).
    rewrite (scan_items_dumps items v fuel rest Hv Hitems); [reflexivity|].
    change (map Json.dumps (v :: items))
      with (Json.dumps v :: map Json.dumps items). lia.
  - cbn [keys_once] in Hkeys. apply andb_true_iff in Hkeys as [Hunique Hkeys].
    pose proof (forallb_Forall_entries entries IH Hkeys) as Hall.
    destruct fuel as [|fuel]; [cbn in Hfuel; lia|].
    destruct entries as [|e entries]; [reflexivity|].
    apply Forall_cons in Hall as [Hv Hentries].
    cbn [Json.dumps] in Hfuel |- *.
    change (map (fun e0 => Json.dumps_str (fst e0) ++ ": " ++ Json.dumps (snd e0))
                (e :: entries))
      with (member e :: map member entries) in Hfuel |- *.
    change ("{" ++ ?x) with (String "{" x) in Hfuel |- *.
    cbn [String.length] in Hfuel. rewrite string_length_append in Hfuel.
    change (String.length "}") with 1 in Hfuel.
    change (String "{" ?x ++ rest) with (String "{" (x ++ rest)).
    rewrite append_assoc.
    cbn [Json.scan_once].
    change (Text.code "{" =? 34)%N with false.
    change (Text.code "{" =? 123)%N with true. cbv iota.
    destruct (join_cons ", " (member e) (map member entries) ("}" ++ rest))
      as [tail Htail].
    destruct (member_head e tail) as [s Hs].
    assert (Hskip : Json.skip_ws
              (Text.join ", " (member e :: map member entries) ++ "}" ++ rest)
            = Text.join ", " (member e :: map member entries) ++ "}" ++ rest).
    { rewrite Htail, Hs. reflexivity. }
    rewrite Hskip.
    assert (Hafter : Json.after "}"
              (Text.join ", " (member e :: map member entries) ++ "}" ++ rest)
            = None).
    { rewrite Htail, Hs. reflexivity. }
    rewrite Hafter.
    change (member e :: map member entries) with (map member (e :: entries)).
    rewrite (scan_members_dumps entries e fuel rest Hv Hentries).
    + cbn [bind option_map]. now rewrite (dict_of_pairs_unique _ Hunique).
    + change (map member (e :: entries)) with (member e :: map member entries).
      lia.
Qed.

(** [json.loads] reads back what [json.dumps] wrote. *)
Lemma loads_dumps (v : pyval) :
  keys_once v = true -> Json.loads (Json.dumps v) = Ok v.
Proof.
  intros Hkeys. unfold Json.loads.
  rewrite <- (append_nil_r (Json.dumps v)) at 2.
  rewrite skip_ws_dumps.
  rewrite (scan_once_dumps v Hkeys _ "") by (reflexivity || lia).
  reflexivity.
Qed.

(** X13.  [json.loads] reads back every value [json.dumps] wrote, so a
    list of dependencies written by lines 133-135 and read by lines
    165-171 comes back as the same list, whatever JSON values it holds;
    only a list whose items are all strings comes back as one string,
    the items joined by a comma and a space. *)
Theorem listed_dependencies_read_back :
  (forall v, keys_once v = true -> Json.loads (Json.dumps v) = Ok v)
  /\ (forall items, keys_once (PyList items) = true ->
        formatted_dependencies (stored_dependencies (PyList items)) =
          Ok (match all_str items with
              | Some parts => PyStr (Text.join ", " parts)
              | None => PyList items
              end)).
Proof.
  split; [exact loads_dumps|].
  intros items Hkeys. unfold stored_dependencies, formatted_dependencies.
  cbn [is_list]. rewrite (loads_dumps _ Hkeys).
  destruct (all_str items); reflexivity.
Qed.

Lemma listed_dependencies_read_back_witness :
  formatted_dependencies
    (stored_dependencies
       (PyList [PyStr "Draft"; PyInt (-12); PyDict [("after", PyNone)]]))
  = Ok (PyList [PyStr "Draft"; PyInt (-12); PyDict [("after", PyNone)]]).
Proof.
  apply (proj2 listed_dependencies_read_back
           [PyStr "Draft"; PyInt (-12); PyDict [("after", PyNone)]]).
  reflexivity.
Defined.

End JsonRoundTrip.

(** ** A plan the service sends as JSON text *)

(** X14.  Lines 57-66 and 117-152 together: when the service answers
    the user message of the goal with the JSON text of a plan whose
    tasks are a list of dicts, the remote generator returns that plan,
    and the handler, the store being up, answers 200 with those tasks in
    their order and used_fallback false. *)
Theorem plan_sent_as_json_is_answered (w : world) (data : pyval)
    (text : string) (create : string -> option string)
    (d : list (string * pyval)) (items : list pyval) (db : mongo) :
  request_goal data = Some text -> text <> ""%string -> store_up w ->
  client w = Some create ->
  create (user_message text) = Some (Json.dumps (PyDict d)) ->
  keys_once (PyDict d) = true ->
  dict_lookup "tasks" d = Some (PyList items) ->
  forallb is_dict items = true ->
  generate_plan_with_groq w text = Ok (PyDict d)
  /\ exists db',
       generate_plan_endpoint w data db =
         (db', Ok (plan_response (next_oid db) text (PyList items) false, 200)).
Proof.
  intros Hg Hne Hup Hc Hanswer Hkeys Hd Hitems.
  assert (Hp : generate_plan_with_groq w text = Ok (PyDict d)).
  { unfold generate_plan_with_groq.
    now rewrite Hc, Hanswer, (loads_dumps _ Hkeys). }
  split; [exact Hp|].
  rewrite (endpoint_with_goal w data text db Hg Hne).
  now apply (remote_up w text d items).
Qed.

Lemma plan_sent_as_json_is_answered_witness :
  generate_plan_with_groq service_lists_dependencies "Finish report in 2 hours"
    = Ok (PyDict [("tasks", sample_tasks)])
  /\ exists db',
       generate_plan_endpoint service_lists_dependencies sample_request
         empty_store = (db', Ok (sample_body, 200)).
Proof.
  apply (plan_sent_as_json_is_answered service_lists_dependencies
           sample_request "Finish report in 2 hours"
           (fun _ => Some (Json.dumps (PyDict [("tasks", sample_tasks)])))
           [("tasks", sample_tasks)]
           [PyDict [("task_description", PyStr "Draft the outline");
                    ("dependencies", PyList [PyStr "A"; PyStr "B"]);
                    ("deadline", PyStr "Today")]]
           empty_store);
    (reflexivity || discriminate || (intros ?; reflexivity)).
Defined.
